(** * ACCANA2: the accreditation analyzer, its review workflow, login and
      internal messages

    A shallow embedding of the TypeScript handlers of the dashboard
    (AccreditationAnalyzer, SubmissionReviewModal, Login,
    InternalMessagesModal, and besides App, NotificationsModal,
    UserManagementModal and ExternalTrainingModal), the properties of the
    written specification that concern them, and further properties that
    the handlers have.

    Conventions of the embedding.
    - A JavaScript string is a Rocq [string]; its characters are the code
      units 0..255 (Basic Latin and Latin-1), on which [toLowerCase], the
      regular expression class [\s] and [trim] are defined exactly as
      ECMAScript defines them.
    - A JavaScript number that [JSON.parse] can produce is a finite rational
      or one of the two infinities ([JSON.parse] never yields NaN).
    - A value obtained from [JSON.parse], or read from a property of one, is
      a [value]; a missing property reads as [VUndefined].
    - Code that may throw returns a [result]; React state is a record and a
      handler is a function from the state (and the local storage) to the
      next state.
    - A handler that reads or writes the local storage inside a [try]
      takes a [LocalStorage] that says which accesses throw, and has the
      branch of its [catch]. *)

From Stdlib Require Import String Ascii List ZArith NArith QArith Qcanon Bool Lia Lqa Permutation.
From stdpp Require Import base option list gmap strings numbers sorting.
Import ListNotations.

Local Open Scope string_scope.
Local Open Scope list_scope.

(* ===================================================================== *)
(** ** JavaScript values and built-ins                                    *)
(* ===================================================================== *)

Module JS.

(** *** Strings *)

(** [String.prototype.toLowerCase] on one code unit below 256: the upper
    case letters are A-Z and U+00C0-U+00DE without the multiplication
    sign U+00D7; each maps to the code unit 32 above it. *)
Definition lowerChar (c : ascii) : ascii :=
  let n := N_of_ascii c in
  if ((65 <=? n) && (n <=? 90) || (192 <=? n) && (n <=? 222) && negb (n =? 215))%N
  then ascii_of_N (n + 32) else c.

Fixpoint toLowerCase (s : string) : string :=
  match s with
  | EmptyString => EmptyString
  | String c r => String (lowerChar c) (toLowerCase r)
  end.

(** The class [\s] below 256: TAB, LF, VT, FF, CR, SPACE and NBSP. *)
Definition isWhiteSpace (c : ascii) : bool :=
  let n := N_of_ascii c in
  ((9 <=? n) && (n <=? 13) || (n =? 32) || (n =? 160))%N.

Definition isHyphen (c : ascii) : bool := (N_of_ascii c =? 45)%N.

(** [s.replace(/C/g, '')] and [s.replace(/C+/g, '')] for a character
    class [C]: every character of the class is removed. *)
Fixpoint removeAll (p : ascii -> bool) (s : string) : string :=
  match s with
  | EmptyString => EmptyString
  | String c r => if p c then removeAll p r else String c (removeAll p r)
  end.

Fixpoint trimStart (s : string) : string :=
  match s with
  | EmptyString => EmptyString
  | String c r => if isWhiteSpace c then trimStart r else s
  end.

(** Drops the trailing white space: a character is kept when it is not
    white space or when something is kept after it. *)
Fixpoint trimEnd (s : string) : string :=
  match s with
  | EmptyString => EmptyString
  | String c r =>
      match trimEnd r with
      | EmptyString => if isWhiteSpace c then EmptyString else String c EmptyString
      | r' => String c r'
      end
  end.

Definition trim (s : string) : string := trimEnd (trimStart s).

Definition isEmpty (s : string) : bool :=
  match s with EmptyString => true | _ => false end.

(** [hay.includes(needle)] *)
Fixpoint includes (needle hay : string) : bool :=
  String.prefix needle hay ||
  match hay with
  | EmptyString => false
  | String _ r => includes needle r
  end.

(** *** Numbers *)

Inductive number :=
| Finite (q : Qc)
| PosInfinity
| NegInfinity.

Definition ofZ (z : Z) : number := Finite (Q2Qc (inject_Z z)).

(** [a < b] *)
Definition ltb (a b : number) : bool :=
  match a, b with
  | Finite x, Finite y => bool_decide (x < y)%Qc
  | Finite _, PosInfinity => true
  | NegInfinity, Finite _ => true
  | NegInfinity, PosInfinity => true
  | _, _ => false
  end.

Definition Math_min (a b : number) : number := if ltb b a then b else a.
Definition Math_max (a b : number) : number := if ltb a b then b else a.

(** *** Values *)

#[warnings="-register-all"] Inductive value :=
| VUndefined
| VNull
| VBool (b : bool)
| VNum (n : number)
| VStr (s : string)
| VArr (elements : list value)
| VObj (fields : list (string * value)).

(** ToBoolean *)
Definition truthy (v : value) : bool :=
  match v with
  | VUndefined | VNull => false
  | VBool b => b
  | VNum (Finite q) => negb (bool_decide (q = Q2Qc 0))
  | VNum _ => true
  | VStr s => negb (isEmpty s)
  | VArr _ | VObj _ => true
  end.

(** [!!o] for a cell or a result that holds an object or nothing. *)
Definition notNull {A} (o : option A) : bool :=
  match o with Some _ => true | None => false end.

(** [a || b] *)
Definition orElse (a b : value) : value := if truthy a then a else b.

(** [typeof v === 'number'] *)
Definition asNumber (v : value) : option number :=
  match v with VNum n => Some n | _ => None end.

(** [v !== s] for a string literal [s] *)
Definition strictNeStr (v : value) (s : string) : bool :=
  match v with VStr t => negb (String.eqb t s) | _ => true end.

(** *** Exceptions *)

Inductive errorKind := KError | KTypeError | KSyntaxError.

(** What a [throw] or a rejected promise carries: an [Error] object of
    some kind with its message, or any other value, given by its
    [String(...)] rendering. *)
Inductive exn :=
| ErrorObject (kind : errorKind) (message : string)
| NonError (rendering : string).

Inductive result (A : Type) :=
| Ok (a : A)
| Throw (e : exn).
Arguments Ok {A} a.
Arguments Throw {A} e.

#[global] Instance result_ret : MRet result := fun A a => Ok a.
#[global] Instance result_bind : MBind result := fun A B k r =>
  match r with
  | Ok a => k a
  | Throw e => Throw e
  end.

#[global] Instance result_fmap : FMap result := fun A B f r =>
  match r with
  | Ok a => Ok (f a)
  | Throw e => Throw e
  end.

(** [Array.prototype.map] with a callback that may throw is stdpp's
    [mapM] at [result]; [Array.prototype.find] with a predicate that may
    throw stops at the first element whose test throws or holds. *)
Fixpoint findM {A} (p : A -> result bool) (l : list A) : result (option A) :=
  match l with
  | [] => Ok None
  | x :: r => b ← p x; if b : bool then Ok (Some x) else findM p r
  end.

Fixpoint lookupField (k : string) (fields : list (string * value)) : value :=
  match fields with
  | [] => VUndefined
  | (k', v) :: r => if String.eqb k' k then v else lookupField k r
  end.

(** [v.k] for a property name [k] that no prototype defines (all the names
    read by the analyzer are such): a TypeError on [undefined] and [null],
    the field of an object, [undefined] on anything else. *)
Definition getProp (v : value) (k : string) : result value :=
  match v with
  | VUndefined | VNull =>
      Throw (ErrorObject KTypeError ("Cannot read properties of " +:+
        (match v with VNull => "null" | _ => "undefined" end) +:+
        " (reading '" +:+ k +:+ "')"))
  | VObj fields => Ok (lookupField k fields)
  | _ => Ok VUndefined
  end.

End JS.


(** A line feed, the separator the analyzer puts between error lines. *)
Definition LF : string := String (ascii_of_N 10) EmptyString.

(* ===================================================================== *)
(** ** App: users and roles                                               *)
(* ===================================================================== *)

Inductive UserRole := Admin | UniversityLead | UniversityID.

#[global] Instance UserRole_eq_dec : EqDecision UserRole.
Proof. solve_decision. Defined.

Module User.
Record t := { username : string; role : UserRole }.
End User.
Abbreviation User := User.t.

(* ===================================================================== *)
(** ** AccreditationAnalyzer: data                                        *)
(* ===================================================================== *)

Module Standard.
Record t := { id : string; name : string; description : string }.
End Standard.
Abbreviation Standard := Standard.t.

Module AccreditationBody.
Record t := { key : string; name : string; standards : list Standard }.
End AccreditationBody.
Abbreviation AccreditationBody := AccreditationBody.t.

Definition ACCREDITATION_BODIES : list AccreditationBody :=
  [ {| AccreditationBody.key := "ADA";
       AccreditationBody.name := "American Dental Association (ADA CODA)";
       AccreditationBody.standards :=
         [ {| Standard.id := "ADA-1.1"; Standard.name := "Curriculum Management & Evaluation";
              Standard.description := "Programs must demonstrate effective curriculum planning, review, and evaluation processes to ensure content is current, comprehensive, and well-organized." |};
           {| Standard.id := "ADA-2.3"; Standard.name := "Patient Care Competencies";
              Standard.description := "Graduates must be competent in providing comprehensive patient care, including assessment, diagnosis, treatment planning, and management of diverse patient populations." |};
           {| Standard.id := "ADA-3.5"; Standard.name := "Ethical Reasoning and Professional Conduct";
              Standard.description := "Students and graduates must demonstrate understanding and application of ethical principles and professional conduct in all aspects of dental practice." |};
           {| Standard.id := "ADA-4.1"; Standard.name := "Faculty and Staff Qualifications";
              Standard.description := "Programs must have a sufficient number of qualified faculty and staff to support the educational program and its objectives." |};
           {| Standard.id := "ADA-5.2"; Standard.name := "Learning Environment and Resources";
              Standard.description := "The program must provide a safe and supportive learning environment with adequate physical resources, facilities, and student support services." |};
           {| Standard.id := "ADA-6.0"; Standard.name := "Research and Scholarly Activity";
              Standard.description := "Programs should foster an environment that encourages research and scholarly activity among students and faculty." |} ] |};
    {| AccreditationBody.key := "GDC";
       AccreditationBody.name := "General Dental Council (GDC)";
       AccreditationBody.standards :=
         [ {| Standard.id := "GDC-1.0"; Standard.name := "Clinical Safety and Effectiveness";
              Standard.description := "Registrants must practise safely and effectively, ensuring patient safety at all times." |};
           {| Standard.id := "GDC-2.0"; Standard.name := "Communication";
              Standard.description := "Registrants must communicate effectively with patients, colleagues, and others." |};
           {| Standard.id := "GDC-3.0"; Standard.name := "Professionalism";
              Standard.description := "Registrants must maintain appropriate professional behaviour, ethics, and integrity." |};
           {| Standard.id := "GDC-4.0"; Standard.name := "Continuing Professional Development (CPD)";
              Standard.description := "Registrants must engage in ongoing CPD to maintain and develop their knowledge and skills." |};
           {| Standard.id := "GDC-5.0"; Standard.name := "Teamworking";
              Standard.description := "Registrants must work effectively with other members of the dental team and wider healthcare professionals." |} ] |};
    {| AccreditationBody.key := "NCAAA";
       AccreditationBody.name := "National Center for Academic Accreditation and Assessment (NCAAA - ETEC)";
       AccreditationBody.standards :=
         [ {| Standard.id := "NCAAA-S1"; Standard.name := "Mission and Goals";
              Standard.description := "The program must have a clear mission and goals that are aligned with institutional and national priorities." |};
           {| Standard.id := "NCAAA-S2"; Standard.name := "Program Management and Quality Assurance";
              Standard.description := "The program must have effective leadership, governance, and quality assurance processes." |};
           {| Standard.id := "NCAAA-S3"; Standard.name := "Curriculum";
              Standard.description := "The program curriculum must be appropriate, current, and effectively delivered." |};
           {| Standard.id := "NCAAA-S4"; Standard.name := "Learning and Teaching";
              Standard.description := "The program must ensure high-quality learning and teaching through appropriate strategies, resources, and assessment." |};
           {| Standard.id := "NCAAA-S5"; Standard.name := "Student Administration and Support Services";
              Standard.description := "The program must provide adequate support services for students, including admission, academic advising, and counseling." |};
           {| Standard.id := "NCAAA-S6"; Standard.name := "Learning Resources";
              Standard.description := "The program must have access to adequate learning resources, including libraries, laboratories, and IT infrastructure." |};
           {| Standard.id := "NCAAA-S7"; Standard.name := "Facilities and Equipment";
              Standard.description := "The program must have appropriate physical facilities and equipment to support its activities." |};
           {| Standard.id := "NCAAA-S8"; Standard.name := "Faculty and Staff";
              Standard.description := "The program must have qualified and sufficient faculty and staff." |};
           {| Standard.id := "NCAAA-S9"; Standard.name := "Research";
              Standard.description := "The program should promote and support research activities relevant to its field." |};
           {| Standard.id := "NCAAA-S10"; Standard.name := "Community Engagement";
              Standard.description := "The program should contribute to the community through service and engagement." |};
           {| Standard.id := "NCAAA-S11"; Standard.name := "Program Evaluation and Improvement";
              Standard.description := "The program must have systematic processes for evaluation and continuous improvement." |} ] |} ].

(** The fields of a result item hold whatever the reconciliation puts
    there: a catalog string, a literal, or a value taken from the response
    as it came. *)
Module AnalysisResultItem.
Record t := {
  standardId : JS.value;
  standardName : JS.value;
  matchPercentage : JS.number;
  improvementFeedback : JS.value;
  reasoning : JS.value
}.
End AnalysisResultItem.
Abbreviation AnalysisResultItem := AnalysisResultItem.t.

Module AnalysisResultsGroup.
Record t := {
  accreditationBodyKey : string;
  accreditationBodyName : string;
  overallMatchingStatement : option string;
  items : list AnalysisResultItem
}.
End AnalysisResultsGroup.
Abbreviation AnalysisResultsGroup := AnalysisResultsGroup.t.

Inductive ProgramContentLanguage := English | Arabic.

Module SubmissionNote.
Record t := { by_ : string; role : UserRole; timestamp : string; text : string }.
End SubmissionNote.
Abbreviation SubmissionNote := SubmissionNote.t.

Inductive SubmissionStatus := pending | approved | rejected.

#[global] Instance SubmissionStatus_eq_dec : EqDecision SubmissionStatus.
Proof. solve_decision. Defined.

Module Submission.
Record t := {
  id : string;
  submittedByUsername : string;
  submittedByUserRole : UserRole;
  submittedAt : string;
  programContent : string;
  programContentLanguage : ProgramContentLanguage;
  analysisResults : list AnalysisResultsGroup;
  selectedBodyKeys : list string;
  status : SubmissionStatus;
  notes : list SubmissionNote
}.
End Submission.
Abbreviation Submission := Submission.t.

Module Notification.
Record t := {
  id : string;
  recipientUsername : string;
  message : string;
  timestamp : string;
  isRead : bool;
  relatedSubmissionId : option string
}.
End Notification.
Abbreviation Notification := Notification.t.

(** The two local-storage collections of the review workflow, each decoded
    from its JSON array (an absent key reads as the empty list). *)
Module Storage.
Record t := {
  accreditationSubmissions : list Submission;
  accreditationSubmissionNotifications : list Notification
}.
End Storage.
Abbreviation Storage := Storage.t.

(** The keys of the collections, and of the internal messages. *)
Definition LOCAL_STORAGE_SUBMISSIONS_KEY : string := "accreditationSubmissions".
Definition LOCAL_STORAGE_SUBMISSION_NOTIFICATIONS_KEY : string :=
  "accreditationSubmissionNotifications".
Definition LOCAL_STORAGE_INTERNAL_MESSAGES_KEY : string := "internalUserMessages".

(** [localStorage] can throw: [getItem] where the storage is denied,
    [JSON.parse] on an item that is not JSON, [setItem] when the quota is
    exceeded (nothing is written then).  [reading key] is what
    [JSON.parse(localStorage.getItem(key))] throws, if it throws, and
    [writing key] what [localStorage.setItem(key, ...)] throws.  The
    handlers that put their accesses in a [try] take this as an argument
    and have a branch for their [catch]; an access outside every [try] is
    modelled where it answers. *)
Module LocalStorage.
Record t := {
  reading : string -> option JS.exn;
  writing : string -> option JS.exn
}.

(** The store that answers every access. *)
Definition working : t := {| reading := fun _ => None; writing := fun _ => None |}.
End LocalStorage.
Abbreviation LocalStorage := LocalStorage.t.

(** [e.message] of what a [catch (e: any)] caught, inside a template
    literal. *)
Definition errorMessage (e : JS.exn) : string :=
  match e with
  | JS.ErrorObject _ message => message
  | JS.NonError _ => "undefined"
  end.

(* ===================================================================== *)
(** ** AccreditationAnalyzer: reconciliation of one AI response           *)
(* ===================================================================== *)

Import JS.

(** [const normalizeId = (id: string) =>
       id ? id.toLowerCase().replace(/\s+/g, '').replace(/-/g, '') : '']
    The argument is typed [string] but comes from the parsed response, so
    it is any value; a truthy value that is not a string has no
    [toLowerCase] and the call throws. *)
Definition normalizeId (id : value) : result string :=
  if truthy id then
    match id with
    | VStr s => Ok (removeAll isHyphen (removeAll isWhiteSpace (toLowerCase s)))
    | _ => Throw (ErrorObject KTypeError "id.toLowerCase is not a function")
    end
  else Ok "".

(** [selectedAccreditationBody.standards.find(
       s => normalizeId(s.id) === normalizeId(originalApiStandardId))] *)
Definition findMatchedStandard (body : AccreditationBody) (originalApiStandardId : value)
  : result (option Standard) :=
  findM (fun s : Standard =>
           a ← normalizeId (VStr (Standard.id s));
           b ← normalizeId originalApiStandardId;
           Ok (String.eqb a b))
        (AccreditationBody.standards body).

Definition REASONING_PLACEHOLDER : string := "Reasoning not explicitly provided by AI.".

(** The callback of [parsedData.results.map((item: any) => ...)]. *)
Definition reconcileItem (body : AccreditationBody) (item : value) : result AnalysisResultItem :=
  originalApiStandardId ← getProp item "standardId";
  matchedStandard ← findMatchedStandard body originalApiStandardId;
  finalStandardId ←
    match matchedStandard with
    | Some s => Ok (VStr (Standard.id s))
    | None => Ok (orElse originalApiStandardId (VStr "N/A"))
    end;
  finalStandardName ←
    match matchedStandard with
    | Some s => Ok (VStr (Standard.name s))
    | None => n ← getProp item "standardName"; Ok (orElse n (VStr "Unknown Standard"))
    end;
  returnedPercentage ← getProp item "matchPercentage";
  returnedFeedback ← getProp item "improvementFeedback";
  returnedReasoning ← getProp item "reasoning";
  Ok {| AnalysisResultItem.standardId := finalStandardId;
        AnalysisResultItem.standardName := finalStandardName;
        AnalysisResultItem.matchPercentage :=
          match asNumber returnedPercentage with
          | Some n => Math_max (ofZ 0) (Math_min (ofZ 100) n)
          | None => ofZ 0
          end;
        AnalysisResultItem.improvementFeedback :=
          orElse returnedFeedback (VStr "No feedback provided.");
        AnalysisResultItem.reasoning :=
          orElse returnedReasoning
            (match asNumber returnedPercentage with
             | Some n => if ltb n (ofZ 75) then VStr REASONING_PLACEHOLDER else VUndefined
             | None => VUndefined
             end) |}.

(** [.filter(item => item.standardId !== "N/A")] *)
Definition keepItem (item : AnalysisResultItem) : bool :=
  strictNeStr (AnalysisResultItem.standardId item) "N/A".

(** The items of a result group: [results.map(...).filter(...)]. *)
Definition reconcileResults (body : AccreditationBody) (results : list value)
  : result (list AnalysisResultItem) :=
  mapped ← mapM (reconcileItem body) results;
  Ok (List.filter keepItem mapped).

Definition invalidStructure (body : AccreditationBody) : exn :=
  ErrorObject KError
    ("Invalid JSON structure in API response for " +:+ AccreditationBody.name body
       +:+ ". Expected 'results' array.").

(** One element of [resultsPromises]: the async callback of
    [selectedBodyKeys.map(async (bodyKey) => ...)], settled.  [ai key] is
    what the awaited [generateContent] call for the body with that key,
    followed by [trim], the removal of a code fence and [JSON.parse],
    produces: the parsed data, or what was thrown on the way. *)
Definition analyzeBody (ai : string -> result value) (bodyKey : string)
  : result AnalysisResultsGroup :=
  match List.find (fun b => String.eqb (AccreditationBody.key b) bodyKey) ACCREDITATION_BODIES with
  | None => Throw (ErrorObject KError ("Invalid accreditation body key: " +:+ bodyKey))
  | Some body =>
      parsedData ← ai (AccreditationBody.key body);
      results ← getProp parsedData "results";
      match results with
      | VArr elements =>
          items ← reconcileResults body elements;
          Ok {| AnalysisResultsGroup.accreditationBodyKey := AccreditationBody.key body;
                AnalysisResultsGroup.accreditationBodyName := AccreditationBody.name body;
                AnalysisResultsGroup.overallMatchingStatement := None;
                AnalysisResultsGroup.items := items |}
      | _ => Throw (invalidStructure body)
      end
  end.

(* ===================================================================== *)
(** ** AccreditationAnalyzer: component state and handlers                *)
(* ===================================================================== *)

Module RevisingInfo.
Record t := {
  id : string;
  originalStatus : SubmissionStatus;
  notes : option (list SubmissionNote)
}.
End RevisingInfo.
Abbreviation RevisingInfo := RevisingInfo.t.

(** The [useState] cells the modelled handlers read or write. *)
Module State.
Record t := {
  selectedBodyKeys : list string;
  programContent : string;
  programContentLanguage : ProgramContentLanguage;
  analysisResults : option (list AnalysisResultsGroup);
  isLoading : bool;
  isFileParsing : bool;
  isSubmitting : bool;
  error : option string;
  showPrintableReport : bool;
  submissionsForReview : list Submission;
  userPastSubmissions : list Submission;
  revisingSubmissionInfo : option RevisingInfo;
  selectedSubmissionForReview : option Submission;
  hasPendingSubmission : bool
}.

Definition setSelectedBodyKeys v (s : t) : t :=
  {| selectedBodyKeys := v; programContent := programContent s;
     programContentLanguage := programContentLanguage s; analysisResults := analysisResults s;
     isLoading := isLoading s; isFileParsing := isFileParsing s;
     isSubmitting := isSubmitting s; error := error s;
     showPrintableReport := showPrintableReport s;
     submissionsForReview := submissionsForReview s;
     userPastSubmissions := userPastSubmissions s;
     revisingSubmissionInfo := revisingSubmissionInfo s;
     selectedSubmissionForReview := selectedSubmissionForReview s;
     hasPendingSubmission := hasPendingSubmission s |}.
Definition setProgramContent v (s : t) : t :=
  {| selectedBodyKeys := selectedBodyKeys s; programContent := v;
     programContentLanguage := programContentLanguage s; analysisResults := analysisResults s;
     isLoading := isLoading s; isFileParsing := isFileParsing s;
     isSubmitting := isSubmitting s; error := error s;
     showPrintableReport := showPrintableReport s;
     submissionsForReview := submissionsForReview s;
     userPastSubmissions := userPastSubmissions s;
     revisingSubmissionInfo := revisingSubmissionInfo s;
     selectedSubmissionForReview := selectedSubmissionForReview s;
     hasPendingSubmission := hasPendingSubmission s |}.
Definition setProgramContentLanguage v (s : t) : t :=
  {| selectedBodyKeys := selectedBodyKeys s; programContent := programContent s;
     programContentLanguage := v; analysisResults := analysisResults s;
     isLoading := isLoading s; isFileParsing := isFileParsing s;
     isSubmitting := isSubmitting s; error := error s;
     showPrintableReport := showPrintableReport s;
     submissionsForReview := submissionsForReview s;
     userPastSubmissions := userPastSubmissions s;
     revisingSubmissionInfo := revisingSubmissionInfo s;
     selectedSubmissionForReview := selectedSubmissionForReview s;
     hasPendingSubmission := hasPendingSubmission s |}.
Definition setAnalysisResults v (s : t) : t :=
  {| selectedBodyKeys := selectedBodyKeys s; programContent := programContent s;
     programContentLanguage := programContentLanguage s; analysisResults := v;
     isLoading := isLoading s; isFileParsing := isFileParsing s;
     isSubmitting := isSubmitting s; error := error s;
     showPrintableReport := showPrintableReport s;
     submissionsForReview := submissionsForReview s;
     userPastSubmissions := userPastSubmissions s;
     revisingSubmissionInfo := revisingSubmissionInfo s;
     selectedSubmissionForReview := selectedSubmissionForReview s;
     hasPendingSubmission := hasPendingSubmission s |}.
Definition setIsLoading v (s : t) : t :=
  {| selectedBodyKeys := selectedBodyKeys s; programContent := programContent s;
     programContentLanguage := programContentLanguage s; analysisResults := analysisResults s;
     isLoading := v; isFileParsing := isFileParsing s; isSubmitting := isSubmitting s;
     error := error s; showPrintableReport := showPrintableReport s;
     submissionsForReview := submissionsForReview s;
     userPastSubmissions := userPastSubmissions s;
     revisingSubmissionInfo := revisingSubmissionInfo s;
     selectedSubmissionForReview := selectedSubmissionForReview s;
     hasPendingSubmission := hasPendingSubmission s |}.
Definition setIsFileParsing v (s : t) : t :=
  {| selectedBodyKeys := selectedBodyKeys s; programContent := programContent s;
     programContentLanguage := programContentLanguage s; analysisResults := analysisResults s;
     isLoading := isLoading s; isFileParsing := v; isSubmitting := isSubmitting s;
     error := error s; showPrintableReport := showPrintableReport s;
     submissionsForReview := submissionsForReview s;
     userPastSubmissions := userPastSubmissions s;
     revisingSubmissionInfo := revisingSubmissionInfo s;
     selectedSubmissionForReview := selectedSubmissionForReview s;
     hasPendingSubmission := hasPendingSubmission s |}.
Definition setIsSubmitting v (s : t) : t :=
  {| selectedBodyKeys := selectedBodyKeys s; programContent := programContent s;
     programContentLanguage := programContentLanguage s; analysisResults := analysisResults s;
     isLoading := isLoading s; isFileParsing := isFileParsing s; isSubmitting := v;
     error := error s; showPrintableReport := showPrintableReport s;
     submissionsForReview := submissionsForReview s;
     userPastSubmissions := userPastSubmissions s;
     revisingSubmissionInfo := revisingSubmissionInfo s;
     selectedSubmissionForReview := selectedSubmissionForReview s;
     hasPendingSubmission := hasPendingSubmission s |}.
Definition setError v (s : t) : t :=
  {| selectedBodyKeys := selectedBodyKeys s; programContent := programContent s;
     programContentLanguage := programContentLanguage s; analysisResults := analysisResults s;
     isLoading := isLoading s; isFileParsing := isFileParsing s;
     isSubmitting := isSubmitting s; error := v; showPrintableReport := showPrintableReport s;
     submissionsForReview := submissionsForReview s;
     userPastSubmissions := userPastSubmissions s;
     revisingSubmissionInfo := revisingSubmissionInfo s;
     selectedSubmissionForReview := selectedSubmissionForReview s;
     hasPendingSubmission := hasPendingSubmission s |}.
Definition setShowPrintableReport v (s : t) : t :=
  {| selectedBodyKeys := selectedBodyKeys s; programContent := programContent s;
     programContentLanguage := programContentLanguage s; analysisResults := analysisResults s;
     isLoading := isLoading s; isFileParsing := isFileParsing s;
     isSubmitting := isSubmitting s; error := error s; showPrintableReport := v;
     submissionsForReview := submissionsForReview s;
     userPastSubmissions := userPastSubmissions s;
     revisingSubmissionInfo := revisingSubmissionInfo s;
     selectedSubmissionForReview := selectedSubmissionForReview s;
     hasPendingSubmission := hasPendingSubmission s |}.
Definition setSubmissionsForReview v (s : t) : t :=
  {| selectedBodyKeys := selectedBodyKeys s; programContent := programContent s;
     programContentLanguage := programContentLanguage s; analysisResults := analysisResults s;
     isLoading := isLoading s; isFileParsing := isFileParsing s;
     isSubmitting := isSubmitting s; error := error s;
     showPrintableReport := showPrintableReport s; submissionsForReview := v;
     userPastSubmissions := userPastSubmissions s;
     revisingSubmissionInfo := revisingSubmissionInfo s;
     selectedSubmissionForReview := selectedSubmissionForReview s;
     hasPendingSubmission := hasPendingSubmission s |}.
Definition setUserPastSubmissions v (s : t) : t :=
  {| selectedBodyKeys := selectedBodyKeys s; programContent := programContent s;
     programContentLanguage := programContentLanguage s; analysisResults := analysisResults s;
     isLoading := isLoading s; isFileParsing := isFileParsing s;
     isSubmitting := isSubmitting s; error := error s;
     showPrintableReport := showPrintableReport s;
     submissionsForReview := submissionsForReview s; userPastSubmissions := v;
     revisingSubmissionInfo := revisingSubmissionInfo s;
     selectedSubmissionForReview := selectedSubmissionForReview s;
     hasPendingSubmission := hasPendingSubmission s |}.
Definition setRevisingSubmissionInfo v (s : t) : t :=
  {| selectedBodyKeys := selectedBodyKeys s; programContent := programContent s;
     programContentLanguage := programContentLanguage s; analysisResults := analysisResults s;
     isLoading := isLoading s; isFileParsing := isFileParsing s;
     isSubmitting := isSubmitting s; error := error s;
     showPrintableReport := showPrintableReport s;
     submissionsForReview := submissionsForReview s;
     userPastSubmissions := userPastSubmissions s; revisingSubmissionInfo := v;
     selectedSubmissionForReview := selectedSubmissionForReview s;
     hasPendingSubmission := hasPendingSubmission s |}.
Definition setSelectedSubmissionForReview v (s : t) : t :=
  {| selectedBodyKeys := selectedBodyKeys s; programContent := programContent s;
     programContentLanguage := programContentLanguage s; analysisResults := analysisResults s;
     isLoading := isLoading s; isFileParsing := isFileParsing s;
     isSubmitting := isSubmitting s; error := error s;
     showPrintableReport := showPrintableReport s;
     submissionsForReview := submissionsForReview s;
     userPastSubmissions := userPastSubmissions s;
     revisingSubmissionInfo := revisingSubmissionInfo s; selectedSubmissionForReview := v;
     hasPendingSubmission := hasPendingSubmission s |}.
Definition setHasPendingSubmission v (s : t) : t :=
  {| selectedBodyKeys := selectedBodyKeys s; programContent := programContent s;
     programContentLanguage := programContentLanguage s; analysisResults := analysisResults s;
     isLoading := isLoading s; isFileParsing := isFileParsing s;
     isSubmitting := isSubmitting s; error := error s;
     showPrintableReport := showPrintableReport s;
     submissionsForReview := submissionsForReview s;
     userPastSubmissions := userPastSubmissions s;
     revisingSubmissionInfo := revisingSubmissionInfo s;
     selectedSubmissionForReview := selectedSubmissionForReview s;
     hasPendingSubmission := v |}.
End State.
Abbreviation State := State.t.

(** [list.sort((a, b) => new Date(time b).getTime() - new Date(time a).getTime())]:
    newest first, and stable, as [Array.prototype.sort] is: an element is
    placed after those strictly newer and before the others.  [time] gives
    the milliseconds of an element's timestamp; the stored timestamps are
    outputs of [toISOString], which [Date] always parses. *)
Fixpoint insertNewestFirst {A} (time : A -> Z) (x : A) (l : list A) : list A :=
  match l with
  | [] => [x]
  | y :: r => if (time x <? time y)%Z then y :: insertNewestFirst time x r else x :: y :: r
  end.

Definition sortNewestFirst {A} (time : A -> Z) (l : list A) : list A :=
  foldr (insertNewestFirst time) [] l.

Definition PENDING_REVIEW_LOAD : string :=
  "You have a submission pending review. Please wait for Admin/Lead approval or load a past submission to revise.".
Definition PENDING_REVIEW_ANALYSIS : string :=
  "You have a submission pending review. Cannot start a new analysis.".
Definition PENDING_REVIEW_SUBMITTED : string :=
  "You have a submission pending review. Please wait for Admin/Lead approval before making a new submission.".
Definition ALL_BODIES_FAILED : string :=
  "Failed to analyze content for all selected accreditation bodies. Please check your input or try again later.".
Definition ONE_BODY_FAILED : string :=
  "Analysis failed for one or more accreditation bodies: ".
Definition MISSING_FOR_REVIEW : string :=
  "Cannot submit for review: analysis results or program content is missing.".

(** [result.reason instanceof Error ? result.reason.message : String(result.reason)] *)
Definition reasonMessage (reason : exn) : string :=
  match reason with
  | ErrorObject _ message => message
  | NonError rendering => rendering
  end.

(** The updater of
    [setError(prevError => (prevError ? prevError + "\n" : "") + `Analysis failed ...: ${message}`)] *)
Definition appendFailure (prevError : option string) (message : string) : option string :=
  Some ((match prevError with
         | Some p => if isEmpty p then "" else p +:+ LF
         | None => ""
         end) +:+ ONE_BODY_FAILED +:+ message).

(** The [forEach] over the settled promises: the fulfilled values in
    order, whether a rejection was met, and the error cell. *)
Fixpoint collectSettled (settledResults : list (result AnalysisResultsGroup))
    (successfulResults : list AnalysisResultsGroup) (encounteredError : bool)
    (error : option string)
  : list AnalysisResultsGroup * bool * option string :=
  match settledResults with
  | [] => (successfulResults, encounteredError, error)
  | Ok group :: rest =>
      collectSettled rest (successfulResults ++ [group]) encounteredError error
  | Throw reason :: rest =>
      collectSettled rest successfulResults true (appendFailure error (reasonMessage reason))
  end.

Section Handlers.

(** [new Date(s).getTime()] for the stored ISO timestamps. *)
Variable getTime : string -> Z.

(** The [currentUser] prop. *)
Variable currentUser : User.

Definition isOwn (s : Submission) : bool :=
  String.eqb (Submission.submittedByUsername s) (User.username currentUser).

Definition isPending (s : Submission) : bool :=
  bool_decide (Submission.status s = pending).

Definition isDecided (s : Submission) : bool :=
  bool_decide (Submission.status s = approved) || bool_decide (Submission.status s = rejected).

Definition newestSubmissionFirst : list Submission -> list Submission :=
  sortNewestFirst (fun s => getTime (Submission.submittedAt s)).

(** The effect on [currentUser, revisingSubmissionInfo]. *)
Definition loadSubmissionsData (store : Storage) (st : State) : State :=
  let allSubmissionsData := Storage.accreditationSubmissions store in
  let st :=
    State.setUserPastSubmissions
      (newestSubmissionFirst (List.filter (fun s => isOwn s && isDecided s) allSubmissionsData)) st in
  match User.role currentUser with
  | Admin | UniversityLead =>
      State.setSubmissionsForReview
        (newestSubmissionFirst (List.filter isPending allSubmissionsData)) st
  | UniversityID =>
      let userSubmissions := List.filter isOwn allSubmissionsData in
      let userPendingSubmission := List.find isPending userSubmissions in
      let st := State.setHasPendingSubmission (notNull userPendingSubmission) st in
      let st :=
        match userPendingSubmission, State.revisingSubmissionInfo st with
        | Some _, None => State.setError (Some PENDING_REVIEW_LOAD) st
        | _, None => State.setError None st
        | _, Some _ => st
        end in
      State.setSubmissionsForReview [] st
  end.

(** The [try] block of [handleSubmitAnalysis], once every promise has
    settled. *)
Definition settleAnalysis (settledResults : list (result AnalysisResultsGroup)) (st : State) : State :=
  let '(successfulResults, encounteredError, error) :=
    collectSettled settledResults [] false (State.error st) in
  let st := State.setError error st in
  let st :=
    if (0 <? length successfulResults)%nat
    then State.setAnalysisResults (Some successfulResults) st else st in
  if (length successfulResults =? 0)%nat && encounteredError
  then State.setError (Some ALL_BODIES_FAILED) st
  else st.

(** [handleSubmitAnalysis] past its guards, in two steps: the cells set
    before the promises are made, and, once they have settled, the [try]
    and [finally] on the state as it is by then. *)
Definition beginAnalysis (st : State) : State :=
  State.setShowPrintableReport false
    (State.setAnalysisResults None (State.setError None (State.setIsLoading true st))).

Definition finishAnalysis (settledResults : list (result AnalysisResultsGroup)) (st : State)
  : State :=
  State.setIsLoading false (settleAnalysis settledResults st).

(** [handleSubmitAnalysis], from the click to the [finally], with no other
    event handled while the promises are pending: the guards, the cells
    reset before the calls, one promise per selected body, the
    settlement. *)
Definition handleSubmitAnalysis (ai : string -> result value) (st : State) : State :=
  if isEmpty (trim (State.programContent st)) then
    State.setError (Some "Please enter or upload program content.") st
  else if (length (State.selectedBodyKeys st) =? 0)%nat then
    State.setError (Some "Please select at least one accreditation body.") st
  else if State.hasPendingSubmission st
          && bool_decide (User.role currentUser = UniversityID)
          && negb (notNull (State.revisingSubmissionInfo st)) then
    State.setError (Some PENDING_REVIEW_ANALYSIS) st
  else
    let resultsPromises := List.map (analyzeBody ai) (State.selectedBodyKeys st) in
    finishAnalysis resultsPromises (beginAnalysis st).

(** [handleFileChange] for a chosen file, in two steps: up to the
    extraction of the text, and from its end on.  [extracted] is the text
    of the file, or what was thrown (by the reader, or for a type that is
    not supported). *)
Definition beginFileChange (st : State) : State :=
  State.setAnalysisResults None
    (State.setProgramContent "" (State.setError None (State.setIsFileParsing true st))).

Definition finishFileChange (extracted : result string) (st : State) : State :=
  match extracted with
  | Ok textContent =>
      State.setIsFileParsing false
        (State.setError None (State.setProgramContent textContent st))
  | Throw e =>
      State.setIsFileParsing false
        (State.setProgramContent ""
           (State.setError
              (Some ("Failed to process file: " +:+
                     match e with ErrorObject _ message => message | NonError _ => "undefined" end))
              st))
  end.

(** [handleSubmitForReview]; [newId] is [crypto.randomUUID()] and [now] is
    [new Date().toISOString()].  The [alert] is not part of the state.
    The [try] reads the submissions, writes them with the new one, sets
    the cells and, for a University ID user, reads again what it wrote;
    the [catch] sets the error with the message of what was thrown, and
    the [finally] lowers [isSubmitting]. *)
Definition handleSubmitForReview (device : LocalStorage) (newId now : string)
    (store : Storage) (st : State) : State * Storage :=
  match State.analysisResults st with
  | None => (State.setError (Some MISSING_FOR_REVIEW) st, store)
  | Some analysisResults =>
      if isEmpty (State.programContent st) then
        (State.setError (Some MISSING_FOR_REVIEW) st, store)
      else
        let newSubmission :=
          {| Submission.id := newId;
             Submission.submittedByUsername := User.username currentUser;
             Submission.submittedByUserRole := User.role currentUser;
             Submission.submittedAt := now;
             Submission.programContent := State.programContent st;
             Submission.programContentLanguage := State.programContentLanguage st;
             Submission.analysisResults := analysisResults;
             Submission.selectedBodyKeys := State.selectedBodyKeys st;
             Submission.status := pending;
             Submission.notes :=
               match State.revisingSubmissionInfo st with
               | Some info => default [] (RevisingInfo.notes info)
               | None => []
               end |} in
        let st := State.setError None (State.setIsSubmitting true st) in
        let caught (e : exn) :=
          (State.setIsSubmitting false
             (State.setError
                (Some ("Failed to submit for review: " +:+ errorMessage e
                         +:+ ". Please try again."))
                st),
           store) in
        match LocalStorage.reading device LOCAL_STORAGE_SUBMISSIONS_KEY with
        | Some e => caught e
        | None =>
            let submissions := Storage.accreditationSubmissions store ++ [newSubmission] in
            match LocalStorage.writing device LOCAL_STORAGE_SUBMISSIONS_KEY with
            | Some e => caught e
            | None =>
                let store' :=
                  {| Storage.accreditationSubmissions := submissions;
                     Storage.accreditationSubmissionNotifications :=
                       Storage.accreditationSubmissionNotifications store |} in
                let st := State.setAnalysisResults None st in
                let st := State.setProgramContent "" st in
                let st := State.setSelectedBodyKeys [] st in
                let st := State.setHasPendingSubmission true st in
                let st := State.setRevisingSubmissionInfo None st in
                let st := State.setError (Some PENDING_REVIEW_SUBMITTED) st in
                let st :=
                  if bool_decide (User.role currentUser = UniversityID) then
                    State.setUserPastSubmissions
                      (newestSubmissionFirst
                         (List.filter isDecided (List.filter isOwn submissions))) st
                  else st in
                (State.setIsSubmitting false st, store')
            end
        end
  end.

Definition handleLoadForRevision (submissionToRevise : Submission) (st : State) : State :=
  let st := State.setProgramContent (Submission.programContent submissionToRevise) st in
  let st := State.setSelectedBodyKeys (Submission.selectedBodyKeys submissionToRevise) st in
  let st := State.setAnalysisResults None st in
  let st := State.setError None st in
  let st := State.setHasPendingSubmission false st in
  State.setRevisingSubmissionInfo
    (Some {| RevisingInfo.id := Submission.id submissionToRevise;
             RevisingInfo.originalStatus := Submission.status submissionToRevise;
             RevisingInfo.notes := Some (Submission.notes submissionToRevise) |}) st.

Definition handleOpenSubmissionForReview (submission : Submission) (st : State) : State :=
  State.setSelectedSubmissionForReview (Some submission) st.

(** [handleCloseSubmissionReviewModal]; the reload of the notification
    list at its end touches no cell of [State]. *)
Definition handleCloseSubmissionReviewModal (refreshList : bool) (store : Storage) (st : State)
  : State :=
  let st := State.setSelectedSubmissionForReview None st in
  if refreshList then
    let allSubmissionsData := Storage.accreditationSubmissions store in
    let st :=
      State.setUserPastSubmissions
        (newestSubmissionFirst (List.filter (fun s => isOwn s && isDecided s) allSubmissionsData)) st in
    match User.role currentUser with
    | Admin | UniversityLead =>
        State.setSubmissionsForReview
          (newestSubmissionFirst (List.filter isPending allSubmissionsData)) st
    | UniversityID =>
        let userSubmissions := List.filter isOwn allSubmissionsData in
        let userPendingSubmission := List.find isPending userSubmissions in
        let st := State.setHasPendingSubmission (notNull userPendingSubmission) st in
        match userPendingSubmission, State.revisingSubmissionInfo st with
        | None, None => State.setError None st
        | _, _ => st
        end
    end
  else st.

(** *** What is rendered and enabled *)

(** [mainAnalysisDisabled]; [canModifyData] holds for each of the three
    roles. *)
Definition mainAnalysisDisabled (st : State) : bool :=
  State.isLoading st || State.isFileParsing st || State.isSubmitting st
  || (State.hasPendingSubmission st
      && bool_decide (User.role currentUser = UniversityID)
      && negb (notNull (State.revisingSubmissionInfo st))).

(** The [disabled] of the Analyze Content button. *)
Definition analyzeButtonDisabled (st : State) : bool :=
  (mainAnalysisDisabled st && negb (notNull (State.revisingSubmissionInfo st)))
  || isEmpty (trim (State.programContent st))
  || (length (State.selectedBodyKeys st) =? 0)%nat.

(** The [disabled] of the file input. *)
Definition fileInputDisabled (st : State) : bool :=
  mainAnalysisDisabled st && negb (notNull (State.revisingSubmissionInfo st)).

(** The results section, which holds the Submit for Review button
    ([disabled={isSubmitting}]). *)
Definition resultsSectionRendered (st : State) : bool :=
  match State.analysisResults st with
  | Some groups =>
      negb (State.isLoading st) && negb (State.isFileParsing st) && (0 <? length groups)%nat
  | None => false
  end.

Definition submitForReviewEnabled (st : State) : bool :=
  resultsSectionRendered st && negb (State.isSubmitting st).

(** [showPastSubmissionsSection], which holds the Load and Revise buttons. *)
Definition showPastSubmissionsSection (st : State) : bool :=
  (0 <? length (State.userPastSubmissions st))%nat
  && negb (notNull (State.revisingSubmissionInfo st))
  && match User.role currentUser with
     | UniversityID => negb (State.hasPendingSubmission st)
     | Admin | UniversityLead => true
     end.

End Handlers.

(* ===================================================================== *)
(** ** SubmissionReviewModal                                              *)
(* ===================================================================== *)

Definition withNotes (notes : list SubmissionNote) (s : Submission) : Submission :=
  {| Submission.id := Submission.id s;
     Submission.submittedByUsername := Submission.submittedByUsername s;
     Submission.submittedByUserRole := Submission.submittedByUserRole s;
     Submission.submittedAt := Submission.submittedAt s;
     Submission.programContent := Submission.programContent s;
     Submission.programContentLanguage := Submission.programContentLanguage s;
     Submission.analysisResults := Submission.analysisResults s;
     Submission.selectedBodyKeys := Submission.selectedBodyKeys s;
     Submission.status := Submission.status s;
     Submission.notes := notes |}.

Definition withStatus (status : SubmissionStatus) (s : Submission) : Submission :=
  {| Submission.id := Submission.id s;
     Submission.submittedByUsername := Submission.submittedByUsername s;
     Submission.submittedByUserRole := Submission.submittedByUserRole s;
     Submission.submittedAt := Submission.submittedAt s;
     Submission.programContent := Submission.programContent s;
     Submission.programContentLanguage := Submission.programContentLanguage s;
     Submission.analysisResults := Submission.analysisResults s;
     Submission.selectedBodyKeys := Submission.selectedBodyKeys s;
     Submission.status := status;
     Submission.notes := Submission.notes s |}.

(** [submissions.findIndex(s => s.id === id)], [None] for -1. *)
Fixpoint findIndex (id : string) (submissions : list Submission) : option nat :=
  match submissions with
  | [] => None
  | s :: rest =>
      if String.eqb (Submission.id s) id then Some 0%nat
      else S <$> findIndex id rest
  end.

Definition statusWord (status : SubmissionStatus) : string :=
  match status with
  | pending => "pending"
  | approved => "approved"
  | rejected => "rejected"
  end.

Module ReviewModal.

(** The [submission] prop and the [useState] cells of the modal. *)
Record t := {
  submission : Submission;
  isActionLoading : bool;
  currentSubmissionNotes : list SubmissionNote;
  newNoteText : string
}.

(** What a handler leaves behind: the modal, the storage, the text of the
    [alert] it raised if any, and the argument of [onClose] if it closed
    the modal. *)
Record outcome := {
  modal : t;
  storage : Storage;
  alert : option string;
  closed : option bool
}.

(** Mounting: [useState(submission.notes || [])], [useState('')]. *)
Definition mount (submission : Submission) : t :=
  {| submission := submission;
     isActionLoading := false;
     currentSubmissionNotes := Submission.notes submission;
     newNoteText := "" |}.

(** The [onChange] of the note text area. *)
Definition setNewNoteText (text : string) (m : t) : t :=
  {| submission := submission m;
     isActionLoading := isActionLoading m;
     currentSubmissionNotes := currentSubmissionNotes m;
     newNoteText := text |}.

Definition setCurrentSubmissionNotes (notes : list SubmissionNote) (m : t) : t :=
  {| submission := submission m;
     isActionLoading := isActionLoading m;
     currentSubmissionNotes := notes;
     newNoteText := newNoteText m |}.

Definition setIsActionLoading (loading : bool) (m : t) : t :=
  {| submission := submission m;
     isActionLoading := loading;
     currentSubmissionNotes := currentSubmissionNotes m;
     newNoteText := newNoteText m |}.

(** [{submission.status === 'pending' && (<div className="add-note-form"> ...)}]:
    the form with the Add Note button is rendered only then. *)
Definition addNoteFormRendered (m : t) : bool :=
  bool_decide (Submission.status (submission m) = pending).

Section Handlers.

Variable currentUser : User.

(** [now] is [new Date().toISOString()].  The modal's list gets the note
    before the [try]; the [catch] alerts and stores nothing. *)
Definition handleAddNote (device : LocalStorage) (now : string) (store : Storage) (m : t)
  : outcome :=
  if isEmpty (trim (newNoteText m)) then
    {| modal := m; storage := store; alert := Some "Note text cannot be empty."; closed := None |}
  else
    let newNote :=
      {| SubmissionNote.by_ := User.username currentUser;
         SubmissionNote.role := User.role currentUser;
         SubmissionNote.timestamp := now;
         SubmissionNote.text := trim (newNoteText m) |} in
    let updatedNotes := currentSubmissionNotes m ++ [newNote] in
    let m := setCurrentSubmissionNotes updatedNotes m in
    let caught :=
      {| modal := m; storage := store;
         alert := Some "An error occurred while adding the note.";
         closed := None |} in
    match LocalStorage.reading device LOCAL_STORAGE_SUBMISSIONS_KEY with
    | Some _ => caught
    | None =>
        let submissions := Storage.accreditationSubmissions store in
        match findIndex (Submission.id (submission m)) submissions with
        | Some submissionIndex =>
            match LocalStorage.writing device LOCAL_STORAGE_SUBMISSIONS_KEY with
            | Some _ => caught
            | None =>
                {| modal := setNewNoteText "" m;
                   storage :=
                     {| Storage.accreditationSubmissions :=
                          alter (withNotes updatedNotes) submissionIndex submissions;
                        Storage.accreditationSubmissionNotifications :=
                          Storage.accreditationSubmissionNotifications store |};
                   alert := None;
                   closed := None |}
            end
        | None =>
            {| modal := m; storage := store;
               alert := Some "Error: Could not find the submission to add note.";
               closed := None |}
        end
    end.

(** A click on Add Note: possible only where the form is rendered. *)
Definition clickAddNote (device : LocalStorage) (now : string) (store : Storage) (m : t)
  : option outcome :=
  if addNoteFormRendered m then Some (handleAddNote device now store m) else None.

(** [newId] is [crypto.randomUUID()], [now] is [new Date().toISOString()];
    [isActionLoading] is raised at the start and lowered in the [finally].
    The [try] reads the submissions, writes them with the decision, and
    calls [addNotification], which reads and writes the notifications;
    the [catch] alerts and leaves the modal open, with what was written
    before the throw in the store. *)
Definition handleUpdateSubmissionStatus (device : LocalStorage) (newStatus : SubmissionStatus)
    (newId now : string) (store : Storage) (m : t) : outcome :=
  let caught (written : Storage) :=
    {| modal := setIsActionLoading false m; storage := written;
       alert := Some "An error occurred while updating the submission status.";
       closed := None |} in
  match LocalStorage.reading device LOCAL_STORAGE_SUBMISSIONS_KEY with
  | Some _ => caught store
  | None =>
      let submissions := Storage.accreditationSubmissions store in
      match findIndex (Submission.id (submission m)) submissions with
      | Some submissionIndex =>
          match LocalStorage.writing device LOCAL_STORAGE_SUBMISSIONS_KEY with
          | Some _ => caught store
          | None =>
              let decided :=
                {| Storage.accreditationSubmissions :=
                     alter (fun s => withNotes (currentSubmissionNotes m)
                                       (withStatus newStatus s))
                           submissionIndex submissions;
                   Storage.accreditationSubmissionNotifications :=
                     Storage.accreditationSubmissionNotifications store |} in
              let notificationForSubmitter :=
                {| Notification.id := newId;
                   Notification.recipientUsername :=
                     Submission.submittedByUsername (submission m);
                   Notification.message :=
                     "Your submission (ID: "
                       +:+ String.substring 0 8 (Submission.id (submission m))
                       +:+ "...) has been " +:+ statusWord newStatus +:+ ".";
                   Notification.timestamp := now;
                   Notification.isRead := false;
                   Notification.relatedSubmissionId := Some (Submission.id (submission m)) |} in
              match LocalStorage.reading device LOCAL_STORAGE_SUBMISSION_NOTIFICATIONS_KEY,
                    LocalStorage.writing device LOCAL_STORAGE_SUBMISSION_NOTIFICATIONS_KEY with
              | None, None =>
                  {| modal := setIsActionLoading false m;
                     storage :=
                       {| Storage.accreditationSubmissions :=
                            Storage.accreditationSubmissions decided;
                          Storage.accreditationSubmissionNotifications :=
                            Storage.accreditationSubmissionNotifications store
                              ++ [notificationForSubmitter] |};
                     alert := Some ("Submission has been " +:+ statusWord newStatus +:+ ".");
                     closed := Some true |}
              | _, _ => caught decided
              end
          end
      | None =>
          {| modal := setIsActionLoading false m; storage := store;
             alert := Some "Error: Could not find the submission to update.";
             closed := Some false |}
      end
  end.

End Handlers.

End ReviewModal.

(* ===================================================================== *)
(** ** Login                                                              *)
(* ===================================================================== *)

Module StoredUser.
Record t := { username : string; role : UserRole; password : option string }.
End StoredUser.
Abbreviation StoredUser := StoredUser.t.

Module Login.

(** What [handleSubmit] ends with: the [onLogin] callback with a user, or
    the error cell set to a message. *)
Inductive outcome :=
| onLogin (user : User)
| setError (message : string).

Definition INVALID : string := "Invalid username or password.".

(** [storedUsers] is the decoded registry ([[]] when the key is absent). *)
Definition handleSubmit (storedUsers : list StoredUser) (username password : string) : outcome :=
  let foundUser :=
    List.find (fun u => String.eqb (toLowerCase (StoredUser.username u)) (toLowerCase username))
              storedUsers in
  match foundUser with
  | Some foundUser =>
      match StoredUser.password foundUser with
      | Some stored =>
          if String.eqb stored password
          then onLogin {| User.username := StoredUser.username foundUser;
                          User.role := StoredUser.role foundUser |}
          else setError INVALID
      | None => setError INVALID
      end
  | None =>
      if String.eqb (toLowerCase username) "admin" && String.eqb password "adminpass" then
        onLogin {| User.username := "admin"; User.role := Admin |}
      else if String.eqb (toLowerCase username) "lead" && String.eqb password "leadpass" then
        onLogin {| User.username := "lead"; User.role := UniversityLead |}
      else setError INVALID
  end.

End Login.

(* ===================================================================== *)
(** ** InternalMessagesModal                                              *)
(* ===================================================================== *)

Inductive RecipientType := user | role.

Module RecipientIdentifier.
Record t := { type : RecipientType; value : string }.
End RecipientIdentifier.
Abbreviation RecipientIdentifier := RecipientIdentifier.t.

(** [readBy] is an object used as a set of user names; stored data may
    lack it, which the code allows for with [msg.readBy || {}]. *)
Module InternalMessage.
Record t := {
  id : string;
  senderUsername : string;
  senderRole : UserRole;
  recipientIdentifier : RecipientIdentifier;
  subject : string;
  body : string;
  timestamp : string;
  readBy : option (gmap string bool)
}.
End InternalMessage.
Abbreviation InternalMessage := InternalMessage.t.

Module Messages.

(** The [messages] and [selectedMessage] cells of the modal. *)
Record t := {
  messages : list InternalMessage;
  selectedMessage : option InternalMessage
}.

Section Handlers.

Variable getTime : string -> Z.
Variable currentUser : User.

(** [{ ...msg, readBy: { ...(msg.readBy || {}), [currentUser.username]: true } }] *)
Definition withReader (msg : InternalMessage) : InternalMessage :=
  {| InternalMessage.id := InternalMessage.id msg;
     InternalMessage.senderUsername := InternalMessage.senderUsername msg;
     InternalMessage.senderRole := InternalMessage.senderRole msg;
     InternalMessage.recipientIdentifier := InternalMessage.recipientIdentifier msg;
     InternalMessage.subject := InternalMessage.subject msg;
     InternalMessage.body := InternalMessage.body msg;
     InternalMessage.timestamp := InternalMessage.timestamp msg;
     InternalMessage.readBy :=
       Some (<[User.username currentUser := true]> (default ∅ (InternalMessage.readBy msg))) |}.

Definition newestMessageFirst : list InternalMessage -> list InternalMessage :=
  sortNewestFirst (fun m => getTime (InternalMessage.timestamp m)).

(** [markMessageAsRead], called on a rendered modal: the next modal and
    the array written to the [internalUserMessages] key (the array is
    serialised before it is sorted in place for [setMessages]). *)
Definition markMessageAsRead (messageId : string) (m : t) : t * list InternalMessage :=
  let updatedMessages :=
    List.map (fun msg => if String.eqb (InternalMessage.id msg) messageId
                         then withReader msg else msg)
             (messages m) in
  ({| messages := newestMessageFirst updatedMessages;
      selectedMessage :=
        match selectedMessage m with
        | Some selected =>
            if String.eqb (InternalMessage.id selected) messageId
            then Some (withReader selected) else Some selected
        | None => None
        end |},
   updatedMessages).

(** The [readBy] objects of the messages with a given id, in list order. *)
Definition readByOf (messageId : string) (l : list InternalMessage)
  : list (option (gmap string bool)) :=
  List.map InternalMessage.readBy
    (List.filter (fun msg => String.eqb (InternalMessage.id msg) messageId) l).

End Handlers.

End Messages.

(* ===================================================================== *)
(** ** App: role names and the seeded registry                            *)
(* ===================================================================== *)

(** A double quote, for the messages that quote a name. *)
Definition QUOTE : string := String (ascii_of_N 34) EmptyString.

(** The string a [UserRole] is. *)
Definition roleName (r : UserRole) : string :=
  match r with
  | Admin => "Admin"
  | UniversityLead => "University Lead"
  | UniversityID => "University ID"
  end.

Module App.

Definition defaultUsers : list StoredUser :=
  [ {| StoredUser.username := "admin"; StoredUser.role := Admin;
       StoredUser.password := Some "adminpass" |};
    {| StoredUser.username := "lead"; StoredUser.role := UniversityLead;
       StoredUser.password := Some "leadpass" |} ].

(** The effect on mount.  [storedUsers] is the item under the users key,
    decoded, or [None] when the key is absent or holds the empty string;
    the result is what the key holds afterwards. *)
Definition seedDefaultUsers (storedUsers : option (list StoredUser)) : list StoredUser :=
  match storedUsers with
  | None => defaultUsers
  | Some stored => stored
  end.

End App.

(* ===================================================================== *)
(** ** AccreditationAnalyzer: submission notifications                    *)
(* ===================================================================== *)

(** The cells of the submission notifications. *)
Module NotificationCells.
Record t := {
  unreadSubmissionNotificationCount : nat;
  showSubmissionNotificationsModal : bool;
  currentUserSubmissionNotifications : list Notification
}.
End NotificationCells.
Abbreviation NotificationCells := NotificationCells.t.

(** The storage with another array under the notifications key. *)
Definition withNotifications (notifications : list Notification) (store : Storage) : Storage :=
  {| Storage.accreditationSubmissions := Storage.accreditationSubmissions store;
     Storage.accreditationSubmissionNotifications := notifications |}.

(** [{ ...n, isRead: true }] *)
Definition asRead (n : Notification) : Notification :=
  {| Notification.id := Notification.id n;
     Notification.recipientUsername := Notification.recipientUsername n;
     Notification.message := Notification.message n;
     Notification.timestamp := Notification.timestamp n;
     Notification.isRead := true;
     Notification.relatedSubmissionId := Notification.relatedSubmissionId n |}.

Definition addSubmissionNotificationToStorage (notification : Notification) (store : Storage)
  : Storage :=
  withNotifications (Storage.accreditationSubmissionNotifications store ++ [notification]) store.

Definition markSubmissionNotificationsAsReadInStorage (username : string) (store : Storage)
  : Storage :=
  withNotifications
    (List.map (fun n => if String.eqb (Notification.recipientUsername n) username
                           && negb (Notification.isRead n)
                        then asRead n else n)
              (Storage.accreditationSubmissionNotifications store))
    store.

Section NotificationHandlers.

Variable getTime : string -> Z.
Variable currentUser : User.

Definition newestNotificationFirst : list Notification -> list Notification :=
  sortNewestFirst (fun n => getTime (Notification.timestamp n)).

(** The array is sorted in place for the list cell before its unread
    elements are counted. *)
Definition loadUserSubmissionNotifications (store : Storage) (c : NotificationCells)
  : NotificationCells :=
  let notifications := Storage.accreditationSubmissionNotifications store in
  let userNotifications :=
    newestNotificationFirst
      (List.filter (fun n => String.eqb (Notification.recipientUsername n)
                                        (User.username currentUser))
                   notifications) in
  {| NotificationCells.unreadSubmissionNotificationCount :=
       length (List.filter (fun n => negb (Notification.isRead n)) userNotifications);
     NotificationCells.showSubmissionNotificationsModal :=
       NotificationCells.showSubmissionNotificationsModal c;
     NotificationCells.currentUserSubmissionNotifications := userNotifications |}.

Definition clearReadSubmissionNotificationsFromStorage (username : string) (store : Storage)
    (c : NotificationCells) : Storage * NotificationCells :=
  let store' :=
    withNotifications
      (List.filter (fun n => negb (String.eqb (Notification.recipientUsername n) username
                                   && Notification.isRead n))
                   (Storage.accreditationSubmissionNotifications store))
      store in
  (store', loadUserSubmissionNotifications store' c).

Definition setShowSubmissionNotificationsModal (show : bool) (c : NotificationCells)
  : NotificationCells :=
  {| NotificationCells.unreadSubmissionNotificationCount :=
       NotificationCells.unreadSubmissionNotificationCount c;
     NotificationCells.showSubmissionNotificationsModal := show;
     NotificationCells.currentUserSubmissionNotifications :=
       NotificationCells.currentUserSubmissionNotifications c |}.

Definition handleOpenSubmissionNotificationsModal (store : Storage) (c : NotificationCells)
  : NotificationCells :=
  setShowSubmissionNotificationsModal true (loadUserSubmissionNotifications store c).

Definition handleCloseSubmissionNotificationsModal (store : Storage) (c : NotificationCells)
  : Storage * NotificationCells :=
  let store' := markSubmissionNotificationsAsReadInStorage (User.username currentUser) store in
  (store', loadUserSubmissionNotifications store' (setShowSubmissionNotificationsModal false c)).

(** The [onClearRead] prop the analyzer gives to the notifications modal. *)
Definition onClearRead (store : Storage) (c : NotificationCells) : Storage * NotificationCells :=
  clearReadSubmissionNotificationsFromStorage (User.username currentUser) store c.

End NotificationHandlers.

(** NotificationsModal: [notifications.some(n => n.isRead)], the condition
    under which the Clear Read Notifications button is rendered. *)
Definition clearReadButtonRendered (notifications : list Notification) : bool :=
  existsb Notification.isRead notifications.

(* ===================================================================== *)
(** ** AccreditationAnalyzer: selection, revision, chatbot and chart      *)
(* ===================================================================== *)

(** [v === s] for a string [s] *)
Definition strictEqStr (v : value) (s : string) : bool :=
  match v with VStr t => String.eqb t s | _ => false end.

(** [keys.includes(bodyKey)] *)
Definition includesKey (bodyKey : string) (keys : list string) : bool :=
  existsb (fun key => String.eqb key bodyKey) keys.

(** The updater of [handleBodySelectionChange]. *)
Definition toggleBodyKey (bodyKey : string) (prevKeys : list string) : list string :=
  if includesKey bodyKey prevKeys
  then List.filter (fun key => negb (String.eqb key bodyKey)) prevKeys
  else prevKeys ++ [bodyKey].

Definition handleBodySelectionChange (bodyKey : string) (st : State) : State :=
  State.setSelectedBodyKeys (toggleBodyKey bodyKey (State.selectedBodyKeys st)) st.

(** The [onClick] of the Cancel Revision & Start New button. *)
Definition cancelRevision (currentUser : User) (st : State) : State :=
  let st' := State.setRevisingSubmissionInfo None st in
  let st' := State.setProgramContent "" st' in
  let st' := State.setAnalysisResults None st' in
  let st' := State.setSelectedBodyKeys [] st' in
  State.setError
    (if State.hasPendingSubmission st && bool_decide (User.role currentUser = UniversityID)
     then Some PENDING_REVIEW_SUBMITTED else None) st'.

Module ChatbotContext.
Record t := {
  standard : Standard;
  initialFeedback : JS.value;
  accreditationBodyName : string;
  programContentLanguage : ProgramContentLanguage
}.
End ChatbotContext.
Abbreviation ChatbotContext := ChatbotContext.t.

Module SummaryChartData.
Record t := {
  labels : list JS.value;
  dataValues : list JS.number;
  title : string;
  accreditationBodyName : string
}.
End SummaryChartData.
Abbreviation SummaryChartData := SummaryChartData.t.

Definition NO_TRAINING_DETAILS : string :=
  "Could not find the standard details to start training. Result item, body or group missing.".
Definition NO_CHART_RESULTS : string :=
  "Could not find analysis results to generate chart.".

(** [analysisResults?.find(group => group.accreditationBodyKey === accreditationBodyKey)] *)
Definition findResultGroup (accreditationBodyKey : string) (st : State)
  : option AnalysisResultsGroup :=
  match State.analysisResults st with
  | Some groups =>
      List.find (fun ag => String.eqb (AnalysisResultsGroup.accreditationBodyKey ag)
                                      accreditationBodyKey)
                groups
  | None => None
  end.

(** [handleOpenTrainingChatbot]: the next state and, when the chatbot is
    opened ([setChatbotContext], [setShowTrainingChatbot(true)]), the
    context it is opened with. *)
Definition handleOpenTrainingChatbot (standardId accreditationBodyKey : string) (st : State)
  : State * option ChatbotContext :=
  let resultGroup := findResultGroup accreditationBodyKey st in
  let resultItem :=
    match resultGroup with
    | Some g =>
        List.find (fun item => strictEqStr (AnalysisResultItem.standardId item) standardId)
                  (AnalysisResultsGroup.items g)
    | None => None
    end in
  let body :=
    List.find (fun b => String.eqb (AccreditationBody.key b) accreditationBodyKey)
              ACCREDITATION_BODIES in
  match resultItem, body, resultGroup with
  | Some resultItem, Some body, Some resultGroup =>
      match List.find (fun s => String.eqb (Standard.id s) standardId)
                      (AccreditationBody.standards body) with
      | Some standardDetails =>
          (st,
           Some {| ChatbotContext.standard := standardDetails;
                   ChatbotContext.initialFeedback :=
                     AnalysisResultItem.improvementFeedback resultItem;
                   ChatbotContext.accreditationBodyName :=
                     AnalysisResultsGroup.accreditationBodyName resultGroup;
                   ChatbotContext.programContentLanguage := State.programContentLanguage st |})
      | None =>
          (State.setError
             (Some ("Could not find standard definition for ID " +:+ QUOTE +:+ standardId
                      +:+ QUOTE +:+ " in " +:+ AccreditationBody.name body
                      +:+ ". This may indicate an issue with standard ID reconciliation."))
             st,
           None)
      end
  | _, _, _ => (State.setError (Some NO_TRAINING_DETAILS) st, None)
  end.

(** [handleShowSummaryChart]: the next state and, when the chart is shown,
    its data. *)
Definition handleShowSummaryChart (accreditationBodyKey : string) (st : State)
  : State * option SummaryChartData :=
  match findResultGroup accreditationBodyKey st with
  | None => (State.setError (Some NO_CHART_RESULTS) st, None)
  | Some resultGroup =>
      (st,
       Some {| SummaryChartData.labels :=
                 List.map AnalysisResultItem.standardName (AnalysisResultsGroup.items resultGroup);
               SummaryChartData.dataValues :=
                 List.map AnalysisResultItem.matchPercentage
                          (AnalysisResultsGroup.items resultGroup);
               SummaryChartData.title :=
                 "Analysis Summary for "
                   +:+ AnalysisResultsGroup.accreditationBodyName resultGroup;
               SummaryChartData.accreditationBodyName :=
                 AnalysisResultsGroup.accreditationBodyName resultGroup |})
  end.

(* ===================================================================== *)
(** ** Internal messages: the inbox, sending, viewing and deleting        *)
(* ===================================================================== *)

(** The property names that [Object.prototype] defines.  A plain object
    that has no own property of such a name answers a read of it with the
    inherited function or object, which is truthy. *)
Definition OBJECT_PROTOTYPE_KEYS : list string :=
  [ "constructor"; "hasOwnProperty"; "isPrototypeOf"; "propertyIsEnumerable";
    "toLocaleString"; "toString"; "valueOf"; "__proto__";
    "__defineGetter__"; "__defineSetter__"; "__lookupGetter__"; "__lookupSetter__" ].

(** [!!readBy[username]] for a [readBy] object of booleans. *)
Definition readByUser (readBy : gmap string bool) (username : string) : bool :=
  match readBy !! username with
  | Some b => b
  | None => existsb (String.eqb username) OBJECT_PROTOTYPE_KEYS
  end.

(** [!m.readBy || !m.readBy[username]] *)
Definition isUnreadBy (username : string) (m : InternalMessage) : bool :=
  match InternalMessage.readBy m with
  | None => true
  | Some readBy => negb (readByUser readBy username)
  end.

(** [(type === 'user' && value === currentUser.username) ||
     (type === 'role' && value === currentUser.role)] *)
Definition isForCurrentUser (currentUser : User) (m : InternalMessage) : bool :=
  match RecipientIdentifier.type (InternalMessage.recipientIdentifier m) with
  | user =>
      String.eqb (RecipientIdentifier.value (InternalMessage.recipientIdentifier m))
                 (User.username currentUser)
  | role =>
      String.eqb (RecipientIdentifier.value (InternalMessage.recipientIdentifier m))
                 (roleName (User.role currentUser))
  end.

(** AccreditationAnalyzer, [loadInternalMessagesForUser]: the number it
    puts in [unreadInternalMessagesCount], from the array under the
    messages key. *)
Definition loadInternalMessagesForUser (currentUser : User) (messages : list InternalMessage)
  : nat :=
  let userInboxMessages := List.filter (isForCurrentUser currentUser) messages in
  length (List.filter (isUnreadBy (User.username currentUser)) userInboxMessages).

Module MessagesModal.

Inductive Tab := inboxTab | sentTab | composeTab.

(** The cells of the tabs and of the compose form. *)
Record form := {
  activeTab : Tab;
  composeRecipientType : RecipientType;
  composeRecipientRole : UserRole;
  composeRecipientUser : string;
  composeSubject : string;
  composeBody : string;
  composeError : option string;
  isSending : bool
}.

(** What a handler leaves behind: the message cells, the form, the array
    written under the messages key if one was, and the text of the
    [alert] if one was raised. *)
Record outcome := {
  modal : Messages.t;
  compose : form;
  written : option (list InternalMessage);
  alert : option string
}.

Definition setComposeError (e : option string) (f : form) : form :=
  {| activeTab := activeTab f;
     composeRecipientType := composeRecipientType f;
     composeRecipientRole := composeRecipientRole f;
     composeRecipientUser := composeRecipientUser f;
     composeSubject := composeSubject f;
     composeBody := composeBody f;
     composeError := e;
     isSending := isSending f |}.

Section Handlers.

Variable getTime : string -> Z.
Variable currentUser : User.

(** [loadMessages], on the array under the messages key. *)
Definition loadMessages (stored : list InternalMessage) (m : Messages.t) : Messages.t :=
  {| Messages.messages := Messages.newestMessageFirst getTime stored;
     Messages.selectedMessage := Messages.selectedMessage m |}.

(** The effect on [isOpen], when the modal opens: the messages are loaded,
    no message is selected and the Inbox tab is shown. *)
Definition open (stored : list InternalMessage) (m : Messages.t) (f : form)
  : Messages.t * form :=
  ({| Messages.messages := Messages.messages (loadMessages stored m);
      Messages.selectedMessage := None |},
   {| activeTab := inboxTab;
      composeRecipientType := composeRecipientType f;
      composeRecipientRole := composeRecipientRole f;
      composeRecipientUser := composeRecipientUser f;
      composeSubject := composeSubject f;
      composeBody := composeBody f;
      composeError := composeError f;
      isSending := isSending f |}).

Definition inboxMessages (m : Messages.t) : list InternalMessage :=
  List.filter (isForCurrentUser currentUser) (Messages.messages m).

Definition sentMessages (m : Messages.t) : list InternalMessage :=
  List.filter (fun msg => String.eqb (InternalMessage.senderUsername msg)
                                     (User.username currentUser))
              (Messages.messages m).

(** The number shown on the Inbox tab. *)
Definition inboxUnreadCount (m : Messages.t) : nat :=
  length (List.filter (isUnreadBy (User.username currentUser)) (inboxMessages m)).

(** [handleSendMessage]; [newId] is [crypto.randomUUID()] and [now] is
    [new Date().toISOString()].  The [try] writes the messages of the
    modal with the new one; the [catch] sets the compose error with the
    message of what was thrown and keeps the form, and the [finally]
    lowers [isSending]. *)
Definition handleSendMessage (device : LocalStorage) (newId now : string) (f : form)
    (m : Messages.t) : outcome :=
  if isEmpty (trim (composeSubject f)) || isEmpty (trim (composeBody f)) then
    {| modal := m;
       compose := setComposeError (Some "Subject and body cannot be empty.") f;
       written := None; alert := None |}
  else
    let recipientValue :=
      match composeRecipientType f with
      | role => roleName (composeRecipientRole f)
      | user => trim (composeRecipientUser f)
      end in
    if match composeRecipientType f with
       | role => false
       | user => isEmpty recipientValue
       end then
      {| modal := m;
         compose := setComposeError (Some "Recipient username cannot be empty.") f;
         written := None; alert := None |}
    else
      let newMessage :=
        {| InternalMessage.id := newId;
           InternalMessage.senderUsername := User.username currentUser;
           InternalMessage.senderRole := User.role currentUser;
           InternalMessage.recipientIdentifier :=
             {| RecipientIdentifier.type := composeRecipientType f;
                RecipientIdentifier.value := recipientValue |};
           InternalMessage.subject := composeSubject f;
           InternalMessage.body := composeBody f;
           InternalMessage.timestamp := now;
           InternalMessage.readBy := Some ∅ |} in
      let updatedMessages := Messages.messages m ++ [newMessage] in
      match LocalStorage.writing device LOCAL_STORAGE_INTERNAL_MESSAGES_KEY with
      | Some e =>
          {| modal := m;
             compose :=
               {| activeTab := activeTab f;
                  composeRecipientType := composeRecipientType f;
                  composeRecipientRole := composeRecipientRole f;
                  composeRecipientUser := composeRecipientUser f;
                  composeSubject := composeSubject f;
                  composeBody := composeBody f;
                  composeError := Some ("Failed to send message: " +:+ errorMessage e);
                  isSending := false |};
             written := None; alert := None |}
      | None =>
          {| modal :=
               {| Messages.messages := Messages.newestMessageFirst getTime updatedMessages;
                  Messages.selectedMessage := Messages.selectedMessage m |};
             compose :=
               {| activeTab := sentTab;
                  composeRecipientType := composeRecipientType f;
                  composeRecipientRole := composeRecipientRole f;
                  composeRecipientUser := "";
                  composeSubject := "";
                  composeBody := "";
                  composeError := None;
                  isSending := false |};
             written := Some updatedMessages;
             alert := Some "Message sent successfully!" |}
      end.

(** [handleViewMessage]: the message cells and the array written under
    the messages key if the message was marked as read.  Within
    [markMessageAsRead] the test on [selectedMessage] reads the cell as it
    was when the list was rendered, while the updater it queues runs on
    the message that has just been selected. *)
Definition handleViewMessage (message : InternalMessage) (m : Messages.t)
  : Messages.t * option (list InternalMessage) :=
  if isForCurrentUser currentUser message && isUnreadBy (User.username currentUser) message then
    let marked := Messages.markMessageAsRead getTime currentUser (InternalMessage.id message) m in
    ({| Messages.messages := Messages.messages (fst marked);
        Messages.selectedMessage :=
          match Messages.selectedMessage m with
          | Some selected =>
              if String.eqb (InternalMessage.id selected) (InternalMessage.id message)
              then Some (Messages.withReader currentUser message) else Some message
          | None => Some message
          end |},
     Some (snd marked))
  else
    ({| Messages.messages := Messages.messages m; Messages.selectedMessage := Some message |},
     None).

(** [handleDeleteReadInboxMessages]; [confirmed] is the answer to
    [window.confirm]. *)
Definition handleDeleteReadInboxMessages (confirmed : bool) (m : Messages.t)
  : Messages.t * option (list InternalMessage) :=
  if confirmed then
    let unreadInboxMessages :=
      List.filter (fun msg => isForCurrentUser currentUser msg
                              && isUnreadBy (User.username currentUser) msg)
                  (Messages.messages m) in
    let otherMessages :=
      List.filter (fun msg => negb (isForCurrentUser currentUser msg)) (Messages.messages m) in
    let messagesToKeep := unreadInboxMessages ++ otherMessages in
    ({| Messages.messages := Messages.newestMessageFirst getTime messagesToKeep;
        Messages.selectedMessage := None |},
     Some messagesToKeep)
  else (m, None).

End Handlers.

End MessagesModal.

(* ===================================================================== *)
(** ** UserManagementModal                                                *)
(* ===================================================================== *)

Module UserManagement.

(** The cells of the modal. *)
Record t := {
  users : list StoredUser;
  newUsername : string;
  newPassword : string;
  newUserRole : UserRole;
  error : option string;
  successMessage : option string
}.

(** What [handleAddUser] leaves behind: the modal, and the arrays written
    under the users key and under the messages key, if they were. *)
Record outcome := {
  modal : t;
  writtenUsers : option (list StoredUser);
  writtenMessages : option (list InternalMessage)
}.

(** The effect on [isOpen], when the modal opens on the stored registry. *)
Definition open (storedUsers : list StoredUser) : t :=
  {| users := storedUsers;
     newUsername := "";
     newPassword := "";
     newUserRole := UniversityID;
     error := None;
     successMessage := None |}.

(** The [onChange] of the three inputs of the form. *)
Definition setNewUsername (username : string) (m : t) : t :=
  {| users := users m;
     newUsername := username;
     newPassword := newPassword m;
     newUserRole := newUserRole m;
     error := error m;
     successMessage := successMessage m |}.

Definition setNewPassword (password : string) (m : t) : t :=
  {| users := users m;
     newUsername := newUsername m;
     newPassword := password;
     newUserRole := newUserRole m;
     error := error m;
     successMessage := successMessage m |}.

Definition setNewUserRole (r : UserRole) (m : t) : t :=
  {| users := users m;
     newUsername := newUsername m;
     newPassword := newPassword m;
     newUserRole := r;
     error := error m;
     successMessage := successMessage m |}.

Definition EMPTY_FIELDS : string := "Username and password cannot be empty.".
Definition NAME_TAKEN : string :=
  "Username already exists. Please choose a different username.".
Definition LEAD_NO_ADMIN : string := "University Leads cannot create Admin users.".
Definition LEAD_NO_LEAD : string :=
  "University Leads cannot create other University Lead users.".

Definition refuse (message : string) (m : t) : outcome :=
  {| modal :=
       {| users := users m;
          newUsername := newUsername m;
          newPassword := newPassword m;
          newUserRole := newUserRole m;
          error := Some message;
          successMessage := None |};
     writtenUsers := None;
     writtenMessages := None |}.

Section Handlers.

Variable currentUserRole : UserRole.

(** The subject of the welcome message and the body that
    [generateWelcomeMessageBody] makes for a new user.  Both texts hold
    characters beyond Latin-1 and no handler looks into them. *)
Variable WELCOME_SUBJECT : string.
Variable generateWelcomeMessageBody : StoredUser -> string.

(** [handleAddUser]; [newId] is [crypto.randomUUID()], [now] is
    [new Date().toISOString()] and [storedMessages] is the array under the
    messages key.  The users are written before the [try]; the [try]
    reads the messages and writes them with the welcome message, and the
    [catch] leaves them and sets the other success text. *)
Definition handleAddUser (device : LocalStorage) (newId now : string)
    (storedMessages : list InternalMessage) (m : t) : outcome :=
  if isEmpty (trim (newUsername m)) || isEmpty (trim (newPassword m)) then
    refuse EMPTY_FIELDS m
  else
    let trimmedUsername := trim (newUsername m) in
    if notNull (List.find (fun u => String.eqb (toLowerCase (StoredUser.username u))
                                               (toLowerCase trimmedUsername))
                          (users m)) then
      refuse NAME_TAKEN m
    else if bool_decide (currentUserRole = UniversityLead)
            && bool_decide (newUserRole m = Admin) then
      refuse LEAD_NO_ADMIN m
    else if bool_decide (currentUserRole = UniversityLead)
            && bool_decide (newUserRole m = UniversityLead) then
      refuse LEAD_NO_LEAD m
    else
      let newUser :=
        {| StoredUser.username := trimmedUsername;
           StoredUser.role := newUserRole m;
           StoredUser.password := Some (newPassword m) |} in
      let updatedUsers := users m ++ [newUser] in
      let welcomeInternalMessage :=
        {| InternalMessage.id := newId;
           InternalMessage.senderUsername := "DentEdTech System";
           InternalMessage.senderRole := Admin;
           InternalMessage.recipientIdentifier :=
             {| RecipientIdentifier.type := user;
                RecipientIdentifier.value := StoredUser.username newUser |};
           InternalMessage.subject := WELCOME_SUBJECT;
           InternalMessage.body := generateWelcomeMessageBody newUser;
           InternalMessage.timestamp := now;
           InternalMessage.readBy := Some ∅ |} in
      match LocalStorage.reading device LOCAL_STORAGE_INTERNAL_MESSAGES_KEY,
            LocalStorage.writing device LOCAL_STORAGE_INTERNAL_MESSAGES_KEY with
      | None, None =>
          {| modal :=
               {| users := updatedUsers;
                  newUsername := "";
                  newPassword := "";
                  newUserRole := newUserRole m;
                  error := None;
                  successMessage :=
                    Some ("User " +:+ QUOTE +:+ StoredUser.username newUser +:+ QUOTE +:+ " ("
                            +:+ roleName (StoredUser.role newUser)
                            +:+ ") added successfully! A welcome message has been sent to their internal inbox.") |};
             writtenUsers := Some updatedUsers;
             writtenMessages := Some (storedMessages ++ [welcomeInternalMessage]) |}
      | _, _ =>
          {| modal :=
               {| users := updatedUsers;
                  newUsername := "";
                  newPassword := "";
                  newUserRole := newUserRole m;
                  error := None;
                  successMessage :=
                    Some ("User " +:+ QUOTE +:+ StoredUser.username newUser +:+ QUOTE +:+ " ("
                            +:+ roleName (StoredUser.role newUser)
                            +:+ ") added successfully, but the automated welcome message could not be sent.") |};
             writtenUsers := Some updatedUsers;
             writtenMessages := None |}
      end.



End Handlers.

End UserManagement.

(* ===================================================================== *)
(** ** ExternalTrainingModal: the portfolio evidence helper               *)
(* ===================================================================== *)

Module Portfolio.

(** The cells of the two selects. *)
Record t := {
  selectedBodyKeyForPortfolio : string;
  availableStandardsForPortfolio : list Standard;
  selectedStandardIdForPortfolio : string
}.

Definition INVALID_SELECTION : string :=
  "Please select a valid accreditation body and standard.".

Section Handlers.

(** The [accreditationBodies] prop. *)
Variable accreditationBodies : list AccreditationBody.

(** [standards[0]?.id || ''] *)
Definition firstStandardId (standards : list Standard) : string :=
  match standards with
  | [] => ""
  | s :: _ => Standard.id s
  end.

(** The cells as [useState] initialises them, from [accreditationBodies[0]]. *)
Definition initial : t :=
  match accreditationBodies with
  | [] =>
      {| selectedBodyKeyForPortfolio := "";
         availableStandardsForPortfolio := [];
         selectedStandardIdForPortfolio := "" |}
  | body :: _ =>
      {| selectedBodyKeyForPortfolio := AccreditationBody.key body;
         availableStandardsForPortfolio := AccreditationBody.standards body;
         selectedStandardIdForPortfolio := firstStandardId (AccreditationBody.standards body) |}
  end.

(** The effect on [selectedBodyKeyForPortfolio]. *)
Definition syncStandards (c : t) : t :=
  match List.find (fun b => String.eqb (AccreditationBody.key b) (selectedBodyKeyForPortfolio c))
                  accreditationBodies with
  | Some body =>
      {| selectedBodyKeyForPortfolio := selectedBodyKeyForPortfolio c;
         availableStandardsForPortfolio := AccreditationBody.standards body;
         selectedStandardIdForPortfolio := firstStandardId (AccreditationBody.standards body) |}
  | None =>
      {| selectedBodyKeyForPortfolio := selectedBodyKeyForPortfolio c;
         availableStandardsForPortfolio := [];
         selectedStandardIdForPortfolio := "" |}
  end.

(** Mounting: the initial cells and the first run of the effect. *)
Definition mount : t := syncStandards initial.

(** The [onChange] of the body select, and the effect it triggers. *)
Definition selectBody (bodyKey : string) (c : t) : t :=
  syncStandards
    {| selectedBodyKeyForPortfolio := bodyKey;
       availableStandardsForPortfolio := availableStandardsForPortfolio c;
       selectedStandardIdForPortfolio := selectedStandardIdForPortfolio c |}.

(** The [onChange] of the standard select. *)
Definition selectStandard (standardId : string) (c : t) : t :=
  {| selectedBodyKeyForPortfolio := selectedBodyKeyForPortfolio c;
     availableStandardsForPortfolio := availableStandardsForPortfolio c;
     selectedStandardIdForPortfolio := standardId |}.

(** [handleGetPortfolioExamples] up to the request: the body and the
    standard the prompt is written for, or the error it sets. *)
Definition handleGetPortfolioExamples (c : t) : AccreditationBody * Standard + string :=
  match List.find (fun b => String.eqb (AccreditationBody.key b) (selectedBodyKeyForPortfolio c))
                  accreditationBodies with
  | Some selectedBody =>
      match List.find (fun s => String.eqb (Standard.id s) (selectedStandardIdForPortfolio c))
                      (AccreditationBody.standards selectedBody) with
      | Some selectedStandard => inl (selectedBody, selectedStandard)
      | None => inr INVALID_SELECTION
      end
  | None => inr INVALID_SELECTION
  end.

(** The [disabled] of the button that calls it. *)
Definition buttonDisabled (isFetchingPortfolioExamples : bool) (c : t) : bool :=
  isFetchingPortfolioExamples || isEmpty (selectedStandardIdForPortfolio c).

End Handlers.

End Portfolio.

(* ===================================================================== *)
(** ** Definitions used to state the properties                           *)
(* ===================================================================== *)

(** [v.k] where it cannot throw. *)
Definition readable (v : value) : bool :=
  match v with VUndefined | VNull => false | _ => true end.

Definition prop (v : value) (k : string) : value :=
  match v with VObj fields => lookupField k fields | _ => VUndefined end.

(** The normal form of an id string: lower case, no white space, no hyphen. *)
Definition normalizeString (s : string) : string :=
  removeAll isHyphen (removeAll isWhiteSpace (toLowerCase s)).

(** A number clamped to the interval [0,100], as the specification words
    it: below the interval 0, above it 100, inside it the number. *)
Definition clampTo0_100 (n : number) : number :=
  if ltb n (ofZ 0) then ofZ 0
  else if ltb (ofZ 100) n then ofZ 100
  else n.

(** The stored percentage the specification prescribes for a returned
    value. *)
Definition specPercentage (returned : value) : number :=
  match returned with
  | VNum n => clampTo0_100 n
  | _ => ofZ 0
  end.

(** A field is present when it is not [undefined]. *)
Definition present (v : value) : bool :=
  match v with VUndefined => false | _ => true end.

(** The result item built from a response item once the catalog lookup
    has given [matchedStandard]. *)
Definition reconciled (matchedStandard : option Standard) (item : value) : AnalysisResultItem :=
  {| AnalysisResultItem.standardId :=
       match matchedStandard with
       | Some s => VStr (Standard.id s)
       | None => orElse (prop item "standardId") (VStr "N/A")
       end;
     AnalysisResultItem.standardName :=
       match matchedStandard with
       | Some s => VStr (Standard.name s)
       | None => orElse (prop item "standardName") (VStr "Unknown Standard")
       end;
     AnalysisResultItem.matchPercentage :=
       match asNumber (prop item "matchPercentage") with
       | Some n => Math_max (ofZ 0) (Math_min (ofZ 100) n)
       | None => ofZ 0
       end;
     AnalysisResultItem.improvementFeedback :=
       orElse (prop item "improvementFeedback") (VStr "No feedback provided.");
     AnalysisResultItem.reasoning :=
       orElse (prop item "reasoning")
         (match asNumber (prop item "matchPercentage") with
          | Some n => if ltb n (ofZ 75) then VStr REASONING_PLACEHOLDER else VUndefined
          | None => VUndefined
          end) |}.

(** A response item the reconciliation callback accepts without throwing:
    not [null], and with a standardId that is a string or is missing. *)
Definition wellFormedItem (item : value) : bool :=
  readable item &&
  match prop item "standardId" with
  | VStr _ => true
  | v => negb (truthy v)
  end.

(** How a result item [it] stands to the response item [element] it was
    reconciled from: its standardId is the id of a catalog standard with
    the same normal form as the returned id; or it is the returned id,
    present and matched by no catalog standard; or, the returned id being
    missing and unmatched, it is the sentinel. *)
Definition verifiedId (body : AccreditationBody) (element : value) (it : AnalysisResultItem)
  : Prop :=
  exists s, In s (AccreditationBody.standards body) /\
            normalizeId (prop element "standardId") = normalizeId (VStr (Standard.id s)) /\
            AnalysisResultItem.standardId it = VStr (Standard.id s).

Definition rawId (body : AccreditationBody) (element : value) (it : AnalysisResultItem)
  : Prop :=
  findMatchedStandard body (prop element "standardId") = Ok None /\
  truthy (prop element "standardId") = true /\
  AnalysisResultItem.standardId it = prop element "standardId".

Definition sentinelId (body : AccreditationBody) (element : value) (it : AnalysisResultItem)
  : Prop :=
  findMatchedStandard body (prop element "standardId") = Ok None /\
  truthy (prop element "standardId") = false /\
  AnalysisResultItem.standardId it = VStr "N/A".

(** What reconciliation guarantees of the result group of a body: the
    response's items were reconciled one by one, in order; the group holds
    those whose standardId is not the sentinel; and each item it holds is
    verified against the catalog or carries the returned id. *)
Definition groupReconciled (ai : string -> result value) (bodyKey : string)
    (group : AnalysisResultsGroup) : Prop :=
  exists body parsedData results mapped,
    In body ACCREDITATION_BODIES /\ AccreditationBody.key body = bodyKey /\
    ai bodyKey = Ok parsedData /\ getProp parsedData "results" = Ok (VArr results) /\
    Forall2 (fun element it =>
               reconcileItem body element = Ok it /\
               (verifiedId body element it \/ rawId body element it \/ sentinelId body element it))
            results mapped /\
    AnalysisResultsGroup.items group
      = List.filter (fun it => strictNeStr (AnalysisResultItem.standardId it) "N/A") mapped /\
    Forall (fun it =>
              AnalysisResultItem.standardId it <> VStr "N/A" /\
              exists element, In element results /\
                              (verifiedId body element it \/ rawId body element it))
           (AnalysisResultsGroup.items group).

(** The catalog entries by position. *)
Definition noBody : AccreditationBody :=
  {| AccreditationBody.key := ""; AccreditationBody.name := ""; AccreditationBody.standards := [] |}.
Definition ADA : AccreditationBody := nth 0 ACCREDITATION_BODIES noBody.
Definition GDC : AccreditationBody := nth 1 ACCREDITATION_BODIES noBody.
Definition NCAAA : AccreditationBody := nth 2 ACCREDITATION_BODIES noBody.

(** A response item, as an object with the given fields. *)
Definition responseItem (standardId matchPercentage : value) : value :=
  VObj [("standardId", standardId); ("matchPercentage", matchPercentage);
        ("improvementFeedback", VStr "Describe the annual curriculum review.")].

(** A response for the ADA body whose only item names no ADA standard. *)
Definition danglingResponse : value :=
  VObj [("results", VArr [responseItem (VStr "XYZ-9") (VNum (ofZ 50))])].

(** A settled promise that was fulfilled. *)
Definition isFulfilled {A} (r : result A) : bool :=
  match r with Ok _ => true | Throw _ => false end.

(** What all-settled aggregation is to surface: the fulfilled values and
    the rejection reasons, each in the order of the selected bodies, and
    the warning made of one line per rejection. *)
Fixpoint fulfilledOf {A} (settled : list (result A)) : list A :=
  match settled with
  | [] => []
  | Ok a :: rest => a :: fulfilledOf rest
  | Throw _ :: rest => fulfilledOf rest
  end.

Fixpoint rejectedOf {A} (settled : list (result A)) : list exn :=
  match settled with
  | [] => []
  | Ok _ :: rest => rejectedOf rest
  | Throw reason :: rest => reason :: rejectedOf rest
  end.

Definition failureLine (reason : exn) : string :=
  ONE_BODY_FAILED +:+ reasonMessage reason.

Definition warningOf (reasons : list exn) : option string :=
  match reasons with
  | [] => None
  | _ => Some (String.concat LF (List.map failureLine reasons))
  end.

(** The guard of [handleSubmitAnalysis] on a pending submission. *)
Definition pendingGuard (currentUser : User) (st : State) : bool :=
  State.hasPendingSubmission st
  && bool_decide (User.role currentUser = UniversityID)
  && negb (notNull (State.revisingSubmissionInfo st)).

(** The pending submissions of a user in a list of submissions. *)
Definition pendingOf (username : string) (submissions : list Submission) : list Submission :=
  List.filter (fun s => String.eqb (Submission.submittedByUsername s) username
                        && bool_decide (Submission.status s = pending))
              submissions.

(** The cells as [useState] initialises them. *)
Definition initialState : State :=
  {| State.selectedBodyKeys := [];
     State.programContent := "";
     State.programContentLanguage := English;
     State.analysisResults := None;
     State.isLoading := false;
     State.isFileParsing := false;
     State.isSubmitting := false;
     State.error := None;
     State.showPrintableReport := false;
     State.submissionsForReview := [];
     State.userPastSubmissions := [];
     State.revisingSubmissionInfo := None;
     State.selectedSubmissionForReview := None;
     State.hasPendingSubmission := false |}.

Definition emptyStorage : Storage :=
  {| Storage.accreditationSubmissions := [];
     Storage.accreditationSubmissionNotifications := [] |}.

(** Sample data: a University ID user and a University Lead, a state with
    content typed and two bodies ticked, and an AI that answers for ADA and
    fails for every other body. *)
Definition u1 : User := {| User.username := "u1"; User.role := UniversityID |}.
Definition lead1 : User := {| User.username := "lead"; User.role := UniversityLead |}.

Definition typedState : State :=
  State.setSelectedBodyKeys ["ADA"; "GDC"]
    (State.setProgramContent "Our curriculum is reviewed every year." initialState).

Definition sampleResponse : value :=
  VObj [("results", VArr [responseItem (VStr "ADA-1.1") (VNum (ofZ 60))])].

Definition adaOnly (bodyKey : string) : result value :=
  if String.eqb bodyKey "ADA" then Ok sampleResponse
  else Throw (ErrorObject KTypeError "Failed to fetch").

Definition epoch (timestamp : string) : Z := 0.

(** A University ID user with nothing stored analyses the typed content;
    the same user, in two tabs that both show this analysis, submits it
    for review from each. *)
Definition analysedState : State := handleSubmitAnalysis u1 adaOnly typedState.

Definition firstTabSubmit : State * Storage :=
  handleSubmitForReview epoch u1 LocalStorage.working "id-1" "2026-01-01T10:00:00.000Z"
    emptyStorage analysedState.

Definition secondTabSubmit : State * Storage :=
  handleSubmitForReview epoch u1 LocalStorage.working "id-2" "2026-01-01T10:05:00.000Z"
    (snd firstTabSubmit) analysedState.

(** The notes stored for the submission with a given id. *)
Definition storedNotes (id : string) (store : Storage) : list SubmissionNote :=
  match List.find (fun s => String.eqb (Submission.id s) id)
                  (Storage.accreditationSubmissions store) with
  | Some s => Submission.notes s
  | None => []
  end.

(** A University Lead opens a pending submission twice.  The first time a note
    is added and the modal is closed with the Close button, that is with
    [onClose(false)], which does not reload the list of submissions; the
    second time the modal is mounted on the same list entry and another
    note is added. *)
Definition pendingSubmission : Submission :=
  {| Submission.id := "sub-1";
     Submission.submittedByUsername := "u1";
     Submission.submittedByUserRole := UniversityID;
     Submission.submittedAt := "2026-01-01T10:00:00.000Z";
     Submission.programContent := "Our curriculum is reviewed every year.";
     Submission.programContentLanguage := English;
     Submission.analysisResults := [];
     Submission.selectedBodyKeys := ["ADA"];
     Submission.status := pending;
     Submission.notes := [] |}.

Definition reviewStorage : Storage :=
  {| Storage.accreditationSubmissions := [pendingSubmission];
     Storage.accreditationSubmissionNotifications := [] |}.

Definition leadState : State :=
  loadSubmissionsData epoch lead1 reviewStorage initialState.

Definition firstVisit : ReviewModal.outcome :=
  ReviewModal.handleAddNote lead1 LocalStorage.working "2026-01-02T09:00:00.000Z" reviewStorage
    (ReviewModal.setNewNoteText "Describe the review cycle."
       (ReviewModal.mount (nth 0 (State.submissionsForReview leadState) pendingSubmission))).

Definition afterClose : State :=
  handleCloseSubmissionReviewModal epoch lead1 false (ReviewModal.storage firstVisit)
    (handleOpenSubmissionForReview
       (nth 0 (State.submissionsForReview leadState) pendingSubmission) leadState).

Definition secondVisit : ReviewModal.outcome :=
  ReviewModal.handleAddNote lead1 LocalStorage.working "2026-01-02T09:30:00.000Z"
    (ReviewModal.storage firstVisit)
    (ReviewModal.setNewNoteText "Add the faculty numbers."
       (ReviewModal.mount (nth 0 (State.submissionsForReview afterClose) pendingSubmission))).

(** One tab, one University ID user with a rejected submission stored.
    The user loads it for revision, clicks Analyze twice and picks two
    files, all before anything comes back (while a revision is loaded the
    button and the file input stay enabled); the first file and the first
    analysis arrive and the user submits; then the second file and the
    second analysis arrive, and the user submits again. *)
Definition rejectedSubmission : Submission := withStatus rejected pendingSubmission.

Definition raceStorage : Storage :=
  {| Storage.accreditationSubmissions := [rejectedSubmission];
     Storage.accreditationSubmissionNotifications := [] |}.

Definition raceMounted : State := loadSubmissionsData epoch u1 raceStorage initialState.

Definition raceRevising : State :=
  loadSubmissionsData epoch u1 raceStorage (handleLoadForRevision rejectedSubmission raceMounted).

Definition raceTwoAnalyses : State := beginAnalysis (beginAnalysis raceRevising).

Definition raceTwoFiles : State := beginFileChange (beginFileChange raceTwoAnalyses).

Definition raceFirstReady : State :=
  finishAnalysis (List.map (analyzeBody adaOnly) (State.selectedBodyKeys raceRevising))
    (finishFileChange (Ok "First revision.") raceTwoFiles).

Definition raceFirstSubmit : State * Storage :=
  handleSubmitForReview epoch u1 LocalStorage.working "id-1" "2026-01-03T10:00:00.000Z"
    raceStorage raceFirstReady.

Definition raceAfterFirstSubmit : State :=
  loadSubmissionsData epoch u1 (snd raceFirstSubmit) (fst raceFirstSubmit).

Definition raceSecondReady : State :=
  finishAnalysis
    (List.map (analyzeBody adaOnly) (State.selectedBodyKeys (beginAnalysis raceRevising)))
    (finishFileChange (Ok "Second revision.") raceAfterFirstSubmit).

Definition raceSecondSubmit : State * Storage :=
  handleSubmitForReview epoch u1 LocalStorage.working "id-2" "2026-01-03T10:01:00.000Z"
    (snd raceFirstSubmit)
    raceSecondReady.

(** The pending submission approved by an administrator in another tab,
    while the lead's modal is still open on the pending copy. *)
Definition approvedElsewhere : Storage :=
  ReviewModal.storage
    (ReviewModal.handleUpdateSubmissionStatus LocalStorage.working approved "n-1"
       "2026-01-02T08:00:00.000Z" reviewStorage (ReviewModal.mount pendingSubmission)).

Definition lateNote : option ReviewModal.outcome :=
  ReviewModal.clickAddNote lead1 LocalStorage.working "2026-01-02T09:00:00.000Z"
    approvedElsewhere
    (ReviewModal.setNewNoteText "One more remark." (ReviewModal.mount pendingSubmission)).

(** A registry that holds one user, who is neither seed account. *)
Definition bob : StoredUser :=
  {| StoredUser.username := "bob"; StoredUser.role := UniversityID;
     StoredUser.password := Some "bobpass" |}.
Definition bobOnly : list StoredUser := [bob].

(** Two names are the same to the login when their lower-case forms are. *)
Definition sameName (a b : string) : bool :=
  String.eqb (toLowerCase a) (toLowerCase b).

(** Newest first: no element is followed by a strictly newer one. *)
Definition notOlder {A} (time : A -> Z) (a b : A) : Prop := (time b <= time a)%Z.

(** What [markMessageAsRead] does to one message. *)
Definition markIf (currentUser : User) (messageId : string) (msg : InternalMessage)
  : InternalMessage :=
  if String.eqb (InternalMessage.id msg) messageId
  then Messages.withReader currentUser msg else msg.

(** The stored notifications addressed to a user, and those addressed to
    anyone else, in the order of the store. *)
Definition notificationsOf (username : string) (store : Storage) : list Notification :=
  List.filter (fun n => String.eqb (Notification.recipientUsername n) username)
              (Storage.accreditationSubmissionNotifications store).

Definition notificationsOfOthers (username : string) (store : Storage) : list Notification :=
  List.filter (fun n => negb (String.eqb (Notification.recipientUsername n) username))
              (Storage.accreditationSubmissionNotifications store).

Definition unreadNotifications (l : list Notification) : list Notification :=
  List.filter (fun n => negb (Notification.isRead n)) l.

(** A percentage between 0 and 100. *)
Definition inPercentRange (n : number) : Prop :=
  ltb n (ofZ 0) = false /\ ltb (ofZ 100) n = false.

(** A result group as an analysis makes it: it is what [analyzeBody]
    returned for its key on some answer of the AI. *)
Definition fromAnalysis (group : AnalysisResultsGroup) : Prop :=
  exists ai, analyzeBody ai (AnalysisResultsGroup.accreditationBodyKey group) = Ok group.

(** What can be relied on in a result group: it belongs to a body of the
    catalog and carries its name; each of its items has a string for its
    standardId, which is not the sentinel, and a percentage between 0 and
    100. *)
Definition soundGroup (group : AnalysisResultsGroup) : Prop :=
  (exists body,
      In body ACCREDITATION_BODIES /\
      AnalysisResultsGroup.accreditationBodyKey group = AccreditationBody.key body /\
      AnalysisResultsGroup.accreditationBodyName group = AccreditationBody.name body) /\
  Forall (fun item =>
            (exists id, AnalysisResultItem.standardId item = VStr id /\ id <> "N/A") /\
            inPercentRange (AnalysisResultItem.matchPercentage item))
         (AnalysisResultsGroup.items group).

(** The states of the analyzer: the cells as they are initialised, and
    what each event makes of a state.  An analysis is also taken in its
    two steps, with any other event in between, and with the promises of
    any selection settling. *)
Inductive reachable (getTime : string -> Z) (currentUser : User) : State -> Prop :=
| reach_initial : reachable getTime currentUser initialState
| reach_loadSubmissionsData store st :
    reachable getTime currentUser st ->
    reachable getTime currentUser (loadSubmissionsData getTime currentUser store st)
| reach_bodySelection bodyKey st :
    reachable getTime currentUser st ->
    reachable getTime currentUser (handleBodySelectionChange bodyKey st)
| reach_typing text st :
    reachable getTime currentUser st ->
    reachable getTime currentUser (State.setProgramContent text st)
| reach_language language st :
    reachable getTime currentUser st ->
    reachable getTime currentUser (State.setProgramContentLanguage language st)
| reach_beginFileChange st :
    reachable getTime currentUser st ->
    reachable getTime currentUser (beginFileChange st)
| reach_finishFileChange extracted st :
    reachable getTime currentUser st ->
    reachable getTime currentUser (finishFileChange extracted st)
| reach_submitAnalysis ai st :
    reachable getTime currentUser st ->
    reachable getTime currentUser (handleSubmitAnalysis currentUser ai st)
| reach_beginAnalysis st :
    reachable getTime currentUser st ->
    reachable getTime currentUser (beginAnalysis st)
| reach_finishAnalysis ai keys st :
    reachable getTime currentUser st ->
    reachable getTime currentUser (finishAnalysis (List.map (analyzeBody ai) keys) st)
| reach_printableReport shown st :
    reachable getTime currentUser st ->
    reachable getTime currentUser (State.setShowPrintableReport shown st)
| reach_openTrainingChatbot standardId bodyKey st :
    reachable getTime currentUser st ->
    reachable getTime currentUser (fst (handleOpenTrainingChatbot standardId bodyKey st))
| reach_showSummaryChart bodyKey st :
    reachable getTime currentUser st ->
    reachable getTime currentUser (fst (handleShowSummaryChart bodyKey st))
| reach_submitForReview device newId now store st :
    reachable getTime currentUser st ->
    reachable getTime currentUser
      (fst (handleSubmitForReview getTime currentUser device newId now store st))
| reach_loadForRevision submission st :
    reachable getTime currentUser st ->
    reachable getTime currentUser (handleLoadForRevision submission st)
| reach_cancelRevision st :
    reachable getTime currentUser st ->
    reachable getTime currentUser (cancelRevision currentUser st)
| reach_openSubmissionForReview submission st :
    reachable getTime currentUser st ->
    reachable getTime currentUser (handleOpenSubmissionForReview submission st)
| reach_closeSubmissionReviewModal refreshList store st :
    reachable getTime currentUser st ->
    reachable getTime currentUser
      (handleCloseSubmissionReviewModal getTime currentUser refreshList store st).

(** A state a University ID user reaches by typing content, ticking two
    bodies and analysing, the AI answering for ADA only. *)
Definition tickedState : State :=
  handleBodySelectionChange "GDC"
    (handleBodySelectionChange "ADA"
       (State.setProgramContent "Our curriculum is reviewed every year." initialState)).

Definition sampleAnalysed : State := handleSubmitAnalysis u1 adaOnly tickedState.

(** The group and the item that [sampleAnalysed] shows. *)
Definition sampleGroup : AnalysisResultsGroup :=
  match findResultGroup "ADA" sampleAnalysed with
  | Some group => group
  | None =>
      {| AnalysisResultsGroup.accreditationBodyKey := "";
         AnalysisResultsGroup.accreditationBodyName := "";
         AnalysisResultsGroup.overallMatchingStatement := None;
         AnalysisResultsGroup.items := [] |}
  end.

Definition sampleItem : AnalysisResultItem :=
  reconciled (List.find (fun s => String.eqb (Standard.id s) "ADA-1.1")
                        (AccreditationBody.standards ADA))
             (responseItem (VStr "ADA-1.1") (VNum (ofZ 60))).

(** The error of [handleOpenTrainingChatbot] for an id that the body does
    not define. *)
Definition NO_STANDARD_DEFINITION (standardId : string) (body : AccreditationBody) : string :=
  "Could not find standard definition for ID " +:+ QUOTE +:+ standardId +:+ QUOTE +:+ " in "
    +:+ AccreditationBody.name body
    +:+ ". This may indicate an issue with standard ID reconciliation.".

(** A user name that is also the name of a property of [Object.prototype]:
    a [readBy] object without an own entry for it still answers a read of
    it with a truthy value. *)
Definition inheritedName (username : string) : bool :=
  existsb (String.eqb username) OBJECT_PROTOTYPE_KEYS.

(** The messages addressed to a user (by name or by role) and the others,
    in list order. *)
Definition addressedTo (currentUser : User) (l : list InternalMessage) : list InternalMessage :=
  List.filter (isForCurrentUser currentUser) l.

Definition notAddressedTo (currentUser : User) (l : list InternalMessage)
  : list InternalMessage :=
  List.filter (fun msg => negb (isForCurrentUser currentUser msg)) l.

Definition unreadBy (username : string) (l : list InternalMessage) : list InternalMessage :=
  List.filter (isUnreadBy username) l.

(** A message from the lead to u1, not read by anyone yet. *)
Definition sampleMessage : InternalMessage :=
  {| InternalMessage.id := "m-1";
     InternalMessage.senderUsername := "lead";
     InternalMessage.senderRole := UniversityLead;
     InternalMessage.recipientIdentifier :=
       {| RecipientIdentifier.type := user; RecipientIdentifier.value := "u1" |};
     InternalMessage.subject := "Review";
     InternalMessage.body := "Please revise the curriculum section.";
     InternalMessage.timestamp := "2026-01-02T09:00:00.000Z";
     InternalMessage.readBy := Some ∅ |}.

Definition sampleInbox : Messages.t :=
  {| Messages.messages := [sampleMessage]; Messages.selectedMessage := None |}.

(** The names of a registry as the login and the user management compare
    them: in lower case. *)
Definition lowerNames (users : list StoredUser) : list string :=
  List.map (fun u => toLowerCase (StoredUser.username u)) users.


(** The user management modal from its opening on a stored registry on:
    the form is filled in and submitted any number of times. *)
Inductive managed (currentUserRole : UserRole) (WELCOME_SUBJECT : string)
    (generateWelcomeMessageBody : StoredUser -> string) (stored : list StoredUser)
  : UserManagement.t -> Prop :=
| managed_open :
    managed currentUserRole WELCOME_SUBJECT generateWelcomeMessageBody stored
      (UserManagement.open stored)
| managed_username username m :
    managed currentUserRole WELCOME_SUBJECT generateWelcomeMessageBody stored m ->
    managed currentUserRole WELCOME_SUBJECT generateWelcomeMessageBody stored
      (UserManagement.setNewUsername username m)
| managed_password password m :
    managed currentUserRole WELCOME_SUBJECT generateWelcomeMessageBody stored m ->
    managed currentUserRole WELCOME_SUBJECT generateWelcomeMessageBody stored
      (UserManagement.setNewPassword password m)
| managed_role r m :
    managed currentUserRole WELCOME_SUBJECT generateWelcomeMessageBody stored m ->
    managed currentUserRole WELCOME_SUBJECT generateWelcomeMessageBody stored
      (UserManagement.setNewUserRole r m)
| managed_add device newId now storedMessages m :
    managed currentUserRole WELCOME_SUBJECT generateWelcomeMessageBody stored m ->
    managed currentUserRole WELCOME_SUBJECT generateWelcomeMessageBody stored
      (UserManagement.modal
         (UserManagement.handleAddUser currentUserRole WELCOME_SUBJECT
            generateWelcomeMessageBody device newId now storedMessages m)).

(** The modal of the lead, opened on the seeded registry, with the form
    filled in for a new University ID user. *)
Definition sampleAddUser : UserManagement.t :=
  UserManagement.setNewPassword "norapass"
    (UserManagement.setNewUsername " Nora " (UserManagement.open App.defaultUsers)).

(** The stored submissions that are pending and do not have a given id. *)
Definition pendingOthers (id : string) (submissions : list Submission) : list Submission :=
  List.filter (fun s => bool_decide (Submission.status s = pending)
                        && negb (String.eqb (Submission.id s) id))
              submissions.

(** The lead's modal on the pending submission of [reviewStorage], with a
    note typed and added. *)
Definition sampleReview : ReviewModal.t := ReviewModal.modal firstVisit.

Definition sampleDecision : ReviewModal.outcome :=
  ReviewModal.handleUpdateSubmissionStatus LocalStorage.working rejected "n-1"
    "2026-01-02T10:00:00.000Z" (ReviewModal.storage firstVisit) sampleReview.

(** The state of u1 after the rejected submission was loaded for revision
    and analysed again. *)
Definition sampleRevised : State :=
  handleSubmitAnalysis u1 adaOnly (handleLoadForRevision rejectedSubmission raceMounted).

(** The states of the portfolio helper on the catalog: mounted, and after
    any choice among the options the two selects offer. *)
Inductive portfolioReachable : Portfolio.t -> Prop :=
| portfolio_mount : portfolioReachable (Portfolio.mount ACCREDITATION_BODIES)
| portfolio_selectBody bodyKey c :
    portfolioReachable c ->
    In bodyKey (List.map AccreditationBody.key ACCREDITATION_BODIES) ->
    portfolioReachable (Portfolio.selectBody ACCREDITATION_BODIES bodyKey c)
| portfolio_selectStandard standardId c :
    portfolioReachable c ->
    In standardId (List.map Standard.id (Portfolio.availableStandardsForPortfolio c)) ->
    portfolioReachable (Portfolio.selectStandard standardId c).


(** A key of the store that can be read and written. *)
Definition answers (device : LocalStorage) (key : string) : bool :=
  negb (notNull (LocalStorage.reading device key))
  && negb (notNull (LocalStorage.writing device key)).

(** The click on Cancel Revision in the state the page shows next: the
    button is rendered during a revision only, so the click changes
    [revisingSubmissionInfo], and the effect on that cell loads the stored
    submissions again. *)
Definition cancelRevisionClick (getTime : string -> Z) (currentUser : User) (store : Storage)
    (st : State) : State :=
  loadSubmissionsData getTime currentUser store (cancelRevision currentUser st).
(* ===================================================================== *)
(** ** Reconciliation: auxiliary facts                                    *)
(* ===================================================================== *)

Lemma getProp_readable item k :
  readable item = true -> getProp item k = Ok (prop item k).
Proof. destruct item; simpl; intros H; try discriminate H; reflexivity. Qed.

Lemma getProp_Ok item k v :
  getProp item k = Ok v -> readable item = true /\ v = prop item k.
Proof.
  destruct item; simpl; intros H; inversion H; subst; auto.
Qed.

Lemma bind_Ok {A B} (r : result A) (k : A -> result B) b :
  (r ≫= k) = Ok b -> exists a, r = Ok a /\ k a = Ok b.
Proof. destruct r as [a|e]; simpl; intros H; [eauto | discriminate H]. Qed.

Lemma reconcileItem_readable body item :
  readable item = true ->
  reconcileItem body item =
  (findMatchedStandard body (prop item "standardId")) ≫=
    (fun matched => Ok (reconciled matched item)).
Proof.
  intros Hr. unfold reconcileItem.
  rewrite !(getProp_readable item _ Hr). cbn [mbind result_bind].
  destruct (findMatchedStandard body (prop item "standardId")) as [[s|]|e];
    cbn [mbind result_bind]; reflexivity.
Qed.

Lemma reconcileItem_inv body item r :
  reconcileItem body item = Ok r ->
  readable item = true /\
  exists matched,
    findMatchedStandard body (prop item "standardId") = Ok matched /\
    r = reconciled matched item.
Proof.
  intros H.
  assert (Hr : readable item = true).
  { unfold reconcileItem in H. apply bind_Ok in H as (v & Hv & _).
    apply getProp_Ok in Hv. tauto. }
  split; [exact Hr|].
  rewrite (reconcileItem_readable _ _ Hr) in H.
  apply bind_Ok in H as (m & Hm & Hk). exists m. split; [exact Hm|]. congruence.
Qed.

Lemma mapM_Ok {A B} (f : A -> result B) l k :
  mapM f l = Ok k -> Forall2 (fun x y => f x = Ok y) l k.
Proof.
  revert k. induction l as [|x l IH]; intros k H.
  - inversion H. constructor.
  - cbn in H. apply bind_Ok in H as (y & Hy & H).
    apply bind_Ok in H as (ys & Hys & H). inversion H; subst.
    constructor; auto.
Qed.

Lemma Forall2_In_r {A B} (P : A -> B -> Prop) l k y :
  Forall2 P l k -> In y k -> exists x, In x l /\ P x y.
Proof.
  induction 1 as [|x y' l k Hxy _ IH]; intros Hin; [destruct Hin|].
  destruct Hin as [->|Hin].
  - exists x. split; [left; reflexivity | exact Hxy].
  - destruct (IH Hin) as (x' & Hx' & HP). exists x'. split; [right; exact Hx' | exact HP].
Qed.

Lemma findM_Some_In {A} (p : A -> result bool) l x :
  findM p l = Ok (Some x) -> In x l /\ p x = Ok true.
Proof.
  induction l as [|y l IH]; intros H.
  - inversion H.
  - cbn in H. apply bind_Ok in H as ([|] & Hy & H).
    + inversion H; subst. split; [left; reflexivity | exact Hy].
    + destruct (IH H) as [Hin Hp]. split; [right; exact Hin | exact Hp].
Qed.

Lemma normalizeId_VStr s : normalizeId (VStr s) = Ok (normalizeString s).
Proof. destruct s; reflexivity. Qed.

(** When the returned id normalizes, the catalog lookup is an ordinary
    [find] on normal forms. *)
Lemma findMatchedStandard_normal body returned n :
  normalizeId returned = Ok n ->
  findMatchedStandard body returned =
  Ok (List.find (fun s => String.eqb (normalizeString (Standard.id s)) n)
                (AccreditationBody.standards body)).
Proof.
  intros Hn. unfold findMatchedStandard. rewrite Hn.
  induction (AccreditationBody.standards body) as [|s l IH]; [reflexivity|].
  cbn [findM List.find]. rewrite normalizeId_VStr. cbn [mbind result_bind].
  destruct (String.eqb (normalizeString (Standard.id s)) n); [reflexivity | exact IH].
Qed.

Lemma findMatchedStandard_Some body returned s :
  findMatchedStandard body returned = Ok (Some s) ->
  In s (AccreditationBody.standards body) /\
  normalizeId returned = Ok (normalizeString (Standard.id s)).
Proof.
  intros H. apply findM_Some_In in H as [Hin Hp]. split; [exact Hin|].
  rewrite normalizeId_VStr in Hp. cbn [mbind result_bind] in Hp.
  destruct (normalizeId returned) as [n|e]; [|discriminate Hp].
  cbn [mbind result_bind] in Hp. inversion Hp as [Heq].
  apply String.eqb_eq in Heq. congruence.
Qed.

Lemma find_unique {A} (f : A -> string) (l : list A) (x : A) :
  NoDup (List.map f l) -> In x l ->
  List.find (fun y => String.eqb (f y) (f x)) l = Some x.
Proof.
  induction l as [|y l IH]; intros Hnd Hin; [destruct Hin|].
  cbn [List.map] in Hnd. apply NoDup_cons in Hnd as [Hy Hnd].
  cbn [List.find]. destruct Hin as [->|Hin].
  - rewrite String.eqb_refl. reflexivity.
  - destruct (String.eqb (f y) (f x)) eqn:E; [|auto].
    apply String.eqb_eq in E. exfalso. apply Hy. rewrite E.
    apply list_elem_of_In, in_map, Hin.
Qed.

(** Within each body of the catalog no two standards share a normal form. *)
Lemma catalog_normal_forms_distinct :
  Forall (fun body =>
            NoDup (List.map (fun s => normalizeString (Standard.id s))
                            (AccreditationBody.standards body)))
         ACCREDITATION_BODIES.
Proof. apply (bool_decide_unpack _). vm_compute. exact I. Qed.

(** Nor is any normal form of the catalog empty. *)
Lemma catalog_normal_forms_not_empty :
  Forall (fun body =>
            Forall (fun s => isEmpty (normalizeString (Standard.id s)) = false)
                   (AccreditationBody.standards body))
         ACCREDITATION_BODIES.
Proof. apply (bool_decide_unpack _). vm_compute. exact I. Qed.

Lemma analyzeBody_inv ai bodyKey group :
  analyzeBody ai bodyKey = Ok group ->
  exists body parsedData results items,
    In body ACCREDITATION_BODIES /\ AccreditationBody.key body = bodyKey /\
    ai bodyKey = Ok parsedData /\ getProp parsedData "results" = Ok (VArr results) /\
    reconcileResults body results = Ok items /\
    group = {| AnalysisResultsGroup.accreditationBodyKey := AccreditationBody.key body;
               AnalysisResultsGroup.accreditationBodyName := AccreditationBody.name body;
               AnalysisResultsGroup.overallMatchingStatement := None;
               AnalysisResultsGroup.items := items |}.
Proof.
  unfold analyzeBody. intros H.
  destruct (List.find _ ACCREDITATION_BODIES) as [body|] eqn:Hf; [|discriminate H].
  apply find_some in Hf as [Hin Hk]. apply String.eqb_eq in Hk.
  apply bind_Ok in H as (parsedData & Hai & H).
  apply bind_Ok in H as (results & Hres & H).
  destruct results as [| | | | |elements|]; try discriminate H.
  apply bind_Ok in H as (items & Hitems & H). inversion H; subst.
  exists body, parsedData, elements, items. repeat split; auto.
Qed.

(* ===================================================================== *)
(** ** Numbers: the clamp                                                 *)
(* ===================================================================== *)

Ltac qc_order :=
  repeat match goal with
         | H : ¬ (_ < _)%Qc |- _ => apply Qcnot_lt_le in H
         end;
  try (f_equal; apply Qc_is_canon);
  unfold Qclt, Qcle in *; cbn [this Q2Qc] in *;
  rewrite ?Qred_correct in *; unfold inject_Z in *;
  repeat match goal with q : Qc |- _ => destruct q as [q ?]; cbn [this] in * end;
  first [ exfalso; lra | lra ].

(** [Math.max(0, Math.min(100, n))] is the clamp of the specification. *)
Lemma clamp_agrees n : Math_max (ofZ 0) (Math_min (ofZ 100) n) = clampTo0_100 n.
Proof.
  destruct n as [q| |]; [|reflexivity|reflexivity].
  unfold clampTo0_100, Math_max, Math_min, ofZ, ltb.
  repeat case_bool_decide; try reflexivity; qc_order.
Qed.

Lemma clamp_below75 n : ltb (clampTo0_100 n) (ofZ 75) = ltb n (ofZ 75).
Proof.
  destruct n as [q| |]; [|reflexivity|reflexivity].
  unfold clampTo0_100, ofZ, ltb.
  repeat case_bool_decide; try reflexivity; qc_order.
Qed.

(** The clamp lands in the interval. *)
Lemma clamp_bounds n :
  ltb (clampTo0_100 n) (ofZ 0) = false /\ ltb (ofZ 100) (clampTo0_100 n) = false.
Proof.
  destruct n as [q| |]; [|split; reflexivity|split; reflexivity].
  unfold clampTo0_100, ofZ, ltb.
  split; repeat case_bool_decide; try reflexivity; qc_order.
Qed.

(** Inside the interval the clamp changes nothing. *)
Lemma clamp_inside n :
  ltb n (ofZ 0) = false -> ltb (ofZ 100) n = false -> clampTo0_100 n = n.
Proof. intros H0 H100. unfold clampTo0_100. rewrite H0, H100. reflexivity. Qed.

Lemma reconciled_percentage matched item :
  AnalysisResultItem.matchPercentage (reconciled matched item)
  = specPercentage (prop item "matchPercentage").
Proof.
  cbn [reconciled AnalysisResultItem.matchPercentage].
  destruct (prop item "matchPercentage"); cbn [asNumber specPercentage]; try reflexivity.
  apply clamp_agrees.
Qed.

(* ===================================================================== *)
(** ** Reconciliation: the properties of the specification                *)
(* ===================================================================== *)

(** A response item with a string id, or none, is always reconciled: the
    callback returns. *)
Lemma reconcileItem_returns body item :
  readable item = true ->
  (forall v, prop item "standardId" = v -> truthy v = true -> exists s, v = VStr s) ->
  exists matched, reconcileItem body item = Ok (reconciled matched item).
Proof.
  intros Hr Hid. rewrite (reconcileItem_readable _ _ Hr).
  assert (Hn : exists n, normalizeId (prop item "standardId") = Ok n).
  { unfold normalizeId. destruct (truthy (prop item "standardId")) eqn:Ht; [|eauto].
    destruct (Hid _ eq_refl Ht) as [s ->]. eauto. }
  destruct Hn as [n Hn]. rewrite (findMatchedStandard_normal _ _ _ Hn).
  cbn [mbind result_bind]. eauto.
Qed.

Lemma mapM_returns {A B} (f : A -> result B) l :
  Forall (fun x => exists y, f x = Ok y) l -> exists k, mapM f l = Ok k.
Proof.
  induction 1 as [|x l [y Hy] _ [k IH]]; [exists []; reflexivity|].
  exists (y :: k).
  change (mapM f (x :: l)) with (f x ≫= fun y => mapM f l ≫= fun k => mret (y :: k)).
  rewrite Hy, IH. reflexivity.
Qed.

Lemma catalog_keys_distinct :
  NoDup (List.map AccreditationBody.key ACCREDITATION_BODIES).
Proof. apply (bool_decide_unpack _). vm_compute. exact I. Qed.

(** The analysis of a catalog body returns a result group whenever the AI
    answers with an object whose [results] is an array of well-formed
    items. *)
Lemma analyzeBody_returns ai body parsedData results :
  In body ACCREDITATION_BODIES ->
  ai (AccreditationBody.key body) = Ok parsedData ->
  getProp parsedData "results" = Ok (VArr results) ->
  forallb wellFormedItem results = true ->
  exists items,
    analyzeBody ai (AccreditationBody.key body)
    = Ok {| AnalysisResultsGroup.accreditationBodyKey := AccreditationBody.key body;
            AnalysisResultsGroup.accreditationBodyName := AccreditationBody.name body;
            AnalysisResultsGroup.overallMatchingStatement := None;
            AnalysisResultsGroup.items := items |}.
Proof.
  intros Hin Hai Hres Hwf. unfold analyzeBody.
  rewrite (find_unique AccreditationBody.key _ body catalog_keys_distinct Hin).
  rewrite Hai. cbn [mbind result_bind]. rewrite Hres. cbn [mbind result_bind].
  assert (Hmap : exists mapped, mapM (reconcileItem body) results = Ok mapped).
  { apply mapM_returns. apply List.Forall_forall. intros item Hitem.
    rewrite forallb_forall in Hwf. specialize (Hwf item Hitem).
    unfold wellFormedItem in Hwf. apply andb_prop in Hwf as [Hr Hid].
    destruct (reconcileItem_returns body item Hr) as [matched Hm]; [|eauto].
    intros v <- Ht. destruct (prop item "standardId"); try (rewrite Ht in Hid; discriminate Hid).
    eauto. }
  destruct Hmap as [mapped Hmap]. unfold reconcileResults. rewrite Hmap.
  cbn [mbind result_bind]. eauto.
Qed.

Lemma reconcileItem_classified body element it :
  reconcileItem body element = Ok it ->
  verifiedId body element it \/ rawId body element it \/ sentinelId body element it.
Proof.
  intros H. apply reconcileItem_inv in H as (_ & matched & Hm & ->).
  destruct matched as [s|].
  - left. exists s. apply findMatchedStandard_Some in Hm as [Hs Hn].
    rewrite normalizeId_VStr. auto.
  - right. unfold rawId, sentinelId. cbn [reconciled AnalysisResultItem.standardId].
    unfold orElse. destruct (truthy (prop element "standardId")); auto.
Qed.

(** C1, as the code has it: the items of a result group are the response's
    items reconciled in order, without those that resolved to the sentinel
    "N/A".  So no item of a group carries the sentinel, and each item
    either carries the id of a catalog standard of that body whose normal
    form equals that of the returned id, or carries the returned id
    itself, which is then present and matched no catalog standard.  The
    items dropped are those whose returned id is missing (or is the
    sentinel itself) and unmatched. *)
Theorem C1_items_verified_or_raw ai bodyKey group :
  analyzeBody ai bodyKey = Ok group -> groupReconciled ai bodyKey group.
Proof.
  intros H.
  apply analyzeBody_inv in H
    as (body & parsedData & results & items & Hin & Hkey & Hai & Hres & Hrec & ->).
  unfold reconcileResults in Hrec. apply bind_Ok in Hrec as (mapped & Hmap & Hrec).
  inversion Hrec; subst items; clear Hrec. apply mapM_Ok in Hmap.
  exists body, parsedData, results, mapped. repeat (split; [assumption|]).
  split; [|split; [reflexivity|]].
  - eapply Forall2_impl; [exact Hmap|]. intros element it Hok.
    split; [exact Hok | apply reconcileItem_classified, Hok].
  - cbn [AnalysisResultsGroup.items]. apply List.Forall_forall. intros it Hit.
    apply filter_In in Hit as [Hit Hkeep].
    assert (Hne : AnalysisResultItem.standardId it <> VStr "N/A").
    { intros Heq. unfold keepItem in Hkeep. rewrite Heq in Hkeep. discriminate Hkeep. }
    split; [exact Hne|].
    destruct (Forall2_In_r _ _ _ _ Hmap Hit) as (element & Hel & Hok).
    exists element. split; [exact Hel|].
    destruct (reconcileItem_classified _ _ _ Hok) as [Hv|[Hr|(_ & _ & Hs)]]; auto.
    contradiction.
Qed.

Lemma C1_witness :
  groupReconciled (fun _ => Ok danglingResponse) "ADA"
    {| AnalysisResultsGroup.accreditationBodyKey := "ADA";
       AnalysisResultsGroup.accreditationBodyName := "American Dental Association (ADA CODA)";
       AnalysisResultsGroup.overallMatchingStatement := None;
       AnalysisResultsGroup.items :=
         [reconciled None (responseItem (VStr "XYZ-9") (VNum (ofZ 50)))] |}.
Proof.
  apply (C1_items_verified_or_raw (fun _ => Ok danglingResponse) "ADA").
  vm_compute. reflexivity.
Defined.

(** C1 as stated fails: the ADA result group of [danglingResponse] keeps
    an item whose standardId, "XYZ-9", is the id of no standard of the
    catalog. *)
Lemma C1_counterexample :
  exists group,
    analyzeBody (fun _ => Ok danglingResponse) "ADA" = Ok group /\
    List.map AnalysisResultItem.standardId (AnalysisResultsGroup.items group) = [VStr "XYZ-9"] /\
    List.forallb
      (fun body => List.forallb (fun s => negb (String.eqb (Standard.id s) "XYZ-9"))
                                (AccreditationBody.standards body))
      ACCREDITATION_BODIES = true.
Proof. eexists. repeat split; vm_compute; reflexivity. Qed.

Lemma normalized_match_reconciles body s item :
  In body ACCREDITATION_BODIES ->
  In s (AccreditationBody.standards body) ->
  normalizeId (prop item "standardId") = normalizeId (VStr (Standard.id s)) ->
  exists r,
    reconcileItem body item = Ok r /\
    AnalysisResultItem.standardId r = VStr (Standard.id s) /\
    AnalysisResultItem.standardName r = VStr (Standard.name s).
Proof.
  intros Hbody Hs Hn. rewrite normalizeId_VStr in Hn.
  assert (Hr : readable item = true).
  { pose proof catalog_normal_forms_not_empty as Hne.
    rewrite List.Forall_forall in Hne. specialize (Hne body Hbody).
    rewrite List.Forall_forall in Hne. specialize (Hne s Hs).
    destruct item; try reflexivity; cbn in Hn; inversion Hn as [He];
      rewrite <- He in Hne; discriminate Hne. }
  rewrite (reconcileItem_readable _ _ Hr), (findMatchedStandard_normal _ _ _ Hn).
  pose proof catalog_normal_forms_distinct as Hnd.
  rewrite List.Forall_forall in Hnd. specialize (Hnd body Hbody).
  rewrite (find_unique (fun s => normalizeString (Standard.id s)) _ s Hnd Hs).
  cbn [mbind result_bind]. eexists. split; [reflexivity|]. split; reflexivity.
Qed.

(** C3, as the code has it: when the returned standardId and the id of a
    standard of the selected catalog body have the same normal form (lower
    case, white space and hyphens removed; nothing else is removed, a dot
    in particular stays), the item is reconciled and carries that
    standard's id and name exactly.  So the returned ids "ada 1.1" and
    "ada1.1" reconcile to the catalog id "ADA-1.1", and the returned id
    "ada11", whose normal form is another, is kept as it came. *)
Theorem C3_normalized_match_reconciles :
  (forall body s item,
      In body ACCREDITATION_BODIES ->
      In s (AccreditationBody.standards body) ->
      normalizeId (prop item "standardId") = normalizeId (VStr (Standard.id s)) ->
      exists r,
        reconcileItem body item = Ok r /\
        AnalysisResultItem.standardId r = VStr (Standard.id s) /\
        AnalysisResultItem.standardName r = VStr (Standard.name s)) /\
  AnalysisResultItem.standardId
    <$> reconcileItem ADA (responseItem (VStr "ada 1.1") (VNum (ofZ 60))) = Ok (VStr "ADA-1.1") /\
  AnalysisResultItem.standardId
    <$> reconcileItem ADA (responseItem (VStr "ada1.1") (VNum (ofZ 60))) = Ok (VStr "ADA-1.1") /\
  AnalysisResultItem.standardId
    <$> reconcileItem ADA (responseItem (VStr "ada11") (VNum (ofZ 60))) = Ok (VStr "ada11").
Proof.
  split; [exact normalized_match_reconciles|].
  repeat split; vm_compute; reflexivity.
Qed.

(** The returned id "Gdc - 2.0" reconciles to the catalog id "GDC-2.0". *)
Lemma C3_witness :
  exists r,
    reconcileItem GDC (responseItem (VStr "Gdc - 2.0") (VNum (ofZ 60))) = Ok r /\
    AnalysisResultItem.standardId r = VStr "GDC-2.0" /\
    AnalysisResultItem.standardName r = VStr "Communication".
Proof.
  apply (proj1 C3_normalized_match_reconciles GDC
           {| Standard.id := "GDC-2.0"; Standard.name := "Communication";
              Standard.description := "Registrants must communicate effectively with patients, colleagues, and others." |}
           (responseItem (VStr "Gdc - 2.0") (VNum (ofZ 60)))).
  - right. left. reflexivity.
  - right. left. reflexivity.
  - vm_compute. reflexivity.
Defined.

(** C3 as stated fails on its own example: "ada11" and "ADA-1.1" have the
    normal forms "ada11" and "ada1.1", so the returned id "ada11" matches
    no ADA standard and is kept as it came. *)
Lemma C3_counterexample :
  normalizeId (VStr "ada11") = Ok "ada11" /\
  normalizeId (VStr "ADA-1.1") = Ok "ada1.1" /\
  AnalysisResultItem.standardId <$> reconcileItem ADA (responseItem (VStr "ada11") (VNum (ofZ 60)))
    = Ok (VStr "ada11") /\
  String.eqb "ada11" "ADA-1.1" = false.
Proof. repeat split; vm_compute; reflexivity. Qed.

(** C4: the reconciled matchPercentage is 0 when the returned one is not a
    number and is otherwise the returned number clamped to [0,100], which
    lies in that interval; 150 is stored as 100, -5 as 0 and "high" as 0. *)
Theorem C4_matchPercentage_clamped :
  (forall body item r,
      reconcileItem body item = Ok r ->
      AnalysisResultItem.matchPercentage r = specPercentage (prop item "matchPercentage") /\
      ltb (AnalysisResultItem.matchPercentage r) (ofZ 0) = false /\
      ltb (ofZ 100) (AnalysisResultItem.matchPercentage r) = false) /\
  AnalysisResultItem.matchPercentage
    <$> reconcileItem ADA (responseItem (VStr "ADA-1.1") (VNum (ofZ 150))) = Ok (ofZ 100) /\
  AnalysisResultItem.matchPercentage
    <$> reconcileItem ADA (responseItem (VStr "ADA-1.1") (VNum (ofZ (-5)))) = Ok (ofZ 0) /\
  AnalysisResultItem.matchPercentage
    <$> reconcileItem ADA (responseItem (VStr "ADA-1.1") (VStr "high")) = Ok (ofZ 0).
Proof.
  split; [|repeat split; vm_compute; reflexivity].
  intros body item r H. apply reconcileItem_inv in H as (_ & matched & _ & ->).
  rewrite reconciled_percentage. split; [reflexivity|].
  destruct (prop item "matchPercentage"); cbn [specPercentage];
    try (split; reflexivity).
  apply clamp_bounds.
Qed.

Lemma C4_witness :
  AnalysisResultItem.matchPercentage
    (reconciled (List.find (fun s => String.eqb (Standard.id s) "GDC-2.0")
                           (AccreditationBody.standards GDC))
                (responseItem (VStr "gdc 2.0") (VNum (ofZ 42))))
  = specPercentage (prop (responseItem (VStr "gdc 2.0") (VNum (ofZ 42))) "matchPercentage") /\
  ltb (AnalysisResultItem.matchPercentage
         (reconciled (List.find (fun s => String.eqb (Standard.id s) "GDC-2.0")
                                (AccreditationBody.standards GDC))
                     (responseItem (VStr "gdc 2.0") (VNum (ofZ 42))))) (ofZ 0) = false /\
  ltb (ofZ 100)
      (AnalysisResultItem.matchPercentage
         (reconciled (List.find (fun s => String.eqb (Standard.id s) "GDC-2.0")
                                (AccreditationBody.standards GDC))
                     (responseItem (VStr "gdc 2.0") (VNum (ofZ 42))))) = false.
Proof.
  apply (proj1 C4_matchPercentage_clamped GDC (responseItem (VStr "gdc 2.0") (VNum (ofZ 42)))).
  vm_compute. reflexivity.
Defined.

(** C6, as the code has it: when the returned matchPercentage is a number
    and the stored matchPercentage is below 75, the reasoning field is
    present: it is the returned reasoning when that is truthy and the
    placeholder otherwise.  When the returned matchPercentage is not a
    number, it is stored as 0 and no placeholder is made: without a
    returned reasoning the field is left undefined. *)
Theorem C6_reasoning_present_below_75 :
  (forall body item r n,
      reconcileItem body item = Ok r ->
      prop item "matchPercentage" = VNum n ->
      ltb (AnalysisResultItem.matchPercentage r) (ofZ 75) = true ->
      present (AnalysisResultItem.reasoning r) = true /\
      AnalysisResultItem.reasoning r =
        (if truthy (prop item "reasoning") then prop item "reasoning"
         else VStr REASONING_PLACEHOLDER)) /\
  (forall body item r,
      reconcileItem body item = Ok r ->
      asNumber (prop item "matchPercentage") = None ->
      truthy (prop item "reasoning") = false ->
      AnalysisResultItem.matchPercentage r = ofZ 0 /\
      AnalysisResultItem.reasoning r = VUndefined).
Proof.
  split.
  - intros body item r n H Hn Hlt. apply reconcileItem_inv in H as (_ & matched & _ & ->).
    rewrite reconciled_percentage, Hn in Hlt. cbn [specPercentage] in Hlt.
    rewrite clamp_below75 in Hlt.
    cbn [reconciled AnalysisResultItem.reasoning]. rewrite Hn. cbn [asNumber].
    rewrite Hlt. unfold orElse.
    destruct (truthy (prop item "reasoning")) eqn:Ht; [|split; reflexivity].
    split; [|reflexivity]. destruct (prop item "reasoning"); try reflexivity; discriminate Ht.
  - intros body item r H Hn Ht. apply reconcileItem_inv in H as (_ & matched & _ & ->).
    cbn [reconciled AnalysisResultItem.reasoning AnalysisResultItem.matchPercentage].
    rewrite Hn. unfold orElse. rewrite Ht. split; reflexivity.
Qed.

Lemma C6_witness :
  present (AnalysisResultItem.reasoning
             (reconciled None (responseItem (VStr "XYZ-9") (VNum (ofZ 50))))) = true /\
  AnalysisResultItem.reasoning (reconciled None (responseItem (VStr "XYZ-9") (VNum (ofZ 50))))
  = (if truthy (prop (responseItem (VStr "XYZ-9") (VNum (ofZ 50))) "reasoning")
     then prop (responseItem (VStr "XYZ-9") (VNum (ofZ 50))) "reasoning"
     else VStr REASONING_PLACEHOLDER).
Proof.
  apply (proj1 C6_reasoning_present_below_75 ADA
           (responseItem (VStr "XYZ-9") (VNum (ofZ 50))) _ (ofZ 50)).
  - vm_compute. reflexivity.
  - reflexivity.
  - vm_compute. reflexivity.
Defined.

(** C6 as stated fails: the returned matchPercentage "high" is stored as 0,
    which is below 75, and with no returned reasoning the reconciled item
    has none. *)
Lemma C6_counterexample :
  exists r,
    reconcileItem ADA (responseItem (VStr "ADA-1.1") (VStr "high")) = Ok r /\
    AnalysisResultItem.matchPercentage r = ofZ 0 /\
    ltb (AnalysisResultItem.matchPercentage r) (ofZ 75) = true /\
    AnalysisResultItem.reasoning r = VUndefined /\
    present (AnalysisResultItem.reasoning r) = false.
Proof. eexists. repeat split; vm_compute; reflexivity. Qed.

(* ===================================================================== *)
(** ** Aggregation of the settled analyses                                *)
(* ===================================================================== *)

Lemma append_assoc (a b c : string) : (a +:+ b) +:+ c = a +:+ b +:+ c.
Proof.
  induction a as [|x a IH]; [reflexivity|].
  change (String x ((a +:+ b) +:+ c) = String x (a +:+ b +:+ c)). f_equal. exact IH.
Qed.

Lemma isEmpty_append (a b : string) : isEmpty (a +:+ b) = isEmpty a && isEmpty b.
Proof. destruct a; reflexivity. Qed.

Lemma failureLine_not_empty reason : isEmpty (failureLine reason) = false.
Proof. reflexivity. Qed.

(** Prefixing the first of several lines by [a] and a line feed is adding
    the line [a] in front. *)
Lemma concat_merge_head a b l :
  String.concat LF ((a +:+ LF +:+ b) :: l) = String.concat LF (a :: b :: l).
Proof.
  destruct l as [|x l]; [reflexivity|].
  cbn [String.concat]. rewrite !append_assoc. reflexivity.
Qed.

(** The error cell after the rejections [reasons] were added, one after
    the other, to a non-empty error [p]. *)
Lemma appendFailures_some p reasons :
  isEmpty p = false ->
  fold_left (fun e reason => appendFailure e (reasonMessage reason)) reasons (Some p)
  = Some (String.concat LF (p :: List.map failureLine reasons)).
Proof.
  revert p. induction reasons as [|reason reasons IH]; intros p Hp; [reflexivity|].
  cbn [fold_left List.map]. unfold appendFailure at 2. rewrite Hp.
  rewrite IH.
  - f_equal. rewrite append_assoc. apply concat_merge_head.
  - rewrite !isEmpty_append, Hp. reflexivity.
Qed.

Lemma appendFailures_none reasons :
  fold_left (fun e reason => appendFailure e (reasonMessage reason)) reasons None
  = warningOf reasons.
Proof.
  destruct reasons as [|reason reasons]; [reflexivity|].
  cbn [fold_left]. unfold appendFailure at 2.
  change ("" +:+ ONE_BODY_FAILED +:+ reasonMessage reason) with (failureLine reason).
  rewrite appendFailures_some by apply failureLine_not_empty. reflexivity.
Qed.

(** The [forEach] of [handleSubmitAnalysis], in closed form. *)
Lemma collectSettled_spec settled successful encountered error :
  collectSettled settled successful encountered error
  = (successful ++ fulfilledOf settled,
     encountered || negb (bool_decide (rejectedOf settled = [])),
     fold_left (fun e reason => appendFailure e (reasonMessage reason)) (rejectedOf settled) error).
Proof.
  revert successful encountered error.
  induction settled as [|[group|reason] settled IH]; intros successful encountered error.
  - cbn. rewrite app_nil_r, orb_false_r. reflexivity.
  - cbn [collectSettled fulfilledOf rejectedOf]. rewrite IH, <- app_assoc. reflexivity.
  - cbn [collectSettled fulfilledOf rejectedOf fold_left]. rewrite IH.
    rewrite orb_true_r. reflexivity.
Qed.

Lemma settled_none_fulfilled {A} (settled : list (result A)) :
  settled <> [] -> fulfilledOf settled = [] -> rejectedOf settled <> [].
Proof.
  destruct settled as [|[a|e] rest]; cbn; intros Hne Hf; try congruence.
Qed.

(** The run of [handleSubmitAnalysis] past its guards. *)
Lemma handleSubmitAnalysis_run currentUser ai st :
  isEmpty (trim (State.programContent st)) = false ->
  State.selectedBodyKeys st <> [] ->
  pendingGuard currentUser st = false ->
  handleSubmitAnalysis currentUser ai st
  = finishAnalysis (List.map (analyzeBody ai) (State.selectedBodyKeys st)) (beginAnalysis st).
Proof.
  intros Hc Hk Hg. unfold handleSubmitAnalysis. rewrite Hc.
  destruct (State.selectedBodyKeys st) eqn:E; [congruence|].
  cbn [length Nat.eqb]. unfold pendingGuard in Hg. rewrite Hg. reflexivity.
Qed.

Lemma analyzeBody_key ai bodyKey group :
  analyzeBody ai bodyKey = Ok group ->
  AnalysisResultsGroup.accreditationBodyKey group = bodyKey.
Proof.
  intros H. apply analyzeBody_inv in H as (body & ? & ? & ? & _ & Hk & _ & _ & _ & ->).
  exact Hk.
Qed.

(** The fulfilled groups are those of the bodies whose analysis was
    fulfilled, one each, in the order of selection. *)
Lemma fulfilled_keys ai keys :
  List.map AnalysisResultsGroup.accreditationBodyKey
           (fulfilledOf (List.map (analyzeBody ai) keys))
  = List.filter (fun k => isFulfilled (analyzeBody ai k)) keys.
Proof.
  induction keys as [|k keys IH]; [reflexivity|].
  cbn [List.map List.filter fulfilledOf].
  destruct (analyzeBody ai k) as [group|e] eqn:E; cbn [isFulfilled fulfilledOf List.map].
  - rewrite IH, (analyzeBody_key _ _ _ E). reflexivity.
  - exact IH.
Qed.

(** C5, as the code has it: all-settled aggregation.  The fulfilled
    groups are those of the selected bodies whose analysis was fulfilled,
    one each, in the order of selection.  When there is at least one, the
    results are exactly these groups and the error is the warning made of
    one line per rejected body, each line carrying that rejection's
    message (and no error when nothing was rejected); when there is none,
    no results are set and the error is the single aggregate message. *)
Theorem C5_all_settled_aggregation currentUser ai st :
  isEmpty (trim (State.programContent st)) = false ->
  State.selectedBodyKeys st <> [] ->
  pendingGuard currentUser st = false ->
  List.map AnalysisResultsGroup.accreditationBodyKey
           (fulfilledOf (List.map (analyzeBody ai) (State.selectedBodyKeys st)))
  = List.filter (fun k => isFulfilled (analyzeBody ai k)) (State.selectedBodyKeys st) /\
  (fulfilledOf (List.map (analyzeBody ai) (State.selectedBodyKeys st)) <> [] ->
     State.analysisResults (handleSubmitAnalysis currentUser ai st)
       = Some (fulfilledOf (List.map (analyzeBody ai) (State.selectedBodyKeys st))) /\
     State.error (handleSubmitAnalysis currentUser ai st)
       = warningOf (rejectedOf (List.map (analyzeBody ai) (State.selectedBodyKeys st)))) /\
  (fulfilledOf (List.map (analyzeBody ai) (State.selectedBodyKeys st)) = [] ->
     State.analysisResults (handleSubmitAnalysis currentUser ai st) = None /\
     State.error (handleSubmitAnalysis currentUser ai st) = Some ALL_BODIES_FAILED).
Proof.
  intros Hc Hk Hg. split; [apply fulfilled_keys|].
  rewrite (handleSubmitAnalysis_run _ _ _ Hc Hk Hg).
  unfold finishAnalysis, beginAnalysis, settleAnalysis. rewrite collectSettled_spec.
  cbn [State.error State.setShowPrintableReport State.setAnalysisResults State.setError
       State.setIsLoading app orb].
  rewrite appendFailures_none.
  set (settled := List.map (analyzeBody ai) (State.selectedBodyKeys st)).
  assert (Hs : settled <> []).
  { subst settled. destruct (State.selectedBodyKeys st); [congruence | discriminate]. }
  split; intros Hf.
  - destruct (fulfilledOf settled) as [|g gs] eqn:E; [congruence|].
    cbn. split; reflexivity.
  - pose proof (settled_none_fulfilled _ Hs Hf) as Hr. rewrite Hf.
    cbn [length Nat.ltb Nat.leb Nat.eqb andb].
    rewrite bool_decide_eq_false_2 by exact Hr. cbn. split; reflexivity.
Qed.

(** Two bodies, ADA fulfilled and GDC rejected: the ADA group alone, and
    the warning with the message of the GDC rejection. *)
Lemma C5_witness :
  State.analysisResults (handleSubmitAnalysis u1 adaOnly typedState)
    = Some (fulfilledOf (List.map (analyzeBody adaOnly) (State.selectedBodyKeys typedState))) /\
  State.error (handleSubmitAnalysis u1 adaOnly typedState)
    = warningOf (rejectedOf (List.map (analyzeBody adaOnly) (State.selectedBodyKeys typedState))).
Proof.
  apply (C5_all_settled_aggregation u1 adaOnly typedState).
  - reflexivity.
  - discriminate.
  - reflexivity.
  - vm_compute. discriminate.
Defined.

(** C5 as stated fails where it promises a warning naming each failed
    body: with ADA fulfilled and GDC rejected by a network failure, the
    results are the ADA group alone and the warning is the generic line
    with the failure's message; it contains neither the key nor the name
    of the GDC body. *)
Lemma C5_counterexample :
  option_map (List.map AnalysisResultsGroup.accreditationBodyKey)
             (State.analysisResults (handleSubmitAnalysis u1 adaOnly typedState))
    = Some ["ADA"] /\
  State.error (handleSubmitAnalysis u1 adaOnly typedState)
    = Some "Analysis failed for one or more accreditation bodies: Failed to fetch" /\
  includes "GDC" "Analysis failed for one or more accreditation bodies: Failed to fetch" = false /\
  includes (AccreditationBody.name GDC)
           "Analysis failed for one or more accreditation bodies: Failed to fetch" = false.
Proof. repeat split; vm_compute; reflexivity. Qed.

(* ===================================================================== *)
(** ** The single pending submission                                      *)
(* ===================================================================== *)

Lemma pendingOf_find currentUser submissions :
  notNull (List.find isPending (List.filter (isOwn currentUser) submissions))
  = negb (bool_decide (pendingOf (User.username currentUser) submissions = [])).
Proof.
  unfold pendingOf.
  induction submissions as [|s l IH]; [reflexivity|].
  cbn [List.filter]. unfold isOwn at 1.
  destruct (String.eqb (Submission.submittedByUsername s) (User.username currentUser));
    cbn [andb]; [|exact IH].
  cbn [List.find]. unfold isPending at 1.
  destruct (bool_decide (Submission.status s = pending)); [reflexivity | exact IH].
Qed.

(** C2, as the code has it: the limit is a guard on starting an analysis,
    keyed on the component's flag.  (1) For a University ID user whose
    [hasPendingSubmission] flag is set and who has no submission loaded for
    revision, [handleSubmitAnalysis], given content that is not blank and
    at least one selected body (the two checks that come before the
    guard), sets the refusal message and does nothing else.  (2) For
    Admin and University Lead the guard never fires: with content and a
    body selected the analysis runs.  (3) Loading the stored submissions
    sets the flag of a University ID user exactly when one of that user's
    submissions is pending.  (4) [handleSubmitForReview], given results
    and content and a store that can be read and written, appends one
    pending submission of the current user and sets the flag; it consults
    neither the flag nor the stored submissions.  (5) It fails, with its
    own message and nothing stored, when results or content are missing,
    (6) and, with the message of what was thrown, when reading or writing
    the store throws: nothing is stored then, and the results, the content
    and the flag stay as they were. *)
Theorem C2_pending_guard_on_analysis :
  (forall currentUser ai st,
      User.role currentUser = UniversityID ->
      State.hasPendingSubmission st = true ->
      State.revisingSubmissionInfo st = None ->
      isEmpty (trim (State.programContent st)) = false ->
      State.selectedBodyKeys st <> [] ->
      handleSubmitAnalysis currentUser ai st
      = State.setError (Some PENDING_REVIEW_ANALYSIS) st) /\
  (forall currentUser ai st,
      User.role currentUser <> UniversityID ->
      isEmpty (trim (State.programContent st)) = false ->
      State.selectedBodyKeys st <> [] ->
      handleSubmitAnalysis currentUser ai st
      = finishAnalysis (List.map (analyzeBody ai) (State.selectedBodyKeys st))
                       (beginAnalysis st)) /\
  (forall getTime currentUser store st,
      User.role currentUser = UniversityID ->
      State.hasPendingSubmission (loadSubmissionsData getTime currentUser store st)
      = negb (bool_decide (pendingOf (User.username currentUser)
                                     (Storage.accreditationSubmissions store) = []))) /\
  (forall getTime currentUser device newId now store st results,
      State.analysisResults st = Some results ->
      isEmpty (State.programContent st) = false ->
      LocalStorage.reading device LOCAL_STORAGE_SUBMISSIONS_KEY = None ->
      LocalStorage.writing device LOCAL_STORAGE_SUBMISSIONS_KEY = None ->
      State.hasPendingSubmission
        (fst (handleSubmitForReview getTime currentUser device newId now store st)) = true /\
      exists s,
        Storage.accreditationSubmissions
          (snd (handleSubmitForReview getTime currentUser device newId now store st))
        = Storage.accreditationSubmissions store ++ [s] /\
        Submission.id s = newId /\
        Submission.submittedByUsername s = User.username currentUser /\
        Submission.status s = pending) /\
  (forall getTime currentUser device newId now store st,
      State.analysisResults st = None \/ isEmpty (State.programContent st) = true ->
      handleSubmitForReview getTime currentUser device newId now store st
      = (State.setError (Some MISSING_FOR_REVIEW) st, store)) /\
  (forall getTime currentUser device newId now store st results e,
      State.analysisResults st = Some results ->
      isEmpty (State.programContent st) = false ->
      LocalStorage.reading device LOCAL_STORAGE_SUBMISSIONS_KEY = Some e \/
      (LocalStorage.reading device LOCAL_STORAGE_SUBMISSIONS_KEY = None /\
       LocalStorage.writing device LOCAL_STORAGE_SUBMISSIONS_KEY = Some e) ->
      handleSubmitForReview getTime currentUser device newId now store st
      = (State.setIsSubmitting false
           (State.setError
              (Some ("Failed to submit for review: " +:+ errorMessage e
                       +:+ ". Please try again."))
              (State.setIsSubmitting true st)),
         store)).
Proof.
  split; [|split; [|split; [|split; [|split]]]].
  - intros currentUser ai st Hrole Hflag Hrev Hc Hk.
    unfold handleSubmitAnalysis. rewrite Hc.
    destruct (State.selectedBodyKeys st) eqn:E; [congruence|].
    cbn [length Nat.eqb]. rewrite Hflag, Hrole, Hrev. reflexivity.
  - intros currentUser ai st Hrole Hc Hk.
    apply handleSubmitAnalysis_run; [exact Hc | exact Hk |].
    unfold pendingGuard.
    rewrite (bool_decide_eq_false_2 _ Hrole), andb_false_r. reflexivity.
  - intros getTime currentUser store st Hrole. unfold loadSubmissionsData. rewrite Hrole.
    rewrite <- pendingOf_find.
    destruct (List.find isPending _); destruct (State.revisingSubmissionInfo _); reflexivity.
  - intros getTime currentUser device newId now store st results Hres Hcontent Hread Hwrite.
    unfold handleSubmitForReview. rewrite Hres, Hcontent, Hread, Hwrite. split.
    + destruct (bool_decide (User.role currentUser = UniversityID)); reflexivity.
    + cbn [snd Storage.accreditationSubmissions]. eexists. repeat split.
  - intros getTime currentUser device newId now store st [Hres|Hcontent];
      unfold handleSubmitForReview.
    + rewrite Hres. reflexivity.
    + destruct (State.analysisResults st); [rewrite Hcontent|]; reflexivity.
  - intros getTime currentUser device newId now store st results e Hres Hcontent Hthrown.
    unfold handleSubmitForReview. rewrite Hres, Hcontent.
    destruct Hthrown as [Hread | [Hread Hwrite]]; rewrite Hread; [|rewrite Hwrite];
      destruct st; reflexivity.
Qed.

Lemma C2_witness :
  handleSubmitAnalysis u1 adaOnly (State.setHasPendingSubmission true typedState)
  = State.setError (Some PENDING_REVIEW_ANALYSIS) (State.setHasPendingSubmission true typedState).
Proof.
  apply (proj1 C2_pending_guard_on_analysis u1 adaOnly
           (State.setHasPendingSubmission true typedState)).
  - reflexivity.
  - reflexivity.
  - reflexivity.
  - reflexivity.
  - discriminate.
Defined.

(** C2 as stated fails: creating a submission does not fail while the
    submitter has a pending one.  The University ID user u1, with nothing
    stored, analyses content in two tabs (each mounted on the empty store,
    so the flag is set in neither) and submits from both; the second
    [handleSubmitForReview] finds the first submission pending in the
    store and still appends its own, leaving two pending submissions of
    u1. *)
Lemma C2_counterexample :
  loadSubmissionsData epoch u1 emptyStorage initialState = initialState /\
  option_map (List.map AnalysisResultsGroup.accreditationBodyKey)
             (State.analysisResults analysedState) = Some ["ADA"] /\
  List.map Submission.id
    (pendingOf "u1" (Storage.accreditationSubmissions (snd firstTabSubmit))) = ["id-1"] /\
  List.map Submission.id
    (pendingOf "u1" (Storage.accreditationSubmissions (snd secondTabSubmit))) = ["id-1"; "id-2"] /\
  List.map Submission.submittedByUserRole
    (pendingOf "u1" (Storage.accreditationSubmissions (snd secondTabSubmit)))
    = [UniversityID; UniversityID].
Proof. repeat split; vm_compute; reflexivity. Qed.

(** The same in one tab, by way of answers that arrive after the first
    submission: every click is on a control that is rendered and enabled,
    the flag is set after the first submission, and the second submission
    is stored all the same. *)
Lemma pending_twice_in_one_tab :
  showPastSubmissionsSection u1 raceMounted = true /\
  analyzeButtonDisabled u1 raceRevising = false /\
  handleSubmitAnalysis u1 adaOnly raceRevising
    = finishAnalysis (List.map (analyzeBody adaOnly) (State.selectedBodyKeys raceRevising))
                     (beginAnalysis raceRevising) /\
  analyzeButtonDisabled u1 (beginAnalysis raceRevising) = false /\
  handleSubmitAnalysis u1 adaOnly (beginAnalysis raceRevising)
    = finishAnalysis
        (List.map (analyzeBody adaOnly) (State.selectedBodyKeys (beginAnalysis raceRevising)))
        (beginAnalysis (beginAnalysis raceRevising)) /\
  fileInputDisabled u1 raceTwoAnalyses = false /\
  fileInputDisabled u1 (beginFileChange raceTwoAnalyses) = false /\
  submitForReviewEnabled raceFirstReady = true /\
  State.hasPendingSubmission raceAfterFirstSubmit = true /\
  State.revisingSubmissionInfo raceAfterFirstSubmit = None /\
  analyzeButtonDisabled u1 raceAfterFirstSubmit = true /\
  submitForReviewEnabled raceSecondReady = true /\
  List.map Submission.id
    (pendingOf "u1" (Storage.accreditationSubmissions (snd raceSecondSubmit)))
    = ["id-1"; "id-2"].
Proof. repeat split; vm_compute; reflexivity. Qed.

(* ===================================================================== *)
(** ** Notes on a submission                                              *)
(* ===================================================================== *)

Lemma findIndex_lookup id submissions i :
  findIndex id submissions = Some i ->
  exists s, submissions !! i = Some s /\ Submission.id s = id.
Proof.
  revert i. induction submissions as [|s l IH]; intros i H; [discriminate H|].
  cbn [findIndex] in H. destruct (String.eqb (Submission.id s) id) eqn:E.
  - inversion H; subst. exists s. split; [reflexivity | apply String.eqb_eq, E].
  - destruct (findIndex id l) as [j|]; [|discriminate H].
    inversion H; subst. destruct (IH j eq_refl) as (s' & Hs' & Hid). eauto.
Qed.

Lemma In_insertNewestFirst {A} (time : A -> Z) x y l :
  In x (insertNewestFirst time y l) -> x = y \/ In x l.
Proof.
  induction l as [|z l IH]; cbn [insertNewestFirst].
  - intros [H|[]]. left. congruence.
  - destruct (time y <? time z)%Z.
    + intros [H|H]; [right; left; exact H|].
      destruct (IH H) as [E|E]; [left; exact E | right; right; exact E].
    + intros [H|H]; [left; congruence | right; exact H].
Qed.

Lemma In_sortNewestFirst {A} (time : A -> Z) x l :
  In x (sortNewestFirst time l) -> In x l.
Proof.
  induction l as [|y l IH]; [intros []|].
  cbn [sortNewestFirst foldr]. intros H.
  apply In_insertNewestFirst in H as [H|H]; [left; congruence | right; exact (IH H)].
Qed.

Lemma pending_when_listed getTime submissions :
  Forall (fun s => Submission.status s = pending)
         (newestSubmissionFirst getTime (List.filter isPending submissions)).
Proof.
  apply List.Forall_forall. intros s Hs. apply In_sortNewestFirst in Hs.
  apply List.filter_In in Hs as [_ Hs]. exact (bool_decide_eq_true_1 _ Hs).
Qed.

Ltac by_cases_on_matches :=
  repeat match goal with
         | |- context [match ?x with _ => _ end] => destruct x
         end;
  reflexivity.

(** The list of submissions for review is written by the load of the
    stored submissions and by the close of the review modal alone, and
    both write the pending ones of the store. *)
Lemma listed_for_review_pending getTime currentUser st :
  reachable getTime currentUser st ->
  Forall (fun s => Submission.status s = pending) (State.submissionsForReview st).
Proof.
  induction 1 as [|store st _ IH|bodyKey st _ IH|text st _ IH|language st _ IH|st _ IH
                  |extracted st _ IH|ai st _ IH|st _ IH|ai keys st _ IH|shown st _ IH
                  |standardId bodyKey st _ IH|bodyKey st _ IH|device newId now store st _ IH
                  |submission st _ IH|st _ IH|submission st _ IH|refreshList store st _ IH].
  - constructor.
  - unfold loadSubmissionsData. destruct (User.role currentUser).
    + apply pending_when_listed.
    + apply pending_when_listed.
    + constructor.
  - exact IH.
  - exact IH.
  - exact IH.
  - exact IH.
  - replace (State.submissionsForReview (finishFileChange extracted st))
      with (State.submissionsForReview st); [exact IH|].
    unfold finishFileChange. by_cases_on_matches.
  - replace (State.submissionsForReview (handleSubmitAnalysis currentUser ai st))
      with (State.submissionsForReview st); [exact IH|].
    unfold handleSubmitAnalysis, finishAnalysis, settleAnalysis. by_cases_on_matches.
  - exact IH.
  - replace (State.submissionsForReview (finishAnalysis (List.map (analyzeBody ai) keys) st))
      with (State.submissionsForReview st); [exact IH|].
    unfold finishAnalysis, settleAnalysis. by_cases_on_matches.
  - exact IH.
  - replace (State.submissionsForReview (fst (handleOpenTrainingChatbot standardId bodyKey st)))
      with (State.submissionsForReview st); [exact IH|].
    unfold handleOpenTrainingChatbot. by_cases_on_matches.
  - replace (State.submissionsForReview (fst (handleShowSummaryChart bodyKey st)))
      with (State.submissionsForReview st); [exact IH|].
    unfold handleShowSummaryChart. by_cases_on_matches.
  - replace (State.submissionsForReview
               (fst (handleSubmitForReview getTime currentUser device newId now store st)))
      with (State.submissionsForReview st); [exact IH|].
    unfold handleSubmitForReview. by_cases_on_matches.
  - exact IH.
  - replace (State.submissionsForReview (cancelRevision currentUser st))
      with (State.submissionsForReview st); [exact IH|].
    unfold cancelRevision. by_cases_on_matches.
  - exact IH.
  - unfold handleCloseSubmissionReviewModal. destruct refreshList; [|exact IH].
    destruct (User.role currentUser).
    + apply pending_when_listed.
    + apply pending_when_listed.
    + replace (State.submissionsForReview _) with (State.submissionsForReview st); [exact IH|].
      by_cases_on_matches.
Qed.

(** C7, as the code has it.  The handler checks no status and raises no
    error for one.  (1) The page opens the review modal on the submissions
    of its list for review alone; in every state the page reaches these
    are submissions that were pending in the store when the list was
    written, and the modal mounted on one of them renders the Add Note
    form.  (2) With an empty or white-space text the handler alerts and
    changes nothing.  (3) With any other text, on a pending submission
    found in a store that can be read and written, and with the modal
    showing the notes that are stored for it, it appends exactly one note
    (the current user, the role, the time, the trimmed text): the stored
    submission gets its previous notes followed by the new one and is
    otherwise as it was, the modal shows the same list, and the other
    stored submissions and the notifications are as they were.  (4) When
    reading the store throws, or the submission is found and writing the
    store throws, the handler alerts that an error occurred and stores
    nothing. *)
Theorem C7_addNote :
  (forall getTime currentUser st submission,
      reachable getTime currentUser st ->
      In submission (State.submissionsForReview st) ->
      Submission.status submission = pending /\
      ReviewModal.addNoteFormRendered (ReviewModal.mount submission) = true) /\
  (forall currentUser device now store m,
      isEmpty (trim (ReviewModal.newNoteText m)) = true ->
      ReviewModal.handleAddNote currentUser device now store m
      = {| ReviewModal.modal := m; ReviewModal.storage := store;
           ReviewModal.alert := Some "Note text cannot be empty.";
           ReviewModal.closed := None |}) /\
  (forall currentUser device now store m i s,
      Submission.status (ReviewModal.submission m) = pending ->
      isEmpty (trim (ReviewModal.newNoteText m)) = false ->
      LocalStorage.reading device LOCAL_STORAGE_SUBMISSIONS_KEY = None ->
      LocalStorage.writing device LOCAL_STORAGE_SUBMISSIONS_KEY = None ->
      findIndex (Submission.id (ReviewModal.submission m))
                (Storage.accreditationSubmissions store) = Some i ->
      Storage.accreditationSubmissions store !! i = Some s ->
      ReviewModal.currentSubmissionNotes m = Submission.notes s ->
      exists o,
        ReviewModal.clickAddNote currentUser device now store m = Some o /\
        ReviewModal.alert o = None /\
        Storage.accreditationSubmissions (ReviewModal.storage o) !! i
        = Some (withNotes
                  (Submission.notes s
                     ++ [ {| SubmissionNote.by_ := User.username currentUser;
                             SubmissionNote.role := User.role currentUser;
                             SubmissionNote.timestamp := now;
                             SubmissionNote.text := trim (ReviewModal.newNoteText m) |} ])
                  s) /\
        ReviewModal.currentSubmissionNotes (ReviewModal.modal o)
        = Submission.notes s
            ++ [ {| SubmissionNote.by_ := User.username currentUser;
                    SubmissionNote.role := User.role currentUser;
                    SubmissionNote.timestamp := now;
                    SubmissionNote.text := trim (ReviewModal.newNoteText m) |} ] /\
        (forall j, j <> i ->
           Storage.accreditationSubmissions (ReviewModal.storage o) !! j
           = Storage.accreditationSubmissions store !! j) /\
        length (Storage.accreditationSubmissions (ReviewModal.storage o))
        = length (Storage.accreditationSubmissions store) /\
        Storage.accreditationSubmissionNotifications (ReviewModal.storage o)
        = Storage.accreditationSubmissionNotifications store) /\
  (forall currentUser device now store m e,
      isEmpty (trim (ReviewModal.newNoteText m)) = false ->
      LocalStorage.reading device LOCAL_STORAGE_SUBMISSIONS_KEY = Some e \/
      (LocalStorage.reading device LOCAL_STORAGE_SUBMISSIONS_KEY = None /\
       notNull (findIndex (Submission.id (ReviewModal.submission m))
                          (Storage.accreditationSubmissions store)) = true /\
       LocalStorage.writing device LOCAL_STORAGE_SUBMISSIONS_KEY = Some e) ->
      ReviewModal.storage (ReviewModal.handleAddNote currentUser device now store m) = store /\
      ReviewModal.alert (ReviewModal.handleAddNote currentUser device now store m)
      = Some "An error occurred while adding the note.").
Proof.
  split; [|split; [|split]].
  - intros getTime currentUser st submission Hr Hin.
    apply listed_for_review_pending in Hr. rewrite List.Forall_forall in Hr.
    specialize (Hr submission Hin). split; [exact Hr|].
    unfold ReviewModal.addNoteFormRendered. cbn [ReviewModal.submission ReviewModal.mount].
    exact (bool_decide_eq_true_2 _ Hr).
  - intros currentUser device now store m H. unfold ReviewModal.handleAddNote.
    rewrite H. reflexivity.
  - intros currentUser device now store m i s Hst Htext Hread Hwrite Hi Hs Hnotes.
    unfold ReviewModal.clickAddNote, ReviewModal.addNoteFormRendered.
    rewrite (bool_decide_eq_true_2 _ Hst). unfold ReviewModal.handleAddNote.
    rewrite Htext, Hread.
    cbn [ReviewModal.submission ReviewModal.setCurrentSubmissionNotes]. rewrite Hi, Hwrite.
    eexists. split; [reflexivity|].
    cbn [ReviewModal.alert ReviewModal.modal ReviewModal.storage
         ReviewModal.currentSubmissionNotes ReviewModal.setNewNoteText
         ReviewModal.setCurrentSubmissionNotes Storage.accreditationSubmissions
         Storage.accreditationSubmissionNotifications].
    rewrite Hnotes. split; [reflexivity|]. split.
    { rewrite list_lookup_alter_eq, Hs. reflexivity. }
    split; [reflexivity|]. split.
    { intros j Hj. apply list_lookup_alter_ne. congruence. }
    split; [apply length_alter | reflexivity].
  - intros currentUser device now store m e Htext Hthrown.
    unfold ReviewModal.handleAddNote. rewrite Htext.
    cbn [ReviewModal.submission ReviewModal.setCurrentSubmissionNotes].
    destruct Hthrown as [Hread | (Hread & Hfound & Hwrite)]; rewrite Hread.
    + split; reflexivity.
    + destruct (findIndex _ _); [|discriminate Hfound]. rewrite Hwrite. split; reflexivity.
Qed.

Lemma C7_witness :
  exists o,
    ReviewModal.clickAddNote lead1 LocalStorage.working "2026-01-02T09:00:00.000Z" reviewStorage
      (ReviewModal.setNewNoteText "Describe the review cycle."
         (ReviewModal.mount pendingSubmission)) = Some o /\
    ReviewModal.alert o = None /\
    Storage.accreditationSubmissions (ReviewModal.storage o) !! 0%nat
    = Some (withNotes
              [ {| SubmissionNote.by_ := "lead";
                   SubmissionNote.role := UniversityLead;
                   SubmissionNote.timestamp := "2026-01-02T09:00:00.000Z";
                   SubmissionNote.text := "Describe the review cycle." |} ]
              pendingSubmission) /\
    ReviewModal.currentSubmissionNotes (ReviewModal.modal o)
    = [ {| SubmissionNote.by_ := "lead";
           SubmissionNote.role := UniversityLead;
           SubmissionNote.timestamp := "2026-01-02T09:00:00.000Z";
           SubmissionNote.text := "Describe the review cycle." |} ] /\
    (forall j, j <> 0%nat ->
       Storage.accreditationSubmissions (ReviewModal.storage o) !! j
       = Storage.accreditationSubmissions reviewStorage !! j) /\
    length (Storage.accreditationSubmissions (ReviewModal.storage o)) = 1%nat /\
    Storage.accreditationSubmissionNotifications (ReviewModal.storage o) = [].
Proof.
  exact (proj1 (proj2 (proj2 C7_addNote)) lead1 LocalStorage.working
           "2026-01-02T09:00:00.000Z" reviewStorage
           (ReviewModal.setNewNoteText "Describe the review cycle."
              (ReviewModal.mount pendingSubmission))
           0%nat pendingSubmission
           eq_refl eq_refl eq_refl eq_refl eq_refl eq_refl eq_refl).
Defined.

(** C7 as stated fails: no status is checked when a note is added.  The
    status that shows the form is the one of the copy the modal was
    opened on, not the stored one: a submission approved elsewhere
    meanwhile still receives a note from the open modal, without an alert,
    and stays approved. *)
Lemma C7_counterexample :
  List.map Submission.status (Storage.accreditationSubmissions approvedElsewhere) = [approved] /\
  option_map ReviewModal.alert lateNote = Some None /\
  option_map (fun o => List.map Submission.status
                         (Storage.accreditationSubmissions (ReviewModal.storage o))) lateNote
    = Some [approved] /\
  option_map (fun o => List.map SubmissionNote.text (storedNotes "sub-1" (ReviewModal.storage o)))
             lateNote
    = Some ["One more remark."].
Proof. repeat split; vm_compute; reflexivity. Qed.

(** Outside the case of (3), the notes appended before do not always
    stay.  The lead adds a first note to the pending submission sub-1 and
    closes the modal with Close; the list of submissions is not reloaded,
    so the modal opens again on the entry without that note, and the
    second note, added to this list, is stored in place of the first. *)
Lemma note_added_to_a_list_not_reloaded :
  State.submissionsForReview leadState = [pendingSubmission] /\
  List.map SubmissionNote.text (storedNotes "sub-1" (ReviewModal.storage firstVisit))
    = ["Describe the review cycle."] /\
  State.submissionsForReview afterClose = [pendingSubmission] /\
  ReviewModal.addNoteFormRendered
    (ReviewModal.mount (nth 0 (State.submissionsForReview afterClose) pendingSubmission)) = true /\
  ReviewModal.alert secondVisit = None /\
  List.map SubmissionNote.text (storedNotes "sub-1" (ReviewModal.storage secondVisit))
    = ["Add the faculty numbers."].
Proof. repeat split; vm_compute; reflexivity. Qed.

(* ===================================================================== *)
(** ** Login                                                              *)
(* ===================================================================== *)

Lemma find_first {A} (p : A -> bool) before x after :
  Forall (fun y => p y = false) before -> p x = true ->
  List.find p (before ++ x :: after) = Some x.
Proof.
  induction 1 as [|y l Hy _ IH]; intros Hx; cbn [app List.find].
  - rewrite Hx. reflexivity.
  - rewrite Hy. auto.
Qed.

Lemma find_none_all {A} (p : A -> bool) l :
  Forall (fun y => p y = false) l -> List.find p l = None.
Proof. induction 1 as [|y l Hy _ IH]; cbn [List.find]; [reflexivity | rewrite Hy; exact IH]. Qed.

(** C8, as the code has it.  (1) When the registry holds a user of that
    name, compared in lower case, the first such user decides: the login
    succeeds, with the stored name and role, exactly when the stored
    password equals the given one, and fails otherwise; the seed
    credentials are not consulted.  (2) When the registry holds no user of
    that name, whether it is empty or not, the login falls back to the two
    seed credentials and fails for anything else.  (3) With an empty
    registry admin/adminpass logs in as Admin and admin/wrong fails. *)
Theorem C8_login :
  (forall before u after username password,
      Forall (fun v => sameName (StoredUser.username v) username = false) before ->
      sameName (StoredUser.username u) username = true ->
      Login.handleSubmit (before ++ u :: after) username password
      = if bool_decide (StoredUser.password u = Some password)
        then Login.onLogin {| User.username := StoredUser.username u;
                              User.role := StoredUser.role u |}
        else Login.setError Login.INVALID) /\
  (forall storedUsers username password,
      Forall (fun v => sameName (StoredUser.username v) username = false) storedUsers ->
      Login.handleSubmit storedUsers username password
      = if sameName username "admin" && String.eqb password "adminpass"
        then Login.onLogin {| User.username := "admin"; User.role := Admin |}
        else if sameName username "lead" && String.eqb password "leadpass"
        then Login.onLogin {| User.username := "lead"; User.role := UniversityLead |}
        else Login.setError Login.INVALID) /\
  Login.handleSubmit [] "admin" "adminpass"
    = Login.onLogin {| User.username := "admin"; User.role := Admin |} /\
  Login.handleSubmit [] "admin" "wrong" = Login.setError Login.INVALID.
Proof.
  split; [|split; [|split; reflexivity]].
  - intros before u after username password Hb Hu. unfold Login.handleSubmit.
    unfold sameName in Hb, Hu. rewrite (find_first _ before u after Hb Hu).
    destruct (StoredUser.password u) as [stored|].
    + destruct (String.eqb stored password) eqn:E.
      * apply String.eqb_eq in E. subst. rewrite bool_decide_eq_true_2; reflexivity.
      * apply String.eqb_neq in E. rewrite bool_decide_eq_false_2; [reflexivity | congruence].
    + rewrite bool_decide_eq_false_2; [reflexivity | discriminate].
  - intros storedUsers username password Hall. unfold Login.handleSubmit.
    unfold sameName in Hall. rewrite (find_none_all _ _ Hall). reflexivity.
Qed.

Lemma C8_witness :
  Login.handleSubmit ([] ++ bob :: []) "BOB" "bobpass"
  = if bool_decide (StoredUser.password bob = Some "bobpass")
    then Login.onLogin {| User.username := StoredUser.username bob;
                          User.role := StoredUser.role bob |}
    else Login.setError Login.INVALID.
Proof.
  apply (proj1 C8_login [] bob [] "BOB" "bobpass").
  - constructor.
  - reflexivity.
Defined.

(** C8 as stated fails where it limits the fallback to an empty registry:
    with a registry that holds only the user bob, admin/adminpass and
    lead/leadpass still log in through the seed credentials. *)
Lemma C8_counterexample :
  List.length bobOnly = 1%nat /\
  List.existsb (fun v => sameName (StoredUser.username v) "admin") bobOnly = false /\
  Login.handleSubmit bobOnly "admin" "adminpass"
    = Login.onLogin {| User.username := "admin"; User.role := Admin |} /\
  Login.handleSubmit bobOnly "Lead" "leadpass"
    = Login.onLogin {| User.username := "lead"; User.role := UniversityLead |}.
Proof. repeat split; vm_compute; reflexivity. Qed.

(* ===================================================================== *)
(** ** Internal messages: marking as read                                 *)
(* ===================================================================== *)

Section NewestFirst.

Context {A : Type} (time : A -> Z).

Lemma insertNewestFirst_perm x l : Permutation (insertNewestFirst time x l) (x :: l).
Proof.
  induction l as [|y l IH]; cbn [insertNewestFirst]; [reflexivity|].
  destruct (time x <? time y)%Z; [|reflexivity].
  rewrite IH. apply perm_swap.
Qed.

Lemma sortNewestFirst_perm l : Permutation (sortNewestFirst time l) l.
Proof.
  induction l as [|x l IH]; [reflexivity|].
  cbn [sortNewestFirst foldr]. rewrite insertNewestFirst_perm.
  apply perm_skip. exact IH.
Qed.

Lemma insertNewestFirst_HdRel a x l :
  (notOlder time) a x -> HdRel (notOlder time) a l -> HdRel (notOlder time) a (insertNewestFirst time x l).
Proof.
  intros Hax Hal. destruct l as [|y l]; cbn [insertNewestFirst].
  - constructor. exact Hax.
  - destruct (time x <? time y)%Z; constructor; [inversion Hal; assumption | exact Hax].
Qed.

Lemma insertNewestFirst_sorted x l :
  Sorted (notOlder time) l -> Sorted (notOlder time) (insertNewestFirst time x l).
Proof.
  induction 1 as [|y l Hl IH Hy]; cbn [insertNewestFirst].
  - repeat constructor.
  - destruct (time x <? time y)%Z eqn:E.
    + constructor; [exact IH|]. apply insertNewestFirst_HdRel; [|exact Hy].
      unfold notOlder. lia.
    + constructor; [constructor; assumption|]. constructor. unfold notOlder. lia.
Qed.

Lemma sortNewestFirst_sorted l : Sorted (notOlder time) (sortNewestFirst time l).
Proof.
  induction l as [|x l IH]; [constructor|].
  cbn [sortNewestFirst foldr]. apply insertNewestFirst_sorted. exact IH.
Qed.

(** Sorting a list that is newest first leaves it as it is. *)
Lemma sortNewestFirst_id l : Sorted (notOlder time) l -> sortNewestFirst time l = l.
Proof.
  induction 1 as [|x l Hl IH Hx]; [reflexivity|].
  cbn [sortNewestFirst foldr]. fold (sortNewestFirst time l). rewrite IH.
  destruct Hx as [|y l Hxy]; cbn [insertNewestFirst]; [reflexivity|].
  unfold notOlder in Hxy. destruct (time x <? time y)%Z eqn:E; [lia | reflexivity].
Qed.

Lemma sortNewestFirst_idempotent l :
  sortNewestFirst time (sortNewestFirst time l) = sortNewestFirst time l.
Proof. apply sortNewestFirst_id, sortNewestFirst_sorted. Qed.

End NewestFirst.

Section MarkAsRead.

Variable getTime : string -> Z.
Variable currentUser : User.

Lemma withReader_idempotent msg :
  Messages.withReader currentUser (Messages.withReader currentUser msg)
  = Messages.withReader currentUser msg.
Proof.
  unfold Messages.withReader. cbn. rewrite insert_insert_eq. reflexivity.
Qed.

Lemma markIf_idempotent messageId msg :
  markIf currentUser messageId (markIf currentUser messageId msg) = markIf currentUser messageId msg.
Proof.
  unfold markIf. destruct (String.eqb (InternalMessage.id msg) messageId) eqn:E.
  - cbn [Messages.withReader InternalMessage.id]. rewrite E. apply withReader_idempotent.
  - rewrite E. reflexivity.
Qed.

Lemma map_fixed {B} (f : B -> B) (l : list B) :
  Forall (fun x => f x = x) l -> List.map f l = l.
Proof. induction 1 as [|x l Hx _ IH]; cbn; [reflexivity | rewrite Hx, IH; reflexivity]. Qed.

Lemma marked_fixed messageId (l : list InternalMessage) :
  Forall (fun x => markIf currentUser messageId x = x)
         (Messages.newestMessageFirst getTime (List.map (markIf currentUser messageId) l)).
Proof.
  apply List.Forall_forall. intros x Hx.
  apply (Permutation_in _ (sortNewestFirst_perm _ _)) in Hx.
  apply in_map_iff in Hx as (y & <- & _). apply markIf_idempotent.
Qed.

(** C9: [markMessageAsRead] is idempotent.  Called a second time with the
    same id by the same user, it leaves the modal as the first call left
    it, so the targeted message has the same readBy set, which holds the
    user; the array it stores is the modal's list after the first call, a
    rearrangement of the array the first call stored. *)
Theorem C9_markMessageAsRead_idempotent messageId (m : Messages.t) :
  let once := Messages.markMessageAsRead getTime currentUser messageId m in
  let twice := Messages.markMessageAsRead getTime currentUser messageId (fst once) in
  fst twice = fst once /\
  Messages.readByOf messageId (Messages.messages (fst twice))
  = Messages.readByOf messageId (Messages.messages (fst once)) /\
  Forall (fun readBy => exists readers,
            readBy = Some readers /\ readers !! User.username currentUser = Some true)
         (Messages.readByOf messageId (Messages.messages (fst once))) /\
  snd twice = Messages.messages (fst once) /\
  Permutation (snd twice) (snd once).
Proof.
  cbn zeta. unfold Messages.markMessageAsRead.
  cbn [fst snd Messages.messages Messages.selectedMessage].
  fold (markIf currentUser messageId).
  change (fun msg => if String.eqb (InternalMessage.id msg) messageId
                     then Messages.withReader currentUser msg else msg)
    with (markIf currentUser messageId).
  set (updated := List.map (markIf currentUser messageId) (Messages.messages m)).
  assert (Hfix : List.map (markIf currentUser messageId) (Messages.newestMessageFirst getTime updated)
                 = Messages.newestMessageFirst getTime updated).
  { apply map_fixed, marked_fixed. }
  rewrite Hfix.
  assert (Hsort : Messages.newestMessageFirst getTime (Messages.newestMessageFirst getTime updated)
                  = Messages.newestMessageFirst getTime updated).
  { apply sortNewestFirst_idempotent. }
  rewrite Hsort.
  split; [|split; [reflexivity|split; [|split; [reflexivity|]]]].
  - f_equal. destruct (Messages.selectedMessage m) as [sel|]; [|reflexivity].
    destruct (String.eqb (InternalMessage.id sel) messageId) eqn:E.
    + cbn [Messages.withReader InternalMessage.id]. rewrite E.
      f_equal. apply withReader_idempotent.
    + rewrite E. reflexivity.
  - unfold Messages.readByOf. apply List.Forall_forall. intros readBy Hin.
    apply in_map_iff in Hin as (msg & <- & Hmsg).
    apply filter_In in Hmsg as [Hmsg Hid].
    apply (Permutation_in _ (sortNewestFirst_perm _ _)) in Hmsg.
    subst updated. apply in_map_iff in Hmsg as (msg0 & <- & _).
    unfold markIf in *. destruct (String.eqb (InternalMessage.id msg0) messageId) eqn:E.
    + eexists. split; [reflexivity|]. apply lookup_insert_eq.
    + rewrite E in Hid. discriminate Hid.
  - apply sortNewestFirst_perm.
Qed.

End MarkAsRead.

(* ===================================================================== *)
(** ** Submission notifications                                           *)
(* ===================================================================== *)

Lemma filter_perm {A} (p : A -> bool) l l' :
  Permutation l l' -> Permutation (List.filter p l) (List.filter p l').
Proof.
  induction 1 as [|x l l' _ IH|x y l|l l' l'' _ IH1 _ IH2]; cbn [List.filter].
  - reflexivity.
  - destruct (p x); [apply perm_skip|]; exact IH.
  - destruct (p x), (p y); try reflexivity. apply perm_swap.
  - etransitivity; eassumption.
Qed.

Lemma filter_idem {A} (p : A -> bool) l :
  List.filter p (List.filter p l) = List.filter p l.
Proof.
  induction l as [|x l IH]; [reflexivity|]. cbn [List.filter].
  destruct (p x) eqn:E; cbn [List.filter]; rewrite ?E, IH; reflexivity.
Qed.

Lemma filter_none {A} (p : A -> bool) l :
  Forall (fun x => p x = false) l -> List.filter p l = [].
Proof. induction 1 as [|x l Hx _ IH]; cbn [List.filter]; [|rewrite Hx]; auto. Qed.

Lemma filter_all {A} (p : A -> bool) l :
  Forall (fun x => p x = true) l -> List.filter p l = l.
Proof. induction 1 as [|x l Hx _ IH]; cbn [List.filter]; [|rewrite Hx, IH]; auto. Qed.

Lemma Sorted_notOlder_Forall {A} (time : A -> Z) x l :
  Sorted (notOlder time) (x :: l) -> Forall (fun y => (time y <= time x)%Z) l.
Proof.
  intros H. apply Sorted_StronglySorted in H.
  - inversion H; subst. assumption.
  - intros a b c Hab Hbc. unfold notOlder in *. lia.
Qed.

(** The sort is stable, so sorting a selection of a list gives the
    selection of the sorted list. *)
Lemma insertNewestFirst_filter {A} (time : A -> Z) (p : A -> bool) x l :
  Sorted (notOlder time) l ->
  List.filter p (insertNewestFirst time x l)
  = if p x then insertNewestFirst time x (List.filter p l) else List.filter p l.
Proof.
  induction l as [|y l IH]; intros Hs; cbn [insertNewestFirst List.filter].
  - destruct (p x); reflexivity.
  - assert (Hl : Sorted (notOlder time) l) by (inversion Hs; assumption).
    destruct (time x <? time y)%Z eqn:E; cbn [List.filter].
    + rewrite (IH Hl). destruct (p y) eqn:Hy, (p x) eqn:Hx; cbn [insertNewestFirst];
        rewrite ?E; reflexivity.
    + destruct (p x) eqn:Hx; [|reflexivity].
      destruct (p y) eqn:Hy; cbn [insertNewestFirst]; rewrite ?E; [reflexivity|].
      pose proof (Sorted_notOlder_Forall _ _ _ Hs) as Hall.
      assert (Hle : (time y <= time x)%Z) by lia.
      clear IH Hs Hl E Hy. induction Hall as [|z l Hz _ IH]; cbn [List.filter insertNewestFirst].
      * reflexivity.
      * destruct (p z); [|exact IH]. cbn [insertNewestFirst].
        destruct (time x <? time z)%Z eqn:F; [lia | reflexivity].
Qed.

Lemma sortNewestFirst_filter {A} (time : A -> Z) (p : A -> bool) l :
  List.filter p (sortNewestFirst time l) = sortNewestFirst time (List.filter p l).
Proof.
  induction l as [|x l IH]; [reflexivity|].
  cbn [sortNewestFirst foldr List.filter]. fold (sortNewestFirst time l).
  rewrite insertNewestFirst_filter by apply sortNewestFirst_sorted.
  rewrite IH. destruct (p x); reflexivity.
Qed.

(** A change of the elements that keeps their times goes through the sort. *)
Lemma sortNewestFirst_map {A} (time : A -> Z) (f : A -> A) l :
  (forall x, time (f x) = time x) ->
  sortNewestFirst time (List.map f l) = List.map f (sortNewestFirst time l).
Proof.
  intros Hf. induction l as [|x l IH]; [reflexivity|].
  cbn [sortNewestFirst foldr List.map]. fold (sortNewestFirst time (List.map f l)).
  fold (sortNewestFirst time l). rewrite IH. generalize (sortNewestFirst time l) as k.
  induction k as [|y k IHk]; cbn [insertNewestFirst List.map]; [reflexivity|].
  rewrite !Hf. destruct (time x <? time y)%Z; cbn [List.map]; [rewrite IHk|]; reflexivity.
Qed.

(** What the marking does to one notification. *)
Lemma markRead_filters username l :
  List.filter (fun n => String.eqb (Notification.recipientUsername n) username)
    (List.map (fun n => if String.eqb (Notification.recipientUsername n) username
                           && negb (Notification.isRead n)
                        then asRead n else n) l)
  = List.map asRead
      (List.filter (fun n => String.eqb (Notification.recipientUsername n) username) l)
  /\
  List.filter (fun n => negb (String.eqb (Notification.recipientUsername n) username))
    (List.map (fun n => if String.eqb (Notification.recipientUsername n) username
                           && negb (Notification.isRead n)
                        then asRead n else n) l)
  = List.filter (fun n => negb (String.eqb (Notification.recipientUsername n) username)) l.
Proof.
  induction l as [|n l [IH1 IH2]]; [split; reflexivity|]. cbn [List.map List.filter].
  destruct (String.eqb (Notification.recipientUsername n) username) eqn:E;
    destruct (Notification.isRead n) eqn:R;
    cbn [andb negb asRead Notification.recipientUsername]; rewrite ?E; cbn [negb List.map];
    rewrite ?IH1, ?IH2; split; try reflexivity.
  f_equal. destruct n; cbn in *; subst; reflexivity.
Qed.

Lemma unread_asRead l : unreadNotifications (List.map asRead l) = [].
Proof. induction l as [|n l IH]; [reflexivity | exact IH]. Qed.

Lemma clearRead_filters username l :
  List.filter (fun n => String.eqb (Notification.recipientUsername n) username)
    (List.filter (fun n => negb (String.eqb (Notification.recipientUsername n) username
                                 && Notification.isRead n)) l)
  = unreadNotifications
      (List.filter (fun n => String.eqb (Notification.recipientUsername n) username) l)
  /\
  List.filter (fun n => negb (String.eqb (Notification.recipientUsername n) username))
    (List.filter (fun n => negb (String.eqb (Notification.recipientUsername n) username
                                 && Notification.isRead n)) l)
  = List.filter (fun n => negb (String.eqb (Notification.recipientUsername n) username)) l.
Proof.
  unfold unreadNotifications.
  induction l as [|n l [IH1 IH2]]; [split; reflexivity|]. cbn [List.filter].
  destruct (String.eqb (Notification.recipientUsername n) username) eqn:E;
    destruct (Notification.isRead n) eqn:R;
    cbn [andb negb List.filter]; rewrite ?E, ?R; cbn [negb List.filter]; rewrite ?R;
    cbn [negb]; rewrite ?IH1, ?IH2; split; reflexivity.
Qed.

Lemma existsb_filter_negb {A} (p : A -> bool) l :
  existsb p (List.filter (fun x => negb (p x)) l) = false.
Proof.
  induction l as [|x l IH]; [reflexivity|]. cbn [List.filter].
  destruct (p x) eqn:E; cbn [negb existsb]; rewrite ?E; exact IH.
Qed.

Section Notifications.

Variable getTime : string -> Z.
Variable currentUser : User.

(** X1: marking the notifications of a user as read changes nothing but
    the read flag of that user's unread notifications.  Afterwards none of
    the user's notifications is unread; the notifications addressed to
    others, the submissions, and the number and order of the notifications
    are as before; a second marking changes nothing more. *)
Theorem X1_mark_notifications_read username store :
  unreadNotifications
    (notificationsOf username (markSubmissionNotificationsAsReadInStorage username store)) = [] /\
  notificationsOfOthers username (markSubmissionNotificationsAsReadInStorage username store)
    = notificationsOfOthers username store /\
  Forall2 (fun before after =>
             after = before \/
             (after = asRead before /\ Notification.recipientUsername before = username))
          (Storage.accreditationSubmissionNotifications store)
          (Storage.accreditationSubmissionNotifications
             (markSubmissionNotificationsAsReadInStorage username store)) /\
  Storage.accreditationSubmissions (markSubmissionNotificationsAsReadInStorage username store)
    = Storage.accreditationSubmissions store /\
  markSubmissionNotificationsAsReadInStorage username
    (markSubmissionNotificationsAsReadInStorage username store)
    = markSubmissionNotificationsAsReadInStorage username store.
Proof.
  unfold markSubmissionNotificationsAsReadInStorage, notificationsOf, notificationsOfOthers,
    withNotifications.
  cbn [Storage.accreditationSubmissionNotifications Storage.accreditationSubmissions].
  destruct store as [subs l]. cbn [Storage.accreditationSubmissionNotifications
                                    Storage.accreditationSubmissions].
  destruct (markRead_filters username l) as [H1 H2].
  repeat split.
  - rewrite H1. apply unread_asRead.
  - exact H2.
  - induction l as [|n l IH]; [constructor|]. cbn [List.map]. constructor.
    + destruct (String.eqb (Notification.recipientUsername n) username) eqn:E;
        destruct (Notification.isRead n); cbn [andb negb]; auto.
      right. split; [reflexivity|]. apply String.eqb_eq, E.
    + apply IH; apply (markRead_filters username l).
  - f_equal. clear H1 H2. induction l as [|n l IH]; [reflexivity|]. cbn [List.map].
    rewrite IH. f_equal.
    destruct (String.eqb (Notification.recipientUsername n) username) eqn:E;
      destruct (Notification.isRead n) eqn:R; cbn [andb negb asRead Notification.recipientUsername
                                                   Notification.isRead];
      rewrite ?E, ?R; reflexivity.
Qed.

(** X2: Clear Read Notifications removes the current user's read
    notifications and nothing else.  The user's unread notifications stay,
    in their order; the notifications of other users and the submissions
    are untouched; the list shown afterwards is the freshly loaded list
    without its read entries, the unread count is the same, and the Clear
    button is no longer rendered. *)
Theorem X2_clear_read_notifications store c :
  notificationsOf (User.username currentUser) (fst (onClearRead getTime currentUser store c))
    = unreadNotifications (notificationsOf (User.username currentUser) store) /\
  notificationsOfOthers (User.username currentUser)
                        (fst (onClearRead getTime currentUser store c))
    = notificationsOfOthers (User.username currentUser) store /\
  Storage.accreditationSubmissions (fst (onClearRead getTime currentUser store c))
    = Storage.accreditationSubmissions store /\
  NotificationCells.currentUserSubmissionNotifications
    (snd (onClearRead getTime currentUser store c))
    = unreadNotifications
        (NotificationCells.currentUserSubmissionNotifications
           (loadUserSubmissionNotifications getTime currentUser store c)) /\
  NotificationCells.unreadSubmissionNotificationCount
    (snd (onClearRead getTime currentUser store c))
    = NotificationCells.unreadSubmissionNotificationCount
        (loadUserSubmissionNotifications getTime currentUser store c) /\
  clearReadButtonRendered
    (NotificationCells.currentUserSubmissionNotifications
       (snd (onClearRead getTime currentUser store c))) = false.
Proof.
  unfold onClearRead, clearReadSubmissionNotificationsFromStorage, notificationsOf,
    notificationsOfOthers, loadUserSubmissionNotifications, withNotifications,
    newestNotificationFirst.
  cbn [fst snd Storage.accreditationSubmissionNotifications Storage.accreditationSubmissions
       NotificationCells.currentUserSubmissionNotifications
       NotificationCells.unreadSubmissionNotificationCount].
  destruct (clearRead_filters (User.username currentUser)
              (Storage.accreditationSubmissionNotifications store)) as [H1 H2].
  rewrite H1, H2. unfold unreadNotifications.
  rewrite !sortNewestFirst_filter.
  repeat split.
  - rewrite filter_idem. reflexivity.
  - rewrite <- sortNewestFirst_filter. unfold clearReadButtonRendered.
    apply (existsb_filter_negb Notification.isRead).
Qed.

(** X3: closing the notifications modal marks the current user's
    notifications as read: the unread count shown afterwards is 0, the
    list shown is the freshly loaded list with every entry read, the modal
    is hidden, and the notifications of other users are untouched. *)
Theorem X3_close_marks_all_read store c :
  NotificationCells.unreadSubmissionNotificationCount
    (snd (handleCloseSubmissionNotificationsModal getTime currentUser store c)) = 0%nat /\
  NotificationCells.currentUserSubmissionNotifications
    (snd (handleCloseSubmissionNotificationsModal getTime currentUser store c))
    = List.map asRead
        (NotificationCells.currentUserSubmissionNotifications
           (loadUserSubmissionNotifications getTime currentUser store c)) /\
  NotificationCells.showSubmissionNotificationsModal
    (snd (handleCloseSubmissionNotificationsModal getTime currentUser store c)) = false /\
  notificationsOfOthers (User.username currentUser)
    (fst (handleCloseSubmissionNotificationsModal getTime currentUser store c))
    = notificationsOfOthers (User.username currentUser) store.
Proof.
  unfold handleCloseSubmissionNotificationsModal, loadUserSubmissionNotifications,
    markSubmissionNotificationsAsReadInStorage, notificationsOfOthers, withNotifications,
    newestNotificationFirst, setShowSubmissionNotificationsModal.
  cbn [fst snd Storage.accreditationSubmissionNotifications
       NotificationCells.currentUserSubmissionNotifications
       NotificationCells.unreadSubmissionNotificationCount
       NotificationCells.showSubmissionNotificationsModal].
  destruct (markRead_filters (User.username currentUser)
              (Storage.accreditationSubmissionNotifications store)) as [H1 H2].
  rewrite H1, sortNewestFirst_map by reflexivity.
  repeat split; [|exact H2].
  change (length (unreadNotifications (List.map asRead
            (sortNewestFirst (fun n => getTime (Notification.timestamp n))
               (List.filter (fun n => String.eqb (Notification.recipientUsername n)
                                                 (User.username currentUser))
                            (Storage.accreditationSubmissionNotifications store))))) = 0%nat).
  rewrite unread_asRead. reflexivity.
Qed.

(** X4: after the modal has been closed, Clear Read Notifications leaves
    the current user with no notification at all, stored or shown, and the
    notifications of other users as they were before the modal was
    closed. *)
Theorem X4_close_then_clear_empties store c c' :
  notificationsOf (User.username currentUser)
    (fst (onClearRead getTime currentUser
            (fst (handleCloseSubmissionNotificationsModal getTime currentUser store c)) c')) = [] /\
  NotificationCells.currentUserSubmissionNotifications
    (snd (onClearRead getTime currentUser
            (fst (handleCloseSubmissionNotificationsModal getTime currentUser store c)) c')) = [] /\
  NotificationCells.unreadSubmissionNotificationCount
    (snd (onClearRead getTime currentUser
            (fst (handleCloseSubmissionNotificationsModal getTime currentUser store c)) c'))
    = 0%nat /\
  notificationsOfOthers (User.username currentUser)
    (fst (onClearRead getTime currentUser
            (fst (handleCloseSubmissionNotificationsModal getTime currentUser store c)) c'))
    = notificationsOfOthers (User.username currentUser) store.
Proof.
  unfold onClearRead, clearReadSubmissionNotificationsFromStorage,
    handleCloseSubmissionNotificationsModal, loadUserSubmissionNotifications,
    markSubmissionNotificationsAsReadInStorage, notificationsOf, notificationsOfOthers,
    withNotifications, newestNotificationFirst.
  cbn [fst snd Storage.accreditationSubmissionNotifications
       NotificationCells.currentUserSubmissionNotifications
       NotificationCells.unreadSubmissionNotificationCount].
  destruct (markRead_filters (User.username currentUser)
              (Storage.accreditationSubmissionNotifications store)) as [H1 H2].
  match goal with
  | |- context [List.filter ?q (List.map ?f ?l)] =>
      destruct (clearRead_filters (User.username currentUser) (List.map f l)) as [H3 H4]
  end.
  rewrite H3, H4, H1, H2, unread_asRead. repeat split; reflexivity.
Qed.

(** X5: the notifications shown to a user are exactly the stored
    notifications addressed to that user, newest first, and the unread
    count is the number of unread ones among them; it never exceeds the
    length of the list.  Opening the notifications modal shows that list
    and that count. *)
Theorem X5_load_user_notifications store c :
  Permutation
    (NotificationCells.currentUserSubmissionNotifications
       (loadUserSubmissionNotifications getTime currentUser store c))
    (notificationsOf (User.username currentUser) store) /\
  Sorted (notOlder (fun n => getTime (Notification.timestamp n)))
    (NotificationCells.currentUserSubmissionNotifications
       (loadUserSubmissionNotifications getTime currentUser store c)) /\
  NotificationCells.unreadSubmissionNotificationCount
    (loadUserSubmissionNotifications getTime currentUser store c)
    = length (unreadNotifications (notificationsOf (User.username currentUser) store)) /\
  (NotificationCells.unreadSubmissionNotificationCount
     (loadUserSubmissionNotifications getTime currentUser store c)
   <= length (NotificationCells.currentUserSubmissionNotifications
                (loadUserSubmissionNotifications getTime currentUser store c)))%nat /\
  handleOpenSubmissionNotificationsModal getTime currentUser store c
  = setShowSubmissionNotificationsModal true
      (loadUserSubmissionNotifications getTime currentUser store c).
Proof.
  unfold handleOpenSubmissionNotificationsModal, loadUserSubmissionNotifications,
    newestNotificationFirst, notificationsOf, unreadNotifications.
  cbn [NotificationCells.currentUserSubmissionNotifications
       NotificationCells.unreadSubmissionNotificationCount].
  split; [|split; [|split; [|split]]].
  - apply sortNewestFirst_perm.
  - apply sortNewestFirst_sorted.
  - apply Permutation_length, filter_perm, sortNewestFirst_perm.
  - apply List.filter_length_le.
  - reflexivity.
Qed.

(** X6: a decision raises the unread count of the submitter named in
    the reviewed copy by one, and the unread count of nobody else, when
    the submission is found in the store and the submissions and the
    notifications can be read and written; when the submission is not
    found, or an access to the store throws, no count changes. *)
Theorem X6_decision_notifies_submitter device newStatus newId now store m reader c :
  NotificationCells.unreadSubmissionNotificationCount
    (loadUserSubmissionNotifications getTime reader
       (ReviewModal.storage
          (ReviewModal.handleUpdateSubmissionStatus device newStatus newId now store m))
       c)
  = (NotificationCells.unreadSubmissionNotificationCount
       (loadUserSubmissionNotifications getTime reader store c)
     + if answers device LOCAL_STORAGE_SUBMISSIONS_KEY
          && answers device LOCAL_STORAGE_SUBMISSION_NOTIFICATIONS_KEY
          && notNull (findIndex (Submission.id (ReviewModal.submission m))
                                (Storage.accreditationSubmissions store))
          && String.eqb (Submission.submittedByUsername (ReviewModal.submission m))
                        (User.username reader)
       then 1 else 0)%nat.
Proof.
  unfold ReviewModal.handleUpdateSubmissionStatus, answers.
  destruct (LocalStorage.reading device LOCAL_STORAGE_SUBMISSIONS_KEY);
    cbn [notNull negb andb ReviewModal.storage]; [lia|].
  destruct (findIndex _ _) as [i|]; cbn [notNull andb ReviewModal.storage];
    [|rewrite !andb_false_r; cbn [andb]; lia].
  destruct (LocalStorage.writing device LOCAL_STORAGE_SUBMISSIONS_KEY);
    cbn [notNull negb andb ReviewModal.storage]; [lia|].
  unfold loadUserSubmissionNotifications, newestNotificationFirst.
  destruct (LocalStorage.reading device LOCAL_STORAGE_SUBMISSION_NOTIFICATIONS_KEY),
           (LocalStorage.writing device LOCAL_STORAGE_SUBMISSION_NOTIFICATIONS_KEY);
    cbn [notNull negb andb ReviewModal.storage
         NotificationCells.unreadSubmissionNotificationCount
         Storage.accreditationSubmissionNotifications]; try lia.
  rewrite !sortNewestFirst_filter, !(Permutation_length (sortNewestFirst_perm _ _)).
  rewrite !List.filter_app, length_app. cbn [List.filter Notification.recipientUsername].
  destruct (String.eqb _ _); reflexivity.
Qed.

End Notifications.

(* ===================================================================== *)
(** ** The selection of accreditation bodies                              *)
(* ===================================================================== *)

Lemma includesKey_In bodyKey keys : includesKey bodyKey keys = true <-> In bodyKey keys.
Proof.
  unfold includesKey. rewrite existsb_exists. split.
  - intros (x & Hx & E). apply String.eqb_eq in E. subst. exact Hx.
  - intros H. exists bodyKey. split; [exact H | apply String.eqb_refl].
Qed.

Lemma In_filter_ne (bodyKey other : string) keys :
  In other (List.filter (fun key => negb (String.eqb key bodyKey)) keys)
  <-> In other keys /\ other <> bodyKey.
Proof.
  rewrite filter_In, negb_true_iff, String.eqb_neq. reflexivity.
Qed.

Lemma In_toggleBodyKey bodyKey other keys :
  In other (toggleBodyKey bodyKey keys)
  <-> (other = bodyKey /\ ~ In bodyKey keys) \/ (other <> bodyKey /\ In other keys).
Proof.
  unfold toggleBodyKey. destruct (includesKey bodyKey keys) eqn:E.
  - apply includesKey_In in E. rewrite In_filter_ne. split.
    + intros [H1 H2]. right. auto.
    + intros [[_ H]|[H1 H2]]; [contradiction | auto].
  - assert (Hn : ~ In bodyKey keys).
    { intros H. apply includesKey_In in H. congruence. }
    rewrite in_app_iff. cbn [In]. split.
    + intros [H|[H|[]]].
      * right. split; [|exact H]. intros ->. contradiction.
      * left. auto.
    + intros [[H _]|[_ H]]; auto.
Qed.

Lemma NoDup_filter_ne (bodyKey : string) keys :
  NoDup keys -> NoDup (List.filter (fun key => negb (String.eqb key bodyKey)) keys).
Proof.
  induction 1 as [|x l Hx _ IH]; cbn [List.filter]; [constructor|].
  destruct (negb (String.eqb x bodyKey)); [|exact IH].
  constructor; [|exact IH]. rewrite list_elem_of_In, In_filter_ne.
  rewrite list_elem_of_In in Hx. tauto.
Qed.

(** X7: ticking a body toggles it and nothing else.  The body is selected
    afterwards exactly when it was not before; whether any other body is
    selected does not change; and a selection without repetitions stays
    without repetitions, so each selected body is analysed once. *)
Theorem X7_body_selection_toggles bodyKey st :
  (In bodyKey (State.selectedBodyKeys (handleBodySelectionChange bodyKey st))
   <-> ~ In bodyKey (State.selectedBodyKeys st)) /\
  (forall other, other <> bodyKey ->
     (In other (State.selectedBodyKeys (handleBodySelectionChange bodyKey st))
      <-> In other (State.selectedBodyKeys st))) /\
  (NoDup (State.selectedBodyKeys st) ->
   NoDup (State.selectedBodyKeys (handleBodySelectionChange bodyKey st))).
Proof.
  unfold handleBodySelectionChange. cbn [State.selectedBodyKeys State.setSelectedBodyKeys].
  split; [|split].
  - rewrite In_toggleBodyKey. tauto.
  - intros other Hne. rewrite In_toggleBodyKey. tauto.
  - intros Hnd. unfold toggleBodyKey. destruct (includesKey bodyKey _) eqn:E.
    + apply NoDup_filter_ne, Hnd.
    + apply NoDup_app. split; [exact Hnd|]. split; [|apply NoDup_singleton].
      intros x Hx Hx'. apply list_elem_of_singleton in Hx'. subst.
      apply list_elem_of_In, includesKey_In in Hx. congruence.
Qed.

Lemma X7_witness :
  NoDup (State.selectedBodyKeys typedState) /\
  NoDup (State.selectedBodyKeys (handleBodySelectionChange "NCAAA" typedState)).
Proof.
  assert (H : NoDup (State.selectedBodyKeys typedState)).
  { apply (bool_decide_unpack _). vm_compute. exact I. }
  split; [exact H|].
  apply (proj2 (proj2 (X7_body_selection_toggles "NCAAA" typedState)) H).
Defined.

(* ===================================================================== *)
(** ** What an analysis leaves in the results                             *)
(* ===================================================================== *)

Lemma catalog_standards_not_empty :
  Forall (fun body => AccreditationBody.standards body <> []) ACCREDITATION_BODIES.
Proof. repeat constructor; discriminate. Qed.

Lemma catalog_ids_distinct body :
  In body ACCREDITATION_BODIES -> NoDup (List.map Standard.id (AccreditationBody.standards body)).
Proof.
  intros Hb. pose proof catalog_normal_forms_distinct as H.
  rewrite List.Forall_forall in H. specialize (H body Hb).
  change (fun s => normalizeString (Standard.id s)) with (fun s => normalizeString (Standard.id s)) in H.
  rewrite <- (List.map_map Standard.id normalizeString) in H.
  apply NoDup_fmap_1 in H. exact H.
Qed.

(** The lookup of a returned id in a catalog body that has standards reads
    the id: it succeeds only on a string or on a value that is falsy. *)
Lemma findMatchedStandard_None_string body returned :
  AccreditationBody.standards body <> [] ->
  findMatchedStandard body returned = Ok None ->
  truthy returned = false \/ exists s, returned = VStr s.
Proof.
  unfold findMatchedStandard. destruct (AccreditationBody.standards body) as [|s0 l]; [congruence|].
  intros _ H. cbn [findM] in H. apply bind_Ok in H as (b & Hb & _).
  apply bind_Ok in Hb as (a & _ & Hb). apply bind_Ok in Hb as (n & Hn & _).
  unfold normalizeId in Hn. destruct (truthy returned) eqn:T; [|auto].
  destruct returned; try discriminate Hn. eauto.
Qed.

Lemma analyzeBody_find ai bodyKey group :
  analyzeBody ai bodyKey = Ok group ->
  exists body results items,
    List.find (fun b => String.eqb (AccreditationBody.key b) bodyKey) ACCREDITATION_BODIES
    = Some body /\
    reconcileResults body results = Ok items /\
    group = {| AnalysisResultsGroup.accreditationBodyKey := AccreditationBody.key body;
               AnalysisResultsGroup.accreditationBodyName := AccreditationBody.name body;
               AnalysisResultsGroup.overallMatchingStatement := None;
               AnalysisResultsGroup.items := items |}.
Proof.
  unfold analyzeBody. intros H.
  destruct (List.find _ ACCREDITATION_BODIES) as [body|] eqn:Hf; [|discriminate H].
  apply bind_Ok in H as (parsedData & Hai & H).
  apply bind_Ok in H as (results & Hres & H).
  destruct results as [| | | | |elements|]; try discriminate H.
  apply bind_Ok in H as (items & Hitems & H). inversion H; subst.
  exists body, elements, items. auto.
Qed.

(** An item that reconciliation keeps carries a string id: the id and the
    name of a catalog standard of the body, or a returned id that no
    standard of the body has. *)
Lemma reconcileResults_item body results items item :
  In body ACCREDITATION_BODIES ->
  reconcileResults body results = Ok items ->
  In item items ->
  ((exists s, In s (AccreditationBody.standards body) /\
              AnalysisResultItem.standardId item = VStr (Standard.id s) /\
              AnalysisResultItem.standardName item = VStr (Standard.name s))
   \/
   (exists raw, AnalysisResultItem.standardId item = VStr raw /\
                forall s, In s (AccreditationBody.standards body) -> Standard.id s <> raw)) /\
  AnalysisResultItem.standardId item <> VStr "N/A" /\
  inPercentRange (AnalysisResultItem.matchPercentage item).
Proof.
  intros Hb H Hin. unfold reconcileResults in H.
  apply bind_Ok in H as (mapped & Hm & H). inversion H; subst. clear H.
  apply filter_In in Hin as [Hin Hkeep]. apply mapM_Ok in Hm.
  destruct (Forall2_In_r _ _ _ _ Hm Hin) as (element & _ & Hrec).
  apply reconcileItem_inv in Hrec as (_ & matched & Hmatch & ->).
  split; [|split].
  - destruct matched as [s|].
    + left. exists s. apply findMatchedStandard_Some in Hmatch as [Hs _]. auto.
    + right. cbn [reconciled AnalysisResultItem.standardId].
      pose proof catalog_standards_not_empty as Hne. rewrite List.Forall_forall in Hne.
      destruct (findMatchedStandard_None_string _ _ (Hne body Hb) Hmatch) as [F|[raw E]].
      * unfold keepItem in Hkeep. cbn [reconciled AnalysisResultItem.standardId] in Hkeep.
        unfold orElse in Hkeep. rewrite F in Hkeep. discriminate Hkeep.
      * rewrite E in *. exists raw. split.
        -- unfold keepItem in Hkeep. cbn [reconciled AnalysisResultItem.standardId] in Hkeep.
           unfold orElse in *. rewrite E in Hkeep.
           destruct (truthy (VStr raw)) eqn:T; [reflexivity|]. vm_compute in Hkeep. discriminate Hkeep.
        -- intros s Hs Heq.
           rewrite (findMatchedStandard_normal _ _ _ (normalizeId_VStr raw)) in Hmatch.
           inversion Hmatch as [Hfind].
           apply (List.find_none _ _ Hfind) in Hs. rewrite Heq, String.eqb_refl in Hs.
           discriminate Hs.
  - unfold keepItem, strictNeStr in Hkeep. intros E. rewrite E in Hkeep.
    discriminate Hkeep.
  - rewrite reconciled_percentage. unfold inPercentRange, specPercentage.
    destruct (prop element "matchPercentage"); try (split; reflexivity).
    apply clamp_bounds.
Qed.

Lemma analyzeBody_sound ai bodyKey group :
  analyzeBody ai bodyKey = Ok group -> soundGroup group.
Proof.
  intros H. apply analyzeBody_find in H as (body & results & items & Hf & Hr & ->).
  apply find_some in Hf as [Hb _]. split.
  - exists body. auto.
  - cbn [AnalysisResultsGroup.items]. apply List.Forall_forall. intros item Hin.
    destruct (reconcileResults_item _ _ _ _ Hb Hr Hin) as (Hid & Hna & Hp).
    split; [|exact Hp].
    destruct Hid as [(s & _ & E & _)|(raw & E & _)]; rewrite E in *; eexists;
      (split; [reflexivity | congruence]).
Qed.

Lemma fulfilledOf_map_In {A B} (f : A -> result B) keys y :
  In y (fulfilledOf (List.map f keys)) -> exists k, In k keys /\ f k = Ok y.
Proof.
  induction keys as [|k keys IH]; [intros []|]. cbn [List.map fulfilledOf].
  destruct (f k) as [b|e] eqn:E.
  - intros [->|H]; [exists k; cbn; auto|].
    destruct (IH H) as (k' & Hk & Hf). exists k'. cbn; auto.
  - intros H. destruct (IH H) as (k' & Hk & Hf). exists k'. cbn; auto.
Qed.

(** The handlers that leave the results cell as it is. *)
Lemma analysisResults_loadSubmissionsData getTime currentUser store st :
  State.analysisResults (loadSubmissionsData getTime currentUser store st)
  = State.analysisResults st.
Proof. unfold loadSubmissionsData. by_cases_on_matches. Qed.

Lemma analysisResults_closeSubmissionReviewModal getTime currentUser refreshList store st :
  State.analysisResults (handleCloseSubmissionReviewModal getTime currentUser refreshList store st)
  = State.analysisResults st.
Proof. unfold handleCloseSubmissionReviewModal. by_cases_on_matches. Qed.

Lemma analysisResults_openTrainingChatbot standardId bodyKey st :
  State.analysisResults (fst (handleOpenTrainingChatbot standardId bodyKey st))
  = State.analysisResults st.
Proof. unfold handleOpenTrainingChatbot. by_cases_on_matches. Qed.

Lemma analysisResults_showSummaryChart bodyKey st :
  State.analysisResults (fst (handleShowSummaryChart bodyKey st)) = State.analysisResults st.
Proof. unfold handleShowSummaryChart. by_cases_on_matches. Qed.

Lemma analysisResults_finishFileChange extracted st :
  State.analysisResults (finishFileChange extracted st) = State.analysisResults st.
Proof. unfold finishFileChange. by_cases_on_matches. Qed.

Lemma analysisResults_submitForReview getTime currentUser device newId now store st :
  State.analysisResults
    (fst (handleSubmitForReview getTime currentUser device newId now store st)) = None \/
  State.analysisResults
    (fst (handleSubmitForReview getTime currentUser device newId now store st))
  = State.analysisResults st.
Proof.
  unfold handleSubmitForReview. destruct (State.analysisResults st) eqn:E.
  - destruct (isEmpty (State.programContent st)) eqn:C.
    + right. exact E.
    + destruct (LocalStorage.reading device _); [right; exact E|].
      destruct (LocalStorage.writing device _); [right; exact E|].
      left. by_cases_on_matches.
  - left. exact E.
Qed.

(** The results cell holds nothing, or a non-empty list of groups that
    [analyzeBody] returned. *)
Lemma results_from_analysis getTime currentUser st :
  reachable getTime currentUser st ->
  match State.analysisResults st with
  | None => True
  | Some groups => groups <> [] /\ Forall fromAnalysis groups
  end.
Proof.
  assert (Hfinish : forall ai keys st0,
             match State.analysisResults st0 with
             | None => True
             | Some groups => groups <> [] /\ Forall fromAnalysis groups
             end ->
             match State.analysisResults (finishAnalysis (List.map (analyzeBody ai) keys) st0) with
             | None => True
             | Some groups => groups <> [] /\ Forall fromAnalysis groups
             end).
  { intros ai keys st0 IH. unfold finishAnalysis, settleAnalysis.
    rewrite collectSettled_spec. cbn [app].
    destruct (fulfilledOf (List.map (analyzeBody ai) keys)) as [|g gs] eqn:F.
    - cbn [length Nat.ltb Nat.leb Nat.eqb andb].
      destruct (_ || _); exact IH.
    - cbn [length Nat.ltb Nat.leb Nat.eqb andb].
      cbn [State.analysisResults State.setAnalysisResults State.setIsLoading State.setError].
      split; [discriminate|]. apply List.Forall_forall. intros x Hx. rewrite <- F in Hx.
      apply fulfilledOf_map_In in Hx as (k & _ & Hk). exists ai.
      rewrite (analyzeBody_key _ _ _ Hk). exact Hk. }
  induction 1 as [|store st _ IH|bodyKey st _ IH|text st _ IH|language st _ IH|st _ IH
                  |extracted st _ IH|ai st _ IH|st _ IH|ai keys st _ IH|shown st _ IH
                  |standardId bodyKey st _ IH|bodyKey st _ IH|device newId now store st _ IH
                  |submission st _ IH|st _ IH|submission st _ IH|refreshList store st _ IH].
  - exact I.
  - rewrite analysisResults_loadSubmissionsData. exact IH.
  - exact IH.
  - exact IH.
  - exact IH.
  - exact I.
  - rewrite analysisResults_finishFileChange. exact IH.
  - unfold handleSubmitAnalysis.
    destruct (isEmpty _); [exact IH|]. destruct (_ =? _)%nat; [exact IH|].
    destruct (_ && _); [exact IH|]. apply Hfinish. exact I.
  - exact I.
  - apply Hfinish, IH.
  - exact IH.
  - rewrite analysisResults_openTrainingChatbot. exact IH.
  - rewrite analysisResults_showSummaryChart. exact IH.
  - destruct (analysisResults_submitForReview getTime currentUser device newId now store st)
      as [E|E]; rewrite E; [exact I | exact IH].
  - exact I.
  - exact I.
  - exact IH.
  - rewrite analysisResults_closeSubmissionReviewModal. exact IH.
Qed.

(** X10: in every state the analyzer can reach, the results cell holds
    nothing or a non-empty list of groups, each of them returned by
    [analyzeBody]: it belongs to a catalog body and carries its name, and
    each of its items has a string standardId other than the sentinel and
    a percentage between 0 and 100. *)
Theorem X10_results_invariant getTime currentUser st :
  reachable getTime currentUser st ->
  match State.analysisResults st with
  | None => True
  | Some groups => groups <> [] /\ Forall fromAnalysis groups /\ Forall soundGroup groups
  end.
Proof.
  intros H. apply results_from_analysis in H.
  destruct (State.analysisResults st) as [groups|]; [|exact I].
  destruct H as [Hne Hall]. repeat split; [exact Hne | exact Hall|].
  eapply Forall_impl; [exact Hall|]. intros g [ai Hg]. exact (analyzeBody_sound _ _ _ Hg).
Qed.

Lemma sample_reachable : reachable epoch u1 sampleAnalysed.
Proof.
  unfold sampleAnalysed, tickedState.
  apply reach_submitAnalysis, reach_bodySelection, reach_bodySelection, reach_typing,
    reach_initial.
Qed.

Lemma X10_witness :
  match State.analysisResults sampleAnalysed with
  | None => True
  | Some groups => groups <> [] /\ Forall fromAnalysis groups /\ Forall soundGroup groups
  end.
Proof. apply (X10_results_invariant epoch u1 sampleAnalysed sample_reachable). Defined.

Lemma find_In_some {A} (p : A -> bool) l x :
  In x l -> p x = true -> exists y, List.find p l = Some y.
Proof.
  intros Hin Hp. destruct (List.find p l) as [y|] eqn:E; [eauto|].
  apply (List.find_none _ _ E) in Hin. congruence.
Qed.

(** The group a button of the results section belongs to was returned by
    [analyzeBody] for the key the button passes. *)
Lemma rendered_group getTime currentUser st bodyKey group :
  reachable getTime currentUser st ->
  findResultGroup bodyKey st = Some group ->
  exists ai, analyzeBody ai bodyKey = Ok group.
Proof.
  intros Hr Hf. apply results_from_analysis in Hr. unfold findResultGroup in Hf.
  destruct (State.analysisResults st) as [groups|]; [|discriminate Hf].
  destruct Hr as [_ Hall]. apply find_some in Hf as [Hin Hk].
  apply String.eqb_eq in Hk. rewrite List.Forall_forall in Hall.
  destruct (Hall group Hin) as [ai Hai]. exists ai. rewrite <- Hk. exact Hai.
Qed.

(** X8: in a reachable state, the Open Training Chatbot button of an item
    opens the chatbot exactly when the item's standardId is the id of a
    standard of the body, that is when reconciliation matched the item to
    the catalog: the chatbot then gets that standard, whose name the item
    carries, the feedback of the first item of the group with that id, and
    the name of the body.  For an item that kept a returned id unknown to
    the body, the chatbot is not opened and the error names the id. *)
Theorem X8_training_chatbot getTime currentUser st bodyKey group item :
  reachable getTime currentUser st ->
  findResultGroup bodyKey st = Some group ->
  In item (AnalysisResultsGroup.items group) ->
  exists body id first,
    List.find (fun b => String.eqb (AccreditationBody.key b) bodyKey) ACCREDITATION_BODIES
    = Some body /\
    AnalysisResultItem.standardId item = VStr id /\
    List.find (fun it => strictEqStr (AnalysisResultItem.standardId it) id)
              (AnalysisResultsGroup.items group) = Some first /\
    ((exists s,
         In s (AccreditationBody.standards body) /\ Standard.id s = id /\
         AnalysisResultItem.standardName item = VStr (Standard.name s) /\
         handleOpenTrainingChatbot id bodyKey st
         = (st,
            Some {| ChatbotContext.standard := s;
                    ChatbotContext.initialFeedback :=
                      AnalysisResultItem.improvementFeedback first;
                    ChatbotContext.accreditationBodyName := AccreditationBody.name body;
                    ChatbotContext.programContentLanguage := State.programContentLanguage st |}))
     \/
     ((forall s, In s (AccreditationBody.standards body) -> Standard.id s <> id) /\
      handleOpenTrainingChatbot id bodyKey st
      = (State.setError (Some (NO_STANDARD_DEFINITION id body)) st, None))).
Proof.
  intros Hr Hf Hin. destruct (rendered_group _ _ _ _ _ Hr Hf) as [ai Hai].
  apply analyzeBody_find in Hai as (body & results & items & Hb & Hrec & ->).
  cbn [AnalysisResultsGroup.items] in Hin.
  pose proof (find_some _ _ Hb) as [Hbin _].
  destruct (reconcileResults_item _ _ _ _ Hbin Hrec Hin) as (Hid & _ & _).
  assert (Hfirst : forall id, AnalysisResultItem.standardId item = VStr id ->
                     exists first,
                       List.find (fun it => strictEqStr (AnalysisResultItem.standardId it) id)
                                 items = Some first).
  { intros id E. apply (find_In_some _ _ item Hin). rewrite E. apply String.eqb_refl. }
  destruct Hid as [(s & Hs & E & En)|(raw & E & Hraw)].
  - destruct (Hfirst _ E) as [first Hfi]. exists body, (Standard.id s), first.
    repeat split; [exact Hb | exact E | exact Hfi|].
    left. exists s. repeat split; [exact Hs | exact En|].
    unfold handleOpenTrainingChatbot. rewrite Hf. cbn [AnalysisResultsGroup.items
      AnalysisResultsGroup.accreditationBodyName]. rewrite Hfi, Hb.
    rewrite (find_unique Standard.id _ s (catalog_ids_distinct _ Hbin) Hs). reflexivity.
  - destruct (Hfirst _ E) as [first Hfi]. exists body, raw, first.
    repeat split; [exact Hb | exact E | exact Hfi|].
    right. split; [exact Hraw|].
    unfold handleOpenTrainingChatbot. rewrite Hf. cbn [AnalysisResultsGroup.items
      AnalysisResultsGroup.accreditationBodyName]. rewrite Hfi, Hb.
    rewrite find_none_all; [reflexivity|].
    apply List.Forall_forall. intros s Hs. apply String.eqb_neq, Hraw, Hs.
Qed.

Lemma X8_witness :
  exists body id first,
    List.find (fun b => String.eqb (AccreditationBody.key b) "ADA") ACCREDITATION_BODIES
    = Some body /\
    AnalysisResultItem.standardId sampleItem = VStr id /\
    List.find (fun it => strictEqStr (AnalysisResultItem.standardId it) id)
              (AnalysisResultsGroup.items sampleGroup) = Some first /\
    ((exists s,
         In s (AccreditationBody.standards body) /\ Standard.id s = id /\
         AnalysisResultItem.standardName sampleItem = VStr (Standard.name s) /\
         handleOpenTrainingChatbot id "ADA" sampleAnalysed
         = (sampleAnalysed,
            Some {| ChatbotContext.standard := s;
                    ChatbotContext.initialFeedback :=
                      AnalysisResultItem.improvementFeedback first;
                    ChatbotContext.accreditationBodyName := AccreditationBody.name body;
                    ChatbotContext.programContentLanguage :=
                      State.programContentLanguage sampleAnalysed |}))
     \/
     ((forall s, In s (AccreditationBody.standards body) -> Standard.id s <> id) /\
      handleOpenTrainingChatbot id "ADA" sampleAnalysed
      = (State.setError (Some (NO_STANDARD_DEFINITION id body)) sampleAnalysed, None))).
Proof.
  apply (X8_training_chatbot epoch u1 sampleAnalysed "ADA" sampleGroup sampleItem
           sample_reachable).
  - vm_compute. reflexivity.
  - left. vm_compute. reflexivity.
Defined.

(** X9: in a reachable state, the View Summary Chart button of a group
    shows a chart with one label and one value per item of the group,
    every value between 0 and 100, titled after the catalog body of the
    group; the state is left as it is. *)
Theorem X9_summary_chart getTime currentUser st bodyKey group :
  reachable getTime currentUser st ->
  findResultGroup bodyKey st = Some group ->
  exists body data,
    In body ACCREDITATION_BODIES /\ AccreditationBody.key body = bodyKey /\
    handleShowSummaryChart bodyKey st = (st, Some data) /\
    SummaryChartData.title data = "Analysis Summary for " +:+ AccreditationBody.name body /\
    length (SummaryChartData.labels data) = length (AnalysisResultsGroup.items group) /\
    length (SummaryChartData.dataValues data) = length (AnalysisResultsGroup.items group) /\
    Forall inPercentRange (SummaryChartData.dataValues data).
Proof.
  intros Hr Hf. destruct (rendered_group _ _ _ _ _ Hr Hf) as [ai Hai].
  pose proof (analyzeBody_sound _ _ _ Hai) as [_ Hitems].
  apply analyzeBody_inv in Hai as (body & _ & _ & items & Hb & Hk & _ & _ & _ & ->).
  exists body. eexists. unfold handleShowSummaryChart. rewrite Hf.
  repeat split; [exact Hb | exact Hk | | |].
  - cbn. apply length_map.
  - cbn. apply length_map.
  - cbn [SummaryChartData.dataValues]. apply List.Forall_forall. intros v Hv.
    apply in_map_iff in Hv as (it & <- & Hit). rewrite List.Forall_forall in Hitems.
    apply (Hitems it Hit).
Qed.

Lemma X9_witness :
  exists body data,
    In body ACCREDITATION_BODIES /\ AccreditationBody.key body = "ADA" /\
    handleShowSummaryChart "ADA" sampleAnalysed = (sampleAnalysed, Some data) /\
    SummaryChartData.title data = "Analysis Summary for " +:+ AccreditationBody.name body /\
    length (SummaryChartData.labels data) = length (AnalysisResultsGroup.items sampleGroup) /\
    length (SummaryChartData.dataValues data)
    = length (AnalysisResultsGroup.items sampleGroup) /\
    Forall inPercentRange (SummaryChartData.dataValues data).
Proof.
  apply (X9_summary_chart epoch u1 sampleAnalysed "ADA" sampleGroup sample_reachable).
  vm_compute. reflexivity.
Defined.

(* ===================================================================== *)
(** ** Internal messages: sending, viewing and deleting                   *)
(* ===================================================================== *)

Section MessagesModalFacts.

Variable getTime : string -> Z.
Variable currentUser : User.

Lemma roleName_not_empty r : isEmpty (roleName r) = false.
Proof. destruct r; reflexivity. Qed.

(** X11: a message is sent only with a subject and a body that are not
    blank and, when addressed to a user, with a recipient name that is not
    blank; otherwise nothing is written and the form shows an error.
    Nothing is written either when writing the messages throws: the form
    is kept as it is and shows the message of what was thrown.  A
    sent message is appended to the modal's messages as one new entry from
    the current user, read by nobody: it is unread for every user whose
    name is not a property name of Object.prototype.  The modal then lists
    the written messages newest first, the new one among the sent
    messages, and the form is cleared and switched to the Sent tab. *)
Theorem X11_send_message device newId now f m :
  match MessagesModal.written
          (MessagesModal.handleSendMessage getTime currentUser device newId now f m)
  with
  | None =>
      MessagesModal.modal
        (MessagesModal.handleSendMessage getTime currentUser device newId now f m) = m /\
      MessagesModal.alert
        (MessagesModal.handleSendMessage getTime currentUser device newId now f m) = None /\
      (((exists e,
            MessagesModal.compose
              (MessagesModal.handleSendMessage getTime currentUser device newId now f m)
            = MessagesModal.setComposeError (Some e) f) /\
        (isEmpty (trim (MessagesModal.composeSubject f)) = true \/
         isEmpty (trim (MessagesModal.composeBody f)) = true \/
         (MessagesModal.composeRecipientType f = user /\
          isEmpty (trim (MessagesModal.composeRecipientUser f)) = true))) \/
       (exists e,
           LocalStorage.writing device LOCAL_STORAGE_INTERNAL_MESSAGES_KEY = Some e /\
           isEmpty (trim (MessagesModal.composeSubject f)) = false /\
           isEmpty (trim (MessagesModal.composeBody f)) = false /\
           MessagesModal.compose
             (MessagesModal.handleSendMessage getTime currentUser device newId now f m)
           = {| MessagesModal.activeTab := MessagesModal.activeTab f;
                MessagesModal.composeRecipientType := MessagesModal.composeRecipientType f;
                MessagesModal.composeRecipientRole := MessagesModal.composeRecipientRole f;
                MessagesModal.composeRecipientUser := MessagesModal.composeRecipientUser f;
                MessagesModal.composeSubject := MessagesModal.composeSubject f;
                MessagesModal.composeBody := MessagesModal.composeBody f;
                MessagesModal.composeError :=
                  Some ("Failed to send message: " +:+ errorMessage e);
                MessagesModal.isSending := false |}))
  | Some stored =>
      LocalStorage.writing device LOCAL_STORAGE_INTERNAL_MESSAGES_KEY = None /\
      exists msg,
        stored = Messages.messages m ++ [msg] /\
        InternalMessage.id msg = newId /\
        InternalMessage.senderUsername msg = User.username currentUser /\
        InternalMessage.subject msg = MessagesModal.composeSubject f /\
        InternalMessage.body msg = MessagesModal.composeBody f /\
        isEmpty (trim (InternalMessage.subject msg)) = false /\
        isEmpty (trim (InternalMessage.body msg)) = false /\
        isEmpty (RecipientIdentifier.value (InternalMessage.recipientIdentifier msg)) = false /\
        (forall username, isUnreadBy username msg = negb (inheritedName username)) /\
        Permutation
          (Messages.messages
             (MessagesModal.modal
                (MessagesModal.handleSendMessage getTime currentUser device newId now f m)))
          stored /\
        Sorted (notOlder (fun x => getTime (InternalMessage.timestamp x)))
          (Messages.messages
             (MessagesModal.modal
                (MessagesModal.handleSendMessage getTime currentUser device newId now f m))) /\
        In msg (MessagesModal.sentMessages currentUser
                  (MessagesModal.modal
                     (MessagesModal.handleSendMessage getTime currentUser device newId now
                        f m))) /\
        MessagesModal.activeTab
          (MessagesModal.compose
             (MessagesModal.handleSendMessage getTime currentUser device newId now f m))
        = MessagesModal.sentTab /\
        MessagesModal.composeSubject
          (MessagesModal.compose
             (MessagesModal.handleSendMessage getTime currentUser device newId now f m)) = "" /\
        MessagesModal.composeBody
          (MessagesModal.compose
             (MessagesModal.handleSendMessage getTime currentUser device newId now f m)) = ""
  end.
Proof.
  unfold MessagesModal.handleSendMessage.
  destruct (isEmpty (trim (MessagesModal.composeSubject f))) eqn:Hs;
    [cbn; split; [reflexivity|]; split; [reflexivity|]; left; split; eauto|].
  destruct (isEmpty (trim (MessagesModal.composeBody f))) eqn:Hb;
    [cbn; split; [reflexivity|]; split; [reflexivity|]; left; split; eauto|].
  cbn [orb].
  assert (Hsent : forall msg : InternalMessage,
             InternalMessage.senderUsername msg = User.username currentUser ->
             In msg (MessagesModal.sentMessages currentUser
                       {| Messages.messages :=
                            Messages.newestMessageFirst getTime (Messages.messages m ++ [msg]);
                          Messages.selectedMessage := Messages.selectedMessage m |})).
  { intros msg Hmsg. unfold MessagesModal.sentMessages. cbn [Messages.messages].
    apply filter_In. split.
    - apply (Permutation_in _ (Permutation_sym (sortNewestFirst_perm _ _))).
      apply in_app_iff. right. left. reflexivity.
    - rewrite Hmsg. apply String.eqb_refl. }
  destruct (MessagesModal.composeRecipientType f) eqn:Ht.
  - destruct (isEmpty (trim (MessagesModal.composeRecipientUser f))) eqn:Hu;
      [cbn; split; [reflexivity|]; split; [reflexivity|]; left; split; eauto|].
    destruct (LocalStorage.writing device LOCAL_STORAGE_INTERNAL_MESSAGES_KEY) as [e|] eqn:W.
    + cbn. split; [reflexivity|]. split; [reflexivity|]. right. exists e. auto.
    + cbn [MessagesModal.written MessagesModal.modal MessagesModal.compose
           Messages.messages MessagesModal.activeTab MessagesModal.composeSubject
           MessagesModal.composeBody].
      split; [reflexivity|]. eexists. split; [reflexivity|].
      cbn [InternalMessage.id InternalMessage.senderUsername InternalMessage.subject
           InternalMessage.body InternalMessage.recipientIdentifier RecipientIdentifier.value].
      repeat split; try assumption.
      * apply sortNewestFirst_perm.
      * apply sortNewestFirst_sorted.
      * apply Hsent. reflexivity.
  - destruct (LocalStorage.writing device LOCAL_STORAGE_INTERNAL_MESSAGES_KEY) as [e|] eqn:W.
    + cbn. split; [reflexivity|]. split; [reflexivity|]. right. exists e. auto.
    + cbn [MessagesModal.written MessagesModal.modal MessagesModal.compose
           Messages.messages MessagesModal.activeTab MessagesModal.composeSubject
           MessagesModal.composeBody].
      split; [reflexivity|]. eexists. split; [reflexivity|].
      cbn [InternalMessage.id InternalMessage.senderUsername InternalMessage.subject
           InternalMessage.body InternalMessage.recipientIdentifier RecipientIdentifier.value].
      repeat split; try assumption.
      * apply roleName_not_empty.
      * apply sortNewestFirst_perm.
      * apply sortNewestFirst_sorted.
      * apply Hsent. reflexivity.
Qed.

Lemma filter_app_split {A} (p q : A -> bool) l :
  List.filter p (List.filter (fun x => p x && q x) l ++ List.filter (fun x => negb (p x)) l)
  = List.filter (fun x => p x && q x) l /\
  List.filter (fun x => negb (p x))
              (List.filter (fun x => p x && q x) l ++ List.filter (fun x => negb (p x)) l)
  = List.filter (fun x => negb (p x)) l.
Proof.
  rewrite !List.filter_app. split.
  - rewrite (filter_none p (List.filter (fun x => negb (p x)) l)), app_nil_r.
    + apply filter_all, List.Forall_forall. intros x Hx.
      apply filter_In in Hx as [_ Hx]. apply andb_true_iff in Hx. tauto.
    + apply List.Forall_forall. intros x Hx. apply filter_In in Hx as [_ Hx].
      apply negb_true_iff, Hx.
  - rewrite (filter_none (fun x => negb (p x)) (List.filter (fun x => p x && q x) l)).
    + apply filter_idem.
    + apply List.Forall_forall. intros x Hx. apply filter_In in Hx as [_ Hx].
      apply andb_true_iff in Hx as [Hx _]. rewrite Hx. reflexivity.
Qed.

(** X12: deleting the read inbox messages, once confirmed, removes the
    messages addressed to the current user that the user has read, and no
    other: the messages addressed to others (the sent items among them)
    are all kept, in their order; of the inbox exactly the unread messages
    are kept, in their order; the modal lists what was written, newest
    first, with no message selected.  Without confirmation nothing is
    written and nothing changes. *)
Theorem X12_delete_read_inbox m :
  (exists stored,
      snd (MessagesModal.handleDeleteReadInboxMessages getTime currentUser true m)
      = Some stored /\
      notAddressedTo currentUser stored = notAddressedTo currentUser (Messages.messages m) /\
      addressedTo currentUser stored
      = unreadBy (User.username currentUser) (addressedTo currentUser (Messages.messages m)) /\
      Permutation
        (Messages.messages
           (fst (MessagesModal.handleDeleteReadInboxMessages getTime currentUser true m)))
        stored /\
      Sorted (notOlder (fun x => getTime (InternalMessage.timestamp x)))
        (Messages.messages
           (fst (MessagesModal.handleDeleteReadInboxMessages getTime currentUser true m))) /\
      Forall (fun msg => isUnreadBy (User.username currentUser) msg = true)
        (MessagesModal.inboxMessages currentUser
           (fst (MessagesModal.handleDeleteReadInboxMessages getTime currentUser true m))) /\
      Messages.selectedMessage
        (fst (MessagesModal.handleDeleteReadInboxMessages getTime currentUser true m)) = None) /\
  MessagesModal.handleDeleteReadInboxMessages getTime currentUser false m = (m, None).
Proof.
  split; [|reflexivity].
  unfold MessagesModal.handleDeleteReadInboxMessages. cbn [fst snd Messages.messages
    Messages.selectedMessage].
  eexists. split; [reflexivity|].
  destruct (filter_app_split (isForCurrentUser currentUser)
              (isUnreadBy (User.username currentUser)) (Messages.messages m)) as [H1 H2].
  unfold notAddressedTo, addressedTo, unreadBy, MessagesModal.inboxMessages.
  cbn [Messages.messages]. repeat split.
  - exact H2.
  - rewrite H1. clear H1 H2. induction (Messages.messages m) as [|x l IH]; [reflexivity|].
    cbn [List.filter]. destruct (isForCurrentUser currentUser x); cbn [andb List.filter];
      [|exact IH]. destruct (isUnreadBy _ x); rewrite IH; reflexivity.
  - apply sortNewestFirst_perm.
  - apply sortNewestFirst_sorted.
  - apply List.Forall_forall. intros msg Hmsg. apply filter_In in Hmsg as [Hmsg Hfor].
    apply (Permutation_in _ (sortNewestFirst_perm _ _)) in Hmsg.
    apply in_app_iff in Hmsg as [Hmsg|Hmsg]; apply filter_In in Hmsg as [_ Hmsg].
    + apply andb_true_iff in Hmsg. tauto.
    + rewrite Hfor in Hmsg. discriminate Hmsg.
Qed.

Lemma readByUser_insert_same readBy username :
  readByUser (<[username := true]> readBy) username = true.
Proof. unfold readByUser. rewrite lookup_insert_eq. reflexivity. Qed.

Lemma readByUser_insert_other readBy username other :
  other <> username ->
  readByUser (<[username := true]> readBy) other = readByUser readBy other.
Proof. intros H. unfold readByUser. rewrite lookup_insert_ne by congruence. reflexivity. Qed.

Lemma isUnreadBy_withReader msg :
  isUnreadBy (User.username currentUser) (Messages.withReader currentUser msg) = false.
Proof.
  unfold isUnreadBy, Messages.withReader. cbn [InternalMessage.readBy].
  rewrite readByUser_insert_same. reflexivity.
Qed.

(** Reading a message changes nothing for a reader with another name,
    unless that name is a property name of Object.prototype and the
    message had no readBy object. *)
Lemma isUnreadBy_withReader_other msg other :
  other <> User.username currentUser ->
  inheritedName other = false ->
  isUnreadBy other (Messages.withReader currentUser msg) = isUnreadBy other msg.
Proof.
  intros Hne Hin. unfold isUnreadBy, Messages.withReader. cbn [InternalMessage.readBy].
  rewrite readByUser_insert_other by exact Hne.
  destruct (InternalMessage.readBy msg) as [readBy|]; cbn [default]; [reflexivity|].
  unfold readByUser. rewrite lookup_empty. fold (inheritedName other). rewrite Hin. reflexivity.
Qed.

Lemma isForCurrentUser_markIf reader messageId msg :
  isForCurrentUser reader (markIf currentUser messageId msg) = isForCurrentUser reader msg.
Proof. unfold markIf. destruct (String.eqb _ _); reflexivity. Qed.

Lemma unread_count_markIf messageId l :
  (length (unreadBy (User.username currentUser)
             (addressedTo currentUser (List.map (markIf currentUser messageId) l)))
   <= length (unreadBy (User.username currentUser) (addressedTo currentUser l)))%nat /\
  (forall message,
      In message l -> InternalMessage.id message = messageId ->
      isForCurrentUser currentUser message = true ->
      isUnreadBy (User.username currentUser) message = true ->
      (length (unreadBy (User.username currentUser)
                 (addressedTo currentUser (List.map (markIf currentUser messageId) l)))
       < length (unreadBy (User.username currentUser) (addressedTo currentUser l)))%nat).
Proof.
  unfold unreadBy, addressedTo.
  induction l as [|x l [IH1 IH2]]; [split; [reflexivity | intros ? []]|].
  cbn [List.map List.filter]. rewrite isForCurrentUser_markIf.
  assert (Hx : isUnreadBy (User.username currentUser) (markIf currentUser messageId x) = true ->
               isUnreadBy (User.username currentUser) x = true
               /\ String.eqb (InternalMessage.id x) messageId = false).
  { unfold markIf. destruct (String.eqb _ _); [rewrite isUnreadBy_withReader|]; auto.
    discriminate. }
  split.
  - destruct (isForCurrentUser currentUser x); [|exact IH1]. cbn [List.filter].
    destruct (isUnreadBy _ (markIf _ _ x)) eqn:E.
    + destruct (Hx eq_refl) as [-> _]. cbn [length]. lia.
    + destruct (isUnreadBy _ x); cbn [length]; lia.
  - intros message [->|Hin] Hid Hfor Hun.
    + rewrite Hfor. cbn [List.filter]. rewrite Hun.
      unfold markIf at 1. rewrite Hid, String.eqb_refl, isUnreadBy_withReader.
      cbn [length]. lia.
    + specialize (IH2 message Hin Hid Hfor Hun).
      destruct (isForCurrentUser currentUser x); [|exact IH2]. cbn [List.filter].
      destruct (isUnreadBy _ (markIf _ _ x)) eqn:E.
      * destruct (Hx eq_refl) as [-> _]. cbn [length]. lia.
      * destruct (isUnreadBy _ x); cbn [length]; lia.
Qed.

Lemma markMessageAsRead_written messageId m :
  snd (Messages.markMessageAsRead getTime currentUser messageId m)
  = List.map (markIf currentUser messageId) (Messages.messages m).
Proof. reflexivity. Qed.

(** X13: a click on a listed message selects it.  If the message is
    addressed to the current user and unread, the messages with its id are
    marked as read by the current user and written: none of them is
    unread for the user any more, the user's count of unread messages goes
    down, and for a reader with another name (not a property name of
    Object.prototype) no message changes between read and unread.  In
    every other case nothing is written and the messages stay as they
    are. *)
Theorem X13_view_message message m :
  In message (Messages.messages m) ->
  (exists selected,
      Messages.selectedMessage
        (fst (MessagesModal.handleViewMessage getTime currentUser message m)) = Some selected /\
      InternalMessage.id selected = InternalMessage.id message /\
      InternalMessage.subject selected = InternalMessage.subject message /\
      InternalMessage.body selected = InternalMessage.body message) /\
  (isForCurrentUser currentUser message = true ->
   isUnreadBy (User.username currentUser) message = true ->
   exists stored,
     snd (MessagesModal.handleViewMessage getTime currentUser message m) = Some stored /\
     Permutation
       (Messages.messages (fst (MessagesModal.handleViewMessage getTime currentUser message m)))
       stored /\
     Forall (fun msg => InternalMessage.id msg = InternalMessage.id message ->
                        isUnreadBy (User.username currentUser) msg = false) stored /\
     (loadInternalMessagesForUser currentUser stored
      < loadInternalMessagesForUser currentUser (Messages.messages m))%nat /\
     (forall other,
         other <> User.username currentUser -> inheritedName other = false ->
         List.map (isUnreadBy other) stored
         = List.map (isUnreadBy other) (Messages.messages m))) /\
  (isForCurrentUser currentUser message = false \/
   isUnreadBy (User.username currentUser) message = false ->
   MessagesModal.handleViewMessage getTime currentUser message m
   = ({| Messages.messages := Messages.messages m;
         Messages.selectedMessage := Some message |}, None)).
Proof.
  intros Hin. unfold MessagesModal.handleViewMessage. split; [|split].
  - destruct (_ && _); cbn [fst Messages.selectedMessage]; [|eauto].
    destruct (Messages.selectedMessage m) as [sel|]; [|eauto].
    destruct (String.eqb _ _); eauto.
  - intros Hfor Hun. rewrite Hfor, Hun. cbn [andb fst snd Messages.messages].
    eexists. split; [reflexivity|]. rewrite markMessageAsRead_written.
    split; [apply sortNewestFirst_perm|]. split; [|split].
    + apply List.Forall_forall. intros msg Hmsg Hid.
      apply in_map_iff in Hmsg as (msg0 & <- & _). unfold markIf in *.
      destruct (String.eqb (InternalMessage.id msg0) (InternalMessage.id message)) eqn:E.
      * apply isUnreadBy_withReader.
      * apply String.eqb_neq in E. contradiction.
    + apply (proj2 (unread_count_markIf (InternalMessage.id message) (Messages.messages m))
               message Hin eq_refl Hfor Hun).
    + intros other Hne Hinh. rewrite List.map_map. apply map_ext. intros msg.
      unfold markIf. destruct (String.eqb _ _); [|reflexivity].
      apply isUnreadBy_withReader_other; assumption.
  - intros [H|H]; rewrite H, ?andb_false_r; reflexivity.
Qed.

(** X14: the number on the Internal Messages button of the analyzer is
    the number of unread messages that the Inbox tab shows when the modal
    is opened on the same stored messages, and it never exceeds the number
    of messages in that inbox, which are the stored messages addressed to
    the user. *)
Theorem X14_unread_badge_is_inbox_count stored m f :
  loadInternalMessagesForUser currentUser stored
  = MessagesModal.inboxUnreadCount currentUser (fst (MessagesModal.open getTime stored m f)) /\
  (loadInternalMessagesForUser currentUser stored
   <= length (MessagesModal.inboxMessages currentUser
                (fst (MessagesModal.open getTime stored m f))))%nat /\
  Permutation (MessagesModal.inboxMessages currentUser
                 (fst (MessagesModal.open getTime stored m f)))
              (addressedTo currentUser stored) /\
  Messages.selectedMessage (fst (MessagesModal.open getTime stored m f)) = None /\
  MessagesModal.activeTab (snd (MessagesModal.open getTime stored m f))
  = MessagesModal.inboxTab.
Proof.
  unfold loadInternalMessagesForUser, MessagesModal.inboxUnreadCount,
    MessagesModal.inboxMessages, MessagesModal.open, MessagesModal.loadMessages, addressedTo.
  cbn [fst snd Messages.messages Messages.selectedMessage MessagesModal.activeTab].
  assert (Hp : Permutation
                 (List.filter (isForCurrentUser currentUser)
                    (Messages.newestMessageFirst getTime stored))
                 (List.filter (isForCurrentUser currentUser) stored)).
  { apply filter_perm, sortNewestFirst_perm. }
  split; [|split; [|split; [|split]]].
  - symmetry. apply Permutation_length, filter_perm, Hp.
  - rewrite (Permutation_length Hp). apply List.filter_length_le.
  - exact Hp.
  - reflexivity.
  - reflexivity.
Qed.

End MessagesModalFacts.

Lemma X13_witness :
  (exists selected,
      Messages.selectedMessage
        (fst (MessagesModal.handleViewMessage epoch u1 sampleMessage sampleInbox))
      = Some selected /\
      InternalMessage.id selected = InternalMessage.id sampleMessage /\
      InternalMessage.subject selected = InternalMessage.subject sampleMessage /\
      InternalMessage.body selected = InternalMessage.body sampleMessage) /\
  (exists stored,
     snd (MessagesModal.handleViewMessage epoch u1 sampleMessage sampleInbox) = Some stored /\
     Permutation
       (Messages.messages (fst (MessagesModal.handleViewMessage epoch u1 sampleMessage sampleInbox)))
       stored /\
     Forall (fun msg => InternalMessage.id msg = InternalMessage.id sampleMessage ->
                        isUnreadBy (User.username u1) msg = false) stored /\
     (loadInternalMessagesForUser u1 stored
      < loadInternalMessagesForUser u1 (Messages.messages sampleInbox))%nat /\
     List.map (isUnreadBy "lead") stored
     = List.map (isUnreadBy "lead") (Messages.messages sampleInbox)).
Proof.
  assert (Hin : In sampleMessage (Messages.messages sampleInbox)) by (left; reflexivity).
  pose proof (X13_view_message epoch u1 sampleMessage sampleInbox Hin) as (H1 & H2 & _).
  split; [exact H1|].
  destruct (H2 eq_refl eq_refl) as (stored & Hs & Hp & Hf & Hc & Ho).
  exists stored. repeat split; try assumption.
  apply Ho; [discriminate | reflexivity].
Defined.

(* ===================================================================== *)
(** ** User management and the login                                      *)
(* ===================================================================== *)

Lemma find_lower_none username users :
  List.find (fun u => String.eqb (toLowerCase (StoredUser.username u)) (toLowerCase username))
            users = None ->
  ~ In (toLowerCase username) (lowerNames users).
Proof.
  intros H Hin. unfold lowerNames in Hin. apply in_map_iff in Hin as (u & E & Hu).
  apply (List.find_none _ _ H) in Hu. rewrite E, String.eqb_refl in Hu. discriminate Hu.
Qed.

Section UserManagementFacts.

Variable currentUserRole : UserRole.
Variable WELCOME_SUBJECT : string.
Variable generateWelcomeMessageBody : StoredUser -> string.

(** What [handleAddUser] does when it adds a user. *)
Lemma handleAddUser_added device newId now storedMessages m added :
  UserManagement.writtenUsers
    (UserManagement.handleAddUser currentUserRole WELCOME_SUBJECT generateWelcomeMessageBody
       device newId now storedMessages m) = Some added ->
  isEmpty (trim (UserManagement.newUsername m)) = false /\
  isEmpty (trim (UserManagement.newPassword m)) = false /\
  List.find (fun u => String.eqb (toLowerCase (StoredUser.username u))
                                 (toLowerCase (trim (UserManagement.newUsername m))))
            (UserManagement.users m) = None /\
  (currentUserRole = UniversityLead -> UserManagement.newUserRole m = UniversityID) /\
  UserManagement.users
    (UserManagement.modal
       (UserManagement.handleAddUser currentUserRole WELCOME_SUBJECT generateWelcomeMessageBody
          device newId now storedMessages m)) = added /\
  added = UserManagement.users m
            ++ [ {| StoredUser.username := trim (UserManagement.newUsername m);
                    StoredUser.role := UserManagement.newUserRole m;
                    StoredUser.password := Some (UserManagement.newPassword m) |} ].
Proof.
  unfold UserManagement.handleAddUser.
  destruct (isEmpty (trim (UserManagement.newUsername m))); [discriminate|].
  destruct (isEmpty (trim (UserManagement.newPassword m))); [discriminate|]. cbn [orb].
  destruct (List.find _ (UserManagement.users m)) eqn:Hf; [discriminate|]. cbn [notNull].
  destruct (bool_decide (currentUserRole = UniversityLead)) eqn:Hl; cbn [andb].
  - destruct (UserManagement.newUserRole m) eqn:Hr; cbn [bool_decide decide_rel];
      try discriminate.
    destruct (LocalStorage.reading device LOCAL_STORAGE_INTERNAL_MESSAGES_KEY),
      (LocalStorage.writing device LOCAL_STORAGE_INTERNAL_MESSAGES_KEY); cbn;
      intros H; inversion H; subst; repeat split; reflexivity.
  - apply bool_decide_eq_false in Hl.
    destruct (LocalStorage.reading device LOCAL_STORAGE_INTERNAL_MESSAGES_KEY),
      (LocalStorage.writing device LOCAL_STORAGE_INTERNAL_MESSAGES_KEY); cbn;
      intros H; inversion H; subst; repeat split; try reflexivity; intros; contradiction.
Qed.


Lemma handleAddUser_users device newId now storedMessages m :
  UserManagement.users
    (UserManagement.modal
       (UserManagement.handleAddUser currentUserRole WELCOME_SUBJECT generateWelcomeMessageBody
          device newId now storedMessages m))
  = UserManagement.users m \/
  (List.find (fun u => String.eqb (toLowerCase (StoredUser.username u))
                                  (toLowerCase (trim (UserManagement.newUsername m))))
             (UserManagement.users m) = None /\
   UserManagement.users
     (UserManagement.modal
        (UserManagement.handleAddUser currentUserRole WELCOME_SUBJECT generateWelcomeMessageBody
           device newId now storedMessages m))
   = UserManagement.users m
       ++ [ {| StoredUser.username := trim (UserManagement.newUsername m);
               StoredUser.role := UserManagement.newUserRole m;
               StoredUser.password := Some (UserManagement.newPassword m) |} ]).
Proof.
  destruct (UserManagement.writtenUsers
              (UserManagement.handleAddUser currentUserRole WELCOME_SUBJECT
                 generateWelcomeMessageBody device newId now storedMessages m))
    as [added|] eqn:E.
  - right. apply handleAddUser_added in E as (_ & _ & Hf & _ & -> & ->). auto.
  - left. revert E. unfold UserManagement.handleAddUser, UserManagement.refuse.
    repeat match goal with
           | |- context [if ?b then _ else _] => destruct b
           end;
      try (destruct (LocalStorage.reading device LOCAL_STORAGE_INTERNAL_MESSAGES_KEY),
      (LocalStorage.writing device LOCAL_STORAGE_INTERNAL_MESSAGES_KEY));
      cbn; try discriminate; reflexivity.
Qed.

(** X15: user management only appends users, and no two users get the
    same name up to case.  From its opening on a stored registry on,
    however the form is filled in and submitted, the users of the modal
    are the stored users followed by the added ones; if the stored names
    differ pairwise in lower case, so do the names of the modal, which are
    what it writes to the registry; and a name that is taken, in any case
    of its letters, adds nothing. *)
Theorem X15_registry_grows_with_distinct_names stored m :
  managed currentUserRole WELCOME_SUBJECT generateWelcomeMessageBody stored m ->
  (exists added, UserManagement.users m = stored ++ added) /\
  (NoDup (lowerNames stored) -> NoDup (lowerNames (UserManagement.users m))) /\
  (forall device newId now storedMessages,
      In (toLowerCase (trim (UserManagement.newUsername m)))
         (lowerNames (UserManagement.users m)) ->
      UserManagement.writtenUsers
        (UserManagement.handleAddUser currentUserRole WELCOME_SUBJECT
           generateWelcomeMessageBody device newId now storedMessages m) = None).
Proof.
  intros H. split; [|split].
  - induction H as [|username m _ IH|password m _ IH|r m _ IH|device newId now storedMessages m _ IH].
    + exists []. cbn. rewrite app_nil_r. reflexivity.
    + exact IH.
    + exact IH.
    + exact IH.
    + destruct IH as [added IH].
      destruct (handleAddUser_users device newId now storedMessages m) as [E|[_ E]]; rewrite E, IH.
      * exists added. reflexivity.
      * eexists. rewrite <- app_assoc. reflexivity.
  - intros Hnd.
    induction H as [|username m _ IH|password m _ IH|r m _ IH|device newId now storedMessages m _ IH].
    + exact Hnd.
    + exact IH.
    + exact IH.
    + exact IH.
    + destruct (handleAddUser_users device newId now storedMessages m) as [E|[Hf E]]; rewrite E.
      * exact IH.
      * unfold lowerNames. rewrite List.map_app. apply NoDup_app. split; [exact IH|].
        split; [|apply NoDup_singleton].
        intros x Hx Hx'. cbn in Hx'. apply list_elem_of_singleton in Hx'. subst.
        apply list_elem_of_In in Hx. exact (find_lower_none _ _ Hf Hx).
  - intros device newId now storedMessages Hin.
    destruct (UserManagement.writtenUsers _) as [added|] eqn:E; [|reflexivity].
    apply handleAddUser_added in E as (_ & _ & Hf & _). exfalso.
    exact (find_lower_none _ _ Hf Hin).
Qed.





End UserManagementFacts.

Lemma X15_witness :
  NoDup (lowerNames App.defaultUsers) /\
  NoDup (lowerNames
           (UserManagement.users
              (UserManagement.modal
                 (UserManagement.handleAddUser UniversityLead "Welcome" (fun _ => "Hello")
                    LocalStorage.working "m-9" "2026-01-05T10:00:00.000Z" []
                    sampleAddUser)))).
Proof.
  assert (H : NoDup (lowerNames App.defaultUsers)).
  { apply (bool_decide_unpack _). vm_compute. exact I. }
  split; [exact H|].
  refine (proj1 (proj2 (X15_registry_grows_with_distinct_names UniversityLead "Welcome"
                          (fun _ => "Hello") App.defaultUsers _ _)) H).
  apply managed_add, managed_password, managed_username, managed_open.
Defined.




(** X19: seeding the registry changes nothing for the login.  On the
    registry that the first start seeds, every name and password is
    answered as on the empty registry, where the two built-in credentials
    apply; and a registry that is already stored is left as it is. *)
Theorem X19_seeded_registry_is_the_fallback username password :
  Login.handleSubmit (App.seedDefaultUsers None) username password
  = Login.handleSubmit [] username password /\
  forall stored, App.seedDefaultUsers (Some stored) = stored.
Proof.
  split; [|reflexivity].
  unfold Login.handleSubmit, App.seedDefaultUsers, App.defaultUsers.
  cbn [List.find StoredUser.username StoredUser.password StoredUser.role].
  change (toLowerCase "admin") with "admin". change (toLowerCase "lead") with "lead".
  rewrite (String.eqb_sym "admin"), (String.eqb_sym "lead").
  destruct (String.eqb (toLowerCase username) "admin") eqn:Ea.
  - apply String.eqb_eq in Ea. rewrite Ea. cbn [andb].
    change (String.eqb "admin" "lead") with false.
    cbn [andb StoredUser.username StoredUser.password StoredUser.role].
    rewrite (String.eqb_sym "adminpass"). destruct (String.eqb password "adminpass"); reflexivity.
  - cbn [andb]. destruct (String.eqb (toLowerCase username) "lead") eqn:El;
      cbn [andb StoredUser.username StoredUser.password StoredUser.role].
    + rewrite (String.eqb_sym "leadpass"). destruct (String.eqb password "leadpass"); reflexivity.
    + reflexivity.
Qed.

(* ===================================================================== *)
(** ** The review of a submission and its revision                        *)
(* ===================================================================== *)

(** X20: a decision changes one stored submission and notifies its
    submitter.  When the store can be read and written and the reviewed
    submission is found in it, the first stored submission with its id
    gets the new status and the notes of the modal, and keeps everything
    else; no other submission changes; one unread notification for the
    submitter named in the reviewed copy is appended; the modal closes
    asking for a reload.  When it is not found the store is left as it is
    and the modal closes without a reload.  When reading or writing the
    submissions throws, nothing is stored, an alert says that an error
    occurred and the modal stays open; when the submissions were written
    and reading or writing the notifications throws, the decision is
    stored without a notification, with the same alert and the modal
    open.  In every case the loading flag of the modal is lowered. *)
Theorem X20_decision_updates_one_submission device newStatus newId now store m :
  let o := ReviewModal.handleUpdateSubmissionStatus device newStatus newId now store m in
  ReviewModal.isActionLoading (ReviewModal.modal o) = false /\
  match LocalStorage.reading device LOCAL_STORAGE_SUBMISSIONS_KEY with
  | Some _ =>
      ReviewModal.storage o = store /\
      ReviewModal.alert o = Some "An error occurred while updating the submission status." /\
      ReviewModal.closed o = None
  | None =>
      match findIndex (Submission.id (ReviewModal.submission m))
                      (Storage.accreditationSubmissions store) with
      | Some i =>
          match LocalStorage.writing device LOCAL_STORAGE_SUBMISSIONS_KEY with
          | Some _ =>
              ReviewModal.storage o = store /\
              ReviewModal.alert o
              = Some "An error occurred while updating the submission status." /\
              ReviewModal.closed o = None
          | None =>
              (exists s,
                  Storage.accreditationSubmissions store !! i = Some s /\
                  Submission.id s = Submission.id (ReviewModal.submission m) /\
                  Storage.accreditationSubmissions (ReviewModal.storage o) !! i
                  = Some (withNotes (ReviewModal.currentSubmissionNotes m)
                            (withStatus newStatus s))) /\
              (forall j, j <> i ->
                 Storage.accreditationSubmissions (ReviewModal.storage o) !! j
                 = Storage.accreditationSubmissions store !! j) /\
              List.map Submission.id (Storage.accreditationSubmissions (ReviewModal.storage o))
              = List.map Submission.id (Storage.accreditationSubmissions store) /\
              if answers device LOCAL_STORAGE_SUBMISSION_NOTIFICATIONS_KEY then
                (exists n,
                    Storage.accreditationSubmissionNotifications (ReviewModal.storage o)
                    = Storage.accreditationSubmissionNotifications
                        (addSubmissionNotificationToStorage n store) /\
                    Notification.id n = newId /\
                    Notification.recipientUsername n
                    = Submission.submittedByUsername (ReviewModal.submission m) /\
                    Notification.isRead n = false /\
                    Notification.relatedSubmissionId n
                    = Some (Submission.id (ReviewModal.submission m))) /\
                ReviewModal.closed o = Some true
              else
                Storage.accreditationSubmissionNotifications (ReviewModal.storage o)
                = Storage.accreditationSubmissionNotifications store /\
                ReviewModal.alert o
                = Some "An error occurred while updating the submission status." /\
                ReviewModal.closed o = None
          end
      | None =>
          ReviewModal.storage o = store /\
          ReviewModal.closed o = Some false
      end
  end.
Proof.
  cbv zeta. unfold ReviewModal.handleUpdateSubmissionStatus, answers.
  destruct (LocalStorage.reading device LOCAL_STORAGE_SUBMISSIONS_KEY); [repeat split|].
  destruct (findIndex _ _) as [i|] eqn:Hi; [|repeat split].
  destruct (LocalStorage.writing device LOCAL_STORAGE_SUBMISSIONS_KEY); [repeat split|].
  destruct (findIndex_lookup _ _ _ Hi) as (s & Hs & Hid).
  assert (Hids : List.map Submission.id
                   (alter (fun s0 => withNotes (ReviewModal.currentSubmissionNotes m)
                                       (withStatus newStatus s0))
                          i (Storage.accreditationSubmissions store))
                 = List.map Submission.id (Storage.accreditationSubmissions store)).
  { apply list_eq. intros j. rewrite !list_lookup_fmap.
    destruct (decide (j = i)) as [->|Hj].
    - rewrite list_lookup_alter_eq, Hs. reflexivity.
    - rewrite list_lookup_alter_ne by congruence. reflexivity. }
  destruct (LocalStorage.reading device LOCAL_STORAGE_SUBMISSION_NOTIFICATIONS_KEY),
           (LocalStorage.writing device LOCAL_STORAGE_SUBMISSION_NOTIFICATIONS_KEY);
    cbn [notNull negb andb ReviewModal.storage ReviewModal.closed ReviewModal.alert
         ReviewModal.modal ReviewModal.isActionLoading ReviewModal.setIsActionLoading
         Storage.accreditationSubmissions Storage.accreditationSubmissionNotifications];
    (split; [reflexivity|]);
    (split; [exists s; split; [exact Hs|]; split; [exact Hid|];
             rewrite list_lookup_alter_eq, Hs; reflexivity|]);
    (split; [intros j Hj; apply list_lookup_alter_ne; congruence|]);
    (split; [exact Hids|]);
    try (split; [reflexivity|]; split; reflexivity).
  split; [|reflexivity]. eexists. split; [reflexivity|]. repeat split.
Qed.

Lemma X20_witness :
  Storage.accreditationSubmissions
    (ReviewModal.storage
       (ReviewModal.handleUpdateSubmissionStatus LocalStorage.working approved "n-1"
          "2026-01-02T08:00:00.000Z" (snd secondTabSubmit)
          (ReviewModal.mount
             (nth 0 (Storage.accreditationSubmissions (snd secondTabSubmit))
                  pendingSubmission)))) !! 1%nat
  = Storage.accreditationSubmissions (snd secondTabSubmit) !! 1%nat.
Proof.
  pose proof (X20_decision_updates_one_submission LocalStorage.working approved "n-1"
                "2026-01-02T08:00:00.000Z" (snd secondTabSubmit)
                (ReviewModal.mount
                   (nth 0 (Storage.accreditationSubmissions (snd secondTabSubmit))
                        pendingSubmission))) as H.
  assert (E : findIndex
                (Submission.id
                   (ReviewModal.submission
                      (ReviewModal.mount
                         (nth 0 (Storage.accreditationSubmissions (snd secondTabSubmit))
                              pendingSubmission))))
                (Storage.accreditationSubmissions (snd secondTabSubmit)) = Some 0%nat).
  { vm_compute. reflexivity. }
  cbv zeta in H. cbn [LocalStorage.reading LocalStorage.writing LocalStorage.working] in H.
  rewrite E in H. destruct H as (_ & _ & Hother & _).
  apply Hother. discriminate.
Defined.

Lemma filter_pending_alter (f : Submission -> Submission) id submissions i :
  findIndex id submissions = Some i ->
  NoDup (List.map Submission.id submissions) ->
  (forall s, bool_decide (Submission.status (f s) = pending) = false) ->
  List.filter (fun s => bool_decide (Submission.status s = pending)) (alter f i submissions)
  = pendingOthers id submissions.
Proof.
  intros Hi Hnd Hf. unfold pendingOthers.
  revert i Hi Hnd. induction submissions as [|s l IH]; intros i Hi Hnd; [discriminate Hi|].
  cbn [findIndex] in Hi. cbn [List.map] in Hnd. apply NoDup_cons in Hnd as [Hs Hnd].
  destruct (String.eqb (Submission.id s) id) eqn:E.
  - inversion Hi; subst. unfold alter. cbn [list_alter List.filter]. rewrite Hf, E.
    rewrite andb_false_r. apply String.eqb_eq in E.
    apply List.filter_ext_in. intros x Hx.
    destruct (String.eqb (Submission.id x) id) eqn:Ex; [|rewrite andb_true_r; reflexivity].
    exfalso. apply Hs. apply String.eqb_eq in Ex. rewrite E, <- Ex.
    apply list_elem_of_In, in_map, Hx.
  - destruct (findIndex id l) as [j|] eqn:Hj; [|discriminate Hi]. inversion Hi; subst.
    specialize (IH j eq_refl Hnd). unfold alter in *.
    cbn [list_alter List.filter]. rewrite E. cbn [negb]. rewrite andb_true_r, IH.
    reflexivity.
Qed.

Lemma userPastSubmissions_loadSubmissionsData getTime currentUser store st :
  State.userPastSubmissions (loadSubmissionsData getTime currentUser store st)
  = newestSubmissionFirst getTime
      (List.filter (fun s => isOwn currentUser s && isDecided s)
                   (Storage.accreditationSubmissions store)).
Proof. unfold loadSubmissionsData. by_cases_on_matches. Qed.

Lemma submissionsForReview_closeSubmissionReviewModal getTime currentUser store st :
  User.role currentUser <> UniversityID ->
  State.submissionsForReview
    (handleCloseSubmissionReviewModal getTime currentUser true store st)
  = newestSubmissionFirst getTime
      (List.filter isPending (Storage.accreditationSubmissions store)).
Proof.
  intros H. unfold handleCloseSubmissionReviewModal.
  destruct (User.role currentUser); [reflexivity | reflexivity | contradiction].
Qed.

(** The submissions that a decision leaves in the store, once they were
    read, the reviewed one found and the submissions written: whatever
    becomes of the notification. *)
Lemma decision_stored device newStatus newId now store m i :
  LocalStorage.reading device LOCAL_STORAGE_SUBMISSIONS_KEY = None ->
  LocalStorage.writing device LOCAL_STORAGE_SUBMISSIONS_KEY = None ->
  findIndex (Submission.id (ReviewModal.submission m))
            (Storage.accreditationSubmissions store) = Some i ->
  Storage.accreditationSubmissions
    (ReviewModal.storage
       (ReviewModal.handleUpdateSubmissionStatus device newStatus newId now store m))
  = alter (fun s => withNotes (ReviewModal.currentSubmissionNotes m) (withStatus newStatus s))
          i (Storage.accreditationSubmissions store).
Proof.
  intros Hread Hwrite Hi. unfold ReviewModal.handleUpdateSubmissionStatus.
  rewrite Hread, Hi, Hwrite.
  destruct (LocalStorage.reading device LOCAL_STORAGE_SUBMISSION_NOTIFICATIONS_KEY),
           (LocalStorage.writing device LOCAL_STORAGE_SUBMISSION_NOTIFICATIONS_KEY);
    reflexivity.
Qed.

(** X21: a decided submission leaves the review list.  When the ids of
    the stored submissions are distinct and the decision was stored, the
    submissions and the notifications being read and written, the modal
    closes asking for a reload, and the list that the page of the Admin or
    University Lead reloads on closing the modal holds the other pending
    submissions of the store and no submission with the id of the decided
    one; every other pending submission is still in it. *)
Theorem X21_decided_submission_leaves_review_list getTime currentUser device newStatus newId
    now store m st i :
  User.role currentUser <> UniversityID ->
  newStatus <> pending ->
  NoDup (List.map Submission.id (Storage.accreditationSubmissions store)) ->
  answers device LOCAL_STORAGE_SUBMISSIONS_KEY = true ->
  answers device LOCAL_STORAGE_SUBMISSION_NOTIFICATIONS_KEY = true ->
  findIndex (Submission.id (ReviewModal.submission m))
            (Storage.accreditationSubmissions store) = Some i ->
  ReviewModal.closed
    (ReviewModal.handleUpdateSubmissionStatus device newStatus newId now store m) = Some true /\
  Permutation
    (State.submissionsForReview
       (handleCloseSubmissionReviewModal getTime currentUser true
          (ReviewModal.storage
             (ReviewModal.handleUpdateSubmissionStatus device newStatus newId now store m)) st))
    (pendingOthers (Submission.id (ReviewModal.submission m))
                   (Storage.accreditationSubmissions store)) /\
  Forall (fun s => Submission.id s <> Submission.id (ReviewModal.submission m))
    (State.submissionsForReview
       (handleCloseSubmissionReviewModal getTime currentUser true
          (ReviewModal.storage
             (ReviewModal.handleUpdateSubmissionStatus device newStatus newId now store m)) st)).
Proof.
  intros Hrole Hstatus Hnd HS HN Hi. unfold answers in HS, HN.
  destruct (LocalStorage.reading device LOCAL_STORAGE_SUBMISSIONS_KEY) eqn:Hread;
    [discriminate HS|].
  destruct (LocalStorage.writing device LOCAL_STORAGE_SUBMISSIONS_KEY) eqn:Hwrite;
    [discriminate HS|].
  split.
  { unfold ReviewModal.handleUpdateSubmissionStatus. rewrite Hread, Hi, Hwrite.
    destruct (LocalStorage.reading device LOCAL_STORAGE_SUBMISSION_NOTIFICATIONS_KEY);
      [discriminate HN|].
    destruct (LocalStorage.writing device LOCAL_STORAGE_SUBMISSION_NOTIFICATIONS_KEY);
      [discriminate HN|].
    reflexivity. }
  rewrite submissionsForReview_closeSubmissionReviewModal by exact Hrole.
  rewrite (decision_stored _ _ _ _ _ _ _ Hread Hwrite Hi).
  unfold isPending.
  rewrite (filter_pending_alter _ _ _ _ Hi Hnd).
  - split; [apply sortNewestFirst_perm|].
    apply List.Forall_forall. intros s Hs.
    apply (Permutation_in _ (sortNewestFirst_perm _ _)) in Hs.
    apply filter_In in Hs as [_ Hs]. apply andb_true_iff in Hs as [_ Hs].
    apply negb_true_iff, String.eqb_neq in Hs. exact Hs.
  - intros s. apply bool_decide_eq_false_2. exact Hstatus.
Qed.

Lemma X21_witness :
  ReviewModal.closed sampleDecision = Some true /\
  Permutation
    (State.submissionsForReview
       (handleCloseSubmissionReviewModal epoch lead1 true
          (ReviewModal.storage sampleDecision) leadState))
    (pendingOthers (Submission.id (ReviewModal.submission sampleReview))
                   (Storage.accreditationSubmissions (ReviewModal.storage firstVisit))) /\
  Forall (fun s => Submission.id s <> Submission.id (ReviewModal.submission sampleReview))
    (State.submissionsForReview
       (handleCloseSubmissionReviewModal epoch lead1 true
          (ReviewModal.storage sampleDecision) leadState)).
Proof.
  apply (X21_decided_submission_leaves_review_list epoch lead1 LocalStorage.working rejected
           "n-1" "2026-01-02T10:00:00.000Z" (ReviewModal.storage firstVisit) sampleReview
           leadState 0).
  - discriminate.
  - discriminate.
  - apply (bool_decide_unpack _). vm_compute. exact I.
  - reflexivity.
  - reflexivity.
  - vm_compute. reflexivity.
Defined.

(** X22: the submitter finds the decision.  After a decision that was
    stored, the submissions being read and written, the past submissions
    that the page of the stored submission's submitter loads hold that
    submission with its new status and with the notes the review modal
    had. *)
Theorem X22_submitter_sees_decision getTime submitter device newStatus newId now store m st
    i s :
  LocalStorage.reading device LOCAL_STORAGE_SUBMISSIONS_KEY = None ->
  LocalStorage.writing device LOCAL_STORAGE_SUBMISSIONS_KEY = None ->
  findIndex (Submission.id (ReviewModal.submission m))
            (Storage.accreditationSubmissions store) = Some i ->
  Storage.accreditationSubmissions store !! i = Some s ->
  newStatus <> pending ->
  User.username submitter = Submission.submittedByUsername s ->
  In (withNotes (ReviewModal.currentSubmissionNotes m) (withStatus newStatus s))
     (State.userPastSubmissions
        (loadSubmissionsData getTime submitter
           (ReviewModal.storage
              (ReviewModal.handleUpdateSubmissionStatus device newStatus newId now store m))
           st)).
Proof.
  intros Hread Hwrite Hi Hs Hstatus Hname. rewrite userPastSubmissions_loadSubmissionsData.
  apply (Permutation_in _ (Permutation_sym (sortNewestFirst_perm _ _))).
  apply filter_In. split.
  - rewrite (decision_stored _ _ _ _ _ _ _ Hread Hwrite Hi).
    apply list_elem_of_In, list_elem_of_lookup. exists i.
    rewrite list_lookup_alter_eq, Hs. reflexivity.
  - unfold isOwn, isDecided. cbn [withNotes withStatus Submission.submittedByUsername
      Submission.status]. rewrite <- Hname, String.eqb_refl.
    destruct newStatus; [contradiction | reflexivity | reflexivity].
Qed.

Lemma X22_witness :
  In (withNotes (ReviewModal.currentSubmissionNotes sampleReview)
                (withStatus rejected pendingSubmission))
     (State.userPastSubmissions
        (loadSubmissionsData epoch u1 (ReviewModal.storage sampleDecision) initialState)).
Proof.
  apply (X22_submitter_sees_decision epoch u1 LocalStorage.working rejected "n-1"
           "2026-01-02T10:00:00.000Z" (ReviewModal.storage firstVisit) sampleReview
           initialState 0
           (withNotes (ReviewModal.currentSubmissionNotes sampleReview) pendingSubmission)).
  - reflexivity.
  - reflexivity.
  - vm_compute. reflexivity.
  - vm_compute. reflexivity.
  - discriminate.
  - reflexivity.
Defined.

Lemma handleSubmitForReview_refused getTime currentUser device newId now store st :
  State.analysisResults st = None \/ isEmpty (State.programContent st) = true ->
  handleSubmitForReview getTime currentUser device newId now store st
  = (State.setError (Some MISSING_FOR_REVIEW) st, store).
Proof.
  intros [H|H]; unfold handleSubmitForReview; rewrite H; [reflexivity|].
  destruct (State.analysisResults st); reflexivity.
Qed.

(** What the [catch] of [handleSubmitForReview] leaves. *)
Lemma handleSubmitForReview_caught getTime currentUser device newId now store st results e :
  State.analysisResults st = Some results ->
  isEmpty (State.programContent st) = false ->
  LocalStorage.reading device LOCAL_STORAGE_SUBMISSIONS_KEY = Some e \/
  (LocalStorage.reading device LOCAL_STORAGE_SUBMISSIONS_KEY = None /\
   LocalStorage.writing device LOCAL_STORAGE_SUBMISSIONS_KEY = Some e) ->
  handleSubmitForReview getTime currentUser device newId now store st
  = (State.setIsSubmitting false
       (State.setError
          (Some ("Failed to submit for review: " +:+ errorMessage e +:+ ". Please try again."))
          (State.setIsSubmitting true st)),
     store).
Proof.
  intros Hres Hcontent Hthrown. unfold handleSubmitForReview. rewrite Hres, Hcontent.
  destruct Hthrown as [Hread | [Hread Hwrite]]; rewrite Hread; [|rewrite Hwrite]; reflexivity.
Qed.

(** X23: a revision is a new submission.  Right after a past submission
    is loaded for revision, also once the effect on the revision cell has
    loaded the stored submissions, nothing can be submitted, since the
    results are cleared and a new analysis is needed.  Once results are
    there again and the store can be read and written, submitting appends
    a new pending submission that carries the notes of the submission
    under revision, with the content, the bodies and the results of the
    page; the stored submissions, the revised one among them, and the
    notifications are left as they are, and the revision is over.  When
    reading or writing the store throws, nothing is stored, the page
    shows the message of what was thrown, and the revision, the results
    and the content stay. *)
Theorem X23_revision_is_a_new_submission getTime currentUser sub device newId now store :
  (forall st,
      handleSubmitForReview getTime currentUser device newId now store
        (handleLoadForRevision sub st)
      = (State.setError (Some MISSING_FOR_REVIEW) (handleLoadForRevision sub st), store)) /\
  (forall loaded st,
      handleSubmitForReview getTime currentUser device newId now store
        (loadSubmissionsData getTime currentUser loaded (handleLoadForRevision sub st))
      = (State.setError (Some MISSING_FOR_REVIEW)
           (loadSubmissionsData getTime currentUser loaded (handleLoadForRevision sub st)),
         store)) /\
  (forall st0 st results,
      State.revisingSubmissionInfo st
      = State.revisingSubmissionInfo (handleLoadForRevision sub st0) ->
      State.analysisResults st = Some results ->
      isEmpty (State.programContent st) = false ->
      LocalStorage.reading device LOCAL_STORAGE_SUBMISSIONS_KEY = None ->
      LocalStorage.writing device LOCAL_STORAGE_SUBMISSIONS_KEY = None ->
      exists s,
        Storage.accreditationSubmissions
          (snd (handleSubmitForReview getTime currentUser device newId now store st))
        = Storage.accreditationSubmissions store ++ [s] /\
        Submission.id s = newId /\
        Submission.status s = pending /\
        Submission.notes s = Submission.notes sub /\
        Submission.programContent s = State.programContent st /\
        Submission.selectedBodyKeys s = State.selectedBodyKeys st /\
        Submission.analysisResults s = results /\
        Storage.accreditationSubmissionNotifications
          (snd (handleSubmitForReview getTime currentUser device newId now store st))
        = Storage.accreditationSubmissionNotifications store /\
        State.revisingSubmissionInfo
          (fst (handleSubmitForReview getTime currentUser device newId now store st)) = None) /\
  (forall st results e,
      State.analysisResults st = Some results ->
      isEmpty (State.programContent st) = false ->
      LocalStorage.reading device LOCAL_STORAGE_SUBMISSIONS_KEY = Some e \/
      (LocalStorage.reading device LOCAL_STORAGE_SUBMISSIONS_KEY = None /\
       LocalStorage.writing device LOCAL_STORAGE_SUBMISSIONS_KEY = Some e) ->
      snd (handleSubmitForReview getTime currentUser device newId now store st) = store /\
      State.error (fst (handleSubmitForReview getTime currentUser device newId now store st))
      = Some ("Failed to submit for review: " +:+ errorMessage e +:+ ". Please try again.") /\
      State.revisingSubmissionInfo
        (fst (handleSubmitForReview getTime currentUser device newId now store st))
      = State.revisingSubmissionInfo st /\
      State.analysisResults
        (fst (handleSubmitForReview getTime currentUser device newId now store st))
      = Some results /\
      State.programContent
        (fst (handleSubmitForReview getTime currentUser device newId now store st))
      = State.programContent st).
Proof.
  split; [|split; [|split]].
  - intros st. reflexivity.
  - intros loaded st. apply handleSubmitForReview_refused. left.
    unfold loadSubmissionsData. by_cases_on_matches.
  - intros st0 st results Hrev Hres Hcontent Hread Hwrite. unfold handleSubmitForReview.
    rewrite Hres, Hcontent, Hrev, Hread, Hwrite.
    cbn [snd fst Storage.accreditationSubmissions
      Storage.accreditationSubmissionNotifications].
    eexists. split; [reflexivity|]. repeat split.
    destruct (bool_decide _); reflexivity.
  - intros st results e Hres Hcontent Hthrown.
    rewrite (handleSubmitForReview_caught _ _ _ _ _ _ _ _ _ Hres Hcontent Hthrown).
    cbn [fst snd]. repeat split. exact Hres.
Qed.

Lemma X23_witness :
  exists s,
    Storage.accreditationSubmissions
      (snd (handleSubmitForReview epoch u1 LocalStorage.working "id-3"
              "2026-01-04T10:00:00.000Z" raceStorage sampleRevised))
    = Storage.accreditationSubmissions raceStorage ++ [s] /\
    Submission.id s = "id-3" /\
    Submission.status s = pending /\
    Submission.notes s = Submission.notes rejectedSubmission.
Proof.
  destruct (proj1 (proj2 (proj2
              (X23_revision_is_a_new_submission epoch u1 rejectedSubmission
                 LocalStorage.working "id-3" "2026-01-04T10:00:00.000Z" raceStorage)))
              raceMounted sampleRevised
              (fulfilledOf (List.map (analyzeBody adaOnly) ["ADA"]))
              eq_refl eq_refl eq_refl eq_refl eq_refl)
    as (s & H1 & H2 & H3 & H4 & _).
  exists s. repeat split; assumption.
Defined.

(** X24: a second submission right after a first.  When the first run of
    [handleSubmitForReview] stored a submission, or reported that results
    or content are missing, a second run on the state and the store it
    leaves, also once the stored submissions were loaded again, and
    whether the store answers or throws, only reports that results or
    content are missing and leaves the store as it is: a submission is not
    stored twice.  When reading or writing the store threw in the first
    run, nothing was stored, the results and the content are kept, and a
    second run on a store that answers stores the submission. *)
Theorem X24_second_submit_is_refused getTime currentUser device newId now store st :
  (State.analysisResults st = None \/
   isEmpty (State.programContent st) = true \/
   answers device LOCAL_STORAGE_SUBMISSIONS_KEY = true ->
   forall device' newId' now',
     handleSubmitForReview getTime currentUser device' newId' now'
       (snd (handleSubmitForReview getTime currentUser device newId now store st))
       (fst (handleSubmitForReview getTime currentUser device newId now store st))
     = (State.setError (Some MISSING_FOR_REVIEW)
          (fst (handleSubmitForReview getTime currentUser device newId now store st)),
        snd (handleSubmitForReview getTime currentUser device newId now store st)) /\
     handleSubmitForReview getTime currentUser device' newId' now'
       (snd (handleSubmitForReview getTime currentUser device newId now store st))
       (loadSubmissionsData getTime currentUser
          (snd (handleSubmitForReview getTime currentUser device newId now store st))
          (fst (handleSubmitForReview getTime currentUser device newId now store st)))
     = (State.setError (Some MISSING_FOR_REVIEW)
          (loadSubmissionsData getTime currentUser
             (snd (handleSubmitForReview getTime currentUser device newId now store st))
             (fst (handleSubmitForReview getTime currentUser device newId now store st))),
        snd (handleSubmitForReview getTime currentUser device newId now store st))) /\
  (forall results,
      State.analysisResults st = Some results ->
      isEmpty (State.programContent st) = false ->
      answers device LOCAL_STORAGE_SUBMISSIONS_KEY = false ->
      snd (handleSubmitForReview getTime currentUser device newId now store st) = store /\
      State.analysisResults
        (fst (handleSubmitForReview getTime currentUser device newId now store st))
      = Some results /\
      State.programContent
        (fst (handleSubmitForReview getTime currentUser device newId now store st))
      = State.programContent st /\
      State.isSubmitting
        (fst (handleSubmitForReview getTime currentUser device newId now store st)) = false /\
      (exists e,
          State.error
            (fst (handleSubmitForReview getTime currentUser device newId now store st))
          = Some ("Failed to submit for review: " +:+ errorMessage e
                    +:+ ". Please try again.")) /\
      forall newId' now',
      exists s,
        Storage.accreditationSubmissions
          (snd (handleSubmitForReview getTime currentUser LocalStorage.working newId' now'
                  store
                  (fst (handleSubmitForReview getTime currentUser device newId now store st))))
        = Storage.accreditationSubmissions store ++ [s] /\
        Submission.id s = newId' /\
        Submission.status s = pending).
Proof.
  split.
  - intros Hfirst device' newId' now'.
    assert (Hnone : State.analysisResults
                      (fst (handleSubmitForReview getTime currentUser device newId now store st))
                    = None \/
                    isEmpty (State.programContent
                               (fst (handleSubmitForReview getTime currentUser device newId now
                                       store st))) = true).
    { unfold handleSubmitForReview, answers in *.
      destruct (State.analysisResults st) as [results|] eqn:R; [|left; exact R].
      destruct (isEmpty (State.programContent st)) eqn:C; [right; exact C|].
      destruct Hfirst as [H|[H|H]]; [discriminate H | discriminate H |].
      destruct (LocalStorage.reading device LOCAL_STORAGE_SUBMISSIONS_KEY);
        [discriminate H|].
      destruct (LocalStorage.writing device LOCAL_STORAGE_SUBMISSIONS_KEY);
        [discriminate H|].
      left. destruct (bool_decide _); reflexivity. }
    split; apply handleSubmitForReview_refused; [exact Hnone|].
    destruct Hnone as [H|H]; [left | right]; rewrite <- H;
      unfold loadSubmissionsData; by_cases_on_matches.
  - intros results Hres Hcontent Hno.
    assert (Hthrown : exists e,
               LocalStorage.reading device LOCAL_STORAGE_SUBMISSIONS_KEY = Some e \/
               (LocalStorage.reading device LOCAL_STORAGE_SUBMISSIONS_KEY = None /\
                LocalStorage.writing device LOCAL_STORAGE_SUBMISSIONS_KEY = Some e)).
    { unfold answers in Hno.
      destruct (LocalStorage.reading device LOCAL_STORAGE_SUBMISSIONS_KEY) as [e|];
        [exists e; left; reflexivity|].
      destruct (LocalStorage.writing device LOCAL_STORAGE_SUBMISSIONS_KEY) as [e|];
        [exists e; right; split; reflexivity | discriminate Hno]. }
    destruct Hthrown as [e Hthrown].
    rewrite (handleSubmitForReview_caught _ _ _ _ _ _ _ _ _ Hres Hcontent Hthrown).
    cbn [fst snd]. split; [reflexivity|]. split; [exact Hres|]. split; [reflexivity|].
    split; [reflexivity|]. split; [exists e; reflexivity|].
    intros newId' now'. unfold handleSubmitForReview.
    cbn [State.analysisResults State.programContent State.setIsSubmitting State.setError].
    rewrite Hres, Hcontent.
    cbn [LocalStorage.reading LocalStorage.writing LocalStorage.working snd
         Storage.accreditationSubmissions].
    eexists. split; [reflexivity|]. split; reflexivity.
Qed.

Lemma X24_witness :
  handleSubmitForReview epoch u1 LocalStorage.working "id-2" "2026-01-01T10:05:00.000Z"
    (snd firstTabSubmit) (fst firstTabSubmit)
  = (State.setError (Some MISSING_FOR_REVIEW) (fst firstTabSubmit), snd firstTabSubmit).
Proof.
  apply (proj1 (X24_second_submit_is_refused epoch u1 LocalStorage.working "id-1"
                  "2026-01-01T10:00:00.000Z" emptyStorage analysedState)).
  right. right. reflexivity.
Defined.

(** X27: what the page lists after loading the submissions.  The past
    submissions are the current user's own decided submissions, newest
    first.  An Admin or a University Lead is shown every pending
    submission of the store, whoever submitted it, newest first; a
    University ID user is shown none. *)
Theorem X27_submission_lists getTime currentUser store st :
  Permutation
    (State.userPastSubmissions (loadSubmissionsData getTime currentUser store st))
    (List.filter (fun s => isOwn currentUser s && isDecided s)
                 (Storage.accreditationSubmissions store)) /\
  Sorted (notOlder (fun s => getTime (Submission.submittedAt s)))
    (State.userPastSubmissions (loadSubmissionsData getTime currentUser store st)) /\
  match User.role currentUser with
  | UniversityID =>
      State.submissionsForReview (loadSubmissionsData getTime currentUser store st) = []
  | Admin | UniversityLead =>
      Permutation
        (State.submissionsForReview (loadSubmissionsData getTime currentUser store st))
        (List.filter isPending (Storage.accreditationSubmissions store)) /\
      Sorted (notOlder (fun s => getTime (Submission.submittedAt s)))
        (State.submissionsForReview (loadSubmissionsData getTime currentUser store st))
  end.
Proof.
  rewrite userPastSubmissions_loadSubmissionsData.
  split; [apply sortNewestFirst_perm|]. split; [apply sortNewestFirst_sorted|].
  unfold loadSubmissionsData. destruct (User.role currentUser).
  - split; [apply sortNewestFirst_perm | apply sortNewestFirst_sorted].
  - split; [apply sortNewestFirst_perm | apply sortNewestFirst_sorted].
  - reflexivity.
Qed.

(** X28: cancelling a revision gives a blank page and puts the guard on a
    pending submission back.  After the click and the reload of the stored
    submissions that it triggers there is no revision, no content, no
    selection and no result, so nothing can be submitted and the Analyze
    button is disabled.  For a University ID user the pending flag is set
    exactly when the store holds a pending submission of the user: then
    the file input is disabled and the page says that a submission is
    pending; otherwise the page shows no error and the file input is
    disabled only while something is loading, parsed or submitted.  For an
    Admin or University Lead the guard is off and the page shows no
    error. *)
Theorem X28_cancel_revision getTime currentUser device newId now store st :
  State.revisingSubmissionInfo (cancelRevisionClick getTime currentUser store st) = None /\
  State.programContent (cancelRevisionClick getTime currentUser store st) = "" /\
  State.selectedBodyKeys (cancelRevisionClick getTime currentUser store st) = [] /\
  resultsSectionRendered (cancelRevisionClick getTime currentUser store st) = false /\
  analyzeButtonDisabled currentUser (cancelRevisionClick getTime currentUser store st) = true /\
  snd (handleSubmitForReview getTime currentUser device newId now store
         (cancelRevisionClick getTime currentUser store st)) = store /\
  (User.role currentUser = UniversityID ->
   State.hasPendingSubmission (cancelRevisionClick getTime currentUser store st)
   = negb (bool_decide (pendingOf (User.username currentUser)
                                  (Storage.accreditationSubmissions store) = [])) /\
   pendingGuard currentUser (cancelRevisionClick getTime currentUser store st)
   = State.hasPendingSubmission (cancelRevisionClick getTime currentUser store st) /\
   fileInputDisabled currentUser (cancelRevisionClick getTime currentUser store st)
   = (State.isLoading st || State.isFileParsing st || State.isSubmitting st
      || State.hasPendingSubmission (cancelRevisionClick getTime currentUser store st)) /\
   State.error (cancelRevisionClick getTime currentUser store st)
   = if State.hasPendingSubmission (cancelRevisionClick getTime currentUser store st)
     then Some PENDING_REVIEW_LOAD else None) /\
  (User.role currentUser <> UniversityID ->
   pendingGuard currentUser (cancelRevisionClick getTime currentUser store st) = false /\
   State.error (cancelRevisionClick getTime currentUser store st) = None).
Proof.
  unfold cancelRevisionClick.
  assert (Hload : forall st0,
             State.revisingSubmissionInfo (loadSubmissionsData getTime currentUser store st0)
             = State.revisingSubmissionInfo st0 /\
             State.programContent (loadSubmissionsData getTime currentUser store st0)
             = State.programContent st0 /\
             State.selectedBodyKeys (loadSubmissionsData getTime currentUser store st0)
             = State.selectedBodyKeys st0 /\
             State.analysisResults (loadSubmissionsData getTime currentUser store st0)
             = State.analysisResults st0 /\
             State.isLoading (loadSubmissionsData getTime currentUser store st0)
             = State.isLoading st0 /\
             State.isFileParsing (loadSubmissionsData getTime currentUser store st0)
             = State.isFileParsing st0 /\
             State.isSubmitting (loadSubmissionsData getTime currentUser store st0)
             = State.isSubmitting st0).
  { intros st0. unfold loadSubmissionsData. repeat split; by_cases_on_matches. }
  destruct (Hload (cancelRevision currentUser st)) as (Hrev & Hc & Hk & Hres & Hl & Hp & Hs).
  split; [rewrite Hrev; reflexivity|]. split; [rewrite Hc; reflexivity|].
  split; [rewrite Hk; reflexivity|].
  split; [unfold resultsSectionRendered; rewrite Hres; reflexivity|].
  split; [unfold analyzeButtonDisabled; rewrite Hc; cbn [cancelRevision State.programContent
            State.setError State.setSelectedBodyKeys State.setAnalysisResults
            State.setProgramContent];
          change (isEmpty (trim "")) with true; rewrite orb_true_r; reflexivity|].
  split; [unfold handleSubmitForReview; rewrite Hres; reflexivity|].
  split.
  - intros Hrole.
    assert (Hflag : State.hasPendingSubmission
                      (loadSubmissionsData getTime currentUser store
                         (cancelRevision currentUser st))
                    = negb (bool_decide (pendingOf (User.username currentUser)
                                           (Storage.accreditationSubmissions store) = []))).
    { unfold loadSubmissionsData. rewrite Hrole. rewrite <- pendingOf_find.
      destruct (List.find isPending _); reflexivity. }
    split; [exact Hflag|].
    unfold pendingGuard, fileInputDisabled, mainAnalysisDisabled.
    rewrite Hrev, Hl, Hp, Hs, (bool_decide_eq_true_2 _ Hrole).
    cbn [cancelRevision State.revisingSubmissionInfo State.isLoading State.isFileParsing
         State.isSubmitting State.setError State.setSelectedBodyKeys State.setAnalysisResults
         State.setProgramContent State.setRevisingSubmissionInfo notNull negb].
    rewrite !andb_true_r. split; [reflexivity|]. split; [reflexivity|].
    rewrite Hflag. unfold loadSubmissionsData. rewrite Hrole. rewrite <- pendingOf_find.
    destruct (List.find (isPending) _); reflexivity.
  - intros Hrole. unfold pendingGuard.
    rewrite (bool_decide_eq_false_2 _ Hrole), andb_false_r. split; [reflexivity|].
    unfold loadSubmissionsData, cancelRevision.
    rewrite (bool_decide_eq_false_2 _ Hrole), andb_false_r.
    destruct (User.role currentUser); [reflexivity | reflexivity | contradiction].
Qed.

Lemma X28_witness :
  State.hasPendingSubmission (cancelRevisionClick epoch u1 (snd firstTabSubmit) sampleRevised)
  = negb (bool_decide (pendingOf (User.username u1)
                                 (Storage.accreditationSubmissions (snd firstTabSubmit)) = [])) /\
  pendingGuard u1 (cancelRevisionClick epoch u1 (snd firstTabSubmit) sampleRevised)
  = State.hasPendingSubmission (cancelRevisionClick epoch u1 (snd firstTabSubmit) sampleRevised) /\
  fileInputDisabled u1 (cancelRevisionClick epoch u1 (snd firstTabSubmit) sampleRevised)
  = (State.isLoading sampleRevised || State.isFileParsing sampleRevised
     || State.isSubmitting sampleRevised
     || State.hasPendingSubmission
          (cancelRevisionClick epoch u1 (snd firstTabSubmit) sampleRevised)) /\
  State.error (cancelRevisionClick epoch u1 (snd firstTabSubmit) sampleRevised)
  = if State.hasPendingSubmission
         (cancelRevisionClick epoch u1 (snd firstTabSubmit) sampleRevised)
    then Some PENDING_REVIEW_LOAD else None.
Proof.
  apply (proj1 (proj2 (proj2 (proj2 (proj2 (proj2 (proj2
           (X28_cancel_revision epoch u1 LocalStorage.working "id-3"
              "2026-01-04T10:00:00.000Z" (snd firstTabSubmit) sampleRevised)))))))).
  reflexivity.
Defined.

(** X30: choosing a file.  While the file is read, outside a revision,
    the file input and the Analyze button are disabled, and the results
    are gone, so the results section is not rendered.  If the file cannot
    be processed the content is left empty with an error that starts with
    "Failed to process file: ", so the Analyze button stays disabled and
    an analysis is refused for want of content; if it can, the content is
    the text of the file and the error is cleared.  Either way the page
    stops showing that a file is being read. *)
Theorem X30_file_change currentUser ai st :
  (State.revisingSubmissionInfo st = None ->
   fileInputDisabled currentUser (beginFileChange st) = true /\
   analyzeButtonDisabled currentUser (beginFileChange st) = true) /\
  resultsSectionRendered (beginFileChange st) = false /\
  (forall e,
      State.programContent (finishFileChange (Throw e) st) = "" /\
      (exists message,
          State.error (finishFileChange (Throw e) st)
          = Some ("Failed to process file: " +:+ message)) /\
      State.isFileParsing (finishFileChange (Throw e) st) = false /\
      analyzeButtonDisabled currentUser (finishFileChange (Throw e) st) = true /\
      handleSubmitAnalysis currentUser ai (finishFileChange (Throw e) st)
      = State.setError (Some "Please enter or upload program content.")
          (finishFileChange (Throw e) st)) /\
  (forall text,
      State.programContent (finishFileChange (Ok text) st) = text /\
      State.error (finishFileChange (Ok text) st) = None /\
      State.isFileParsing (finishFileChange (Ok text) st) = false).
Proof.
  split; [|split; [reflexivity|split]].
  - intros Hrev. unfold fileInputDisabled, analyzeButtonDisabled, mainAnalysisDisabled,
      beginFileChange.
    cbn [State.isLoading State.isFileParsing State.isSubmitting State.hasPendingSubmission
         State.revisingSubmissionInfo State.programContent State.selectedBodyKeys
         State.setAnalysisResults State.setProgramContent State.setError
         State.setIsFileParsing].
    rewrite Hrev. cbn [notNull negb]. rewrite !orb_true_r. split; reflexivity.
  - intros e. split; [reflexivity|]. split; [eexists; reflexivity|]. split; [reflexivity|].
    split.
    + unfold analyzeButtonDisabled, finishFileChange.
      cbn [State.programContent State.setIsFileParsing State.setProgramContent].
      change (isEmpty (trim "")) with true. rewrite orb_true_r. reflexivity.
    + reflexivity.
  - intros text. repeat split.
Qed.

Lemma X30_witness :
  fileInputDisabled u1 (beginFileChange typedState) = true /\
  analyzeButtonDisabled u1 (beginFileChange typedState) = true.
Proof.
  apply (proj1 (X30_file_change u1 adaOnly typedState)). reflexivity.
Defined.

(* ===================================================================== *)
(** ** The normal form of an id and the failures of an analysis           *)
(* ===================================================================== *)

Lemma lowerChar_idempotent c : lowerChar (lowerChar c) = lowerChar c.
Proof. destruct c as [[] [] [] [] [] [] [] []]; reflexivity. Qed.

Lemma isWhiteSpace_lowerChar c : isWhiteSpace (lowerChar c) = isWhiteSpace c.
Proof. destruct c as [[] [] [] [] [] [] [] []]; reflexivity. Qed.

Lemma isHyphen_lowerChar c : isHyphen (lowerChar c) = isHyphen c.
Proof. destruct c as [[] [] [] [] [] [] [] []]; reflexivity. Qed.

Lemma toLowerCase_idempotent s : toLowerCase (toLowerCase s) = toLowerCase s.
Proof.
  induction s as [|c s IH]; [reflexivity|]. cbn [toLowerCase].
  rewrite lowerChar_idempotent, IH. reflexivity.
Qed.

Lemma removeAll_idempotent p s : removeAll p (removeAll p s) = removeAll p s.
Proof.
  induction s as [|c s IH]; [reflexivity|]. cbn [removeAll].
  destruct (p c) eqn:E; [exact IH|]. cbn [removeAll]. rewrite E, IH. reflexivity.
Qed.

Lemma removeAll_comm p q s : removeAll p (removeAll q s) = removeAll q (removeAll p s).
Proof.
  induction s as [|c s IH]; [reflexivity|]. cbn [removeAll].
  destruct (p c) eqn:Ep, (q c) eqn:Eq; cbn [removeAll]; rewrite ?Ep, ?Eq, IH; reflexivity.
Qed.

Lemma toLowerCase_removeAll p s :
  (forall c, p (lowerChar c) = p c) ->
  toLowerCase (removeAll p s) = removeAll p (toLowerCase s).
Proof.
  intros Hp. induction s as [|c s IH]; [reflexivity|]. cbn [removeAll toLowerCase].
  rewrite Hp. destruct (p c); cbn [toLowerCase]; rewrite IH; reflexivity.
Qed.

Lemma normalizeString_idempotent s : normalizeString (normalizeString s) = normalizeString s.
Proof.
  unfold normalizeString.
  rewrite !(toLowerCase_removeAll isHyphen) by apply isHyphen_lowerChar.
  rewrite !(toLowerCase_removeAll isWhiteSpace) by apply isWhiteSpace_lowerChar.
  rewrite toLowerCase_idempotent.
  rewrite (removeAll_comm isWhiteSpace isHyphen), !removeAll_idempotent.
  reflexivity.
Qed.

(** X25: the normal form under which ids are compared is stable, for
    the ids that are strings of this development: code units up to U+00FF
    (Basic Latin and Latin-1), as every id of the catalog is.  Such an id
    has the same normal form as its lower-case form, as the id without its
    white space, as the id without its hyphens, and as its normal form
    itself; so each of these is matched to the same catalog standard of a
    body as the id.  Nothing is said of ids with code units beyond U+00FF,
    where [toLowerCase] looks at the neighbours of a letter (a capital
    sigma at the end of a word). *)
Theorem X25_normal_form_is_stable s :
  normalizeId (VStr (toLowerCase s)) = normalizeId (VStr s) /\
  normalizeId (VStr (removeAll isWhiteSpace s)) = normalizeId (VStr s) /\
  normalizeId (VStr (removeAll isHyphen s)) = normalizeId (VStr s) /\
  normalizeId (VStr (normalizeString s)) = normalizeId (VStr s) /\
  (forall body,
      findMatchedStandard body (VStr (normalizeString s)) = findMatchedStandard body (VStr s)).
Proof.
  rewrite !normalizeId_VStr. repeat split.
  - unfold normalizeString. rewrite toLowerCase_idempotent. reflexivity.
  - unfold normalizeString.
    rewrite (toLowerCase_removeAll isWhiteSpace) by apply isWhiteSpace_lowerChar.
    rewrite removeAll_idempotent. reflexivity.
  - unfold normalizeString.
    rewrite (toLowerCase_removeAll isHyphen) by apply isHyphen_lowerChar.
    rewrite (removeAll_comm isWhiteSpace isHyphen), removeAll_idempotent.
    reflexivity.
  - rewrite normalizeString_idempotent. reflexivity.
  - intros body.
    rewrite (findMatchedStandard_normal body _ _ (normalizeId_VStr (normalizeString s))).
    rewrite (findMatchedStandard_normal body _ _ (normalizeId_VStr s)).
    rewrite normalizeString_idempotent. reflexivity.
Qed.

Lemma mapM_Throw {A B} (f : A -> result B) l e :
  mapM f l = Throw e -> exists x, In x l /\ f x = Throw e.
Proof.
  induction l as [|x l IH]; [discriminate|].
  change (mapM f (x :: l)) with (f x ≫= fun y => mapM f l ≫= fun k => mret (y :: k)).
  destruct (f x) as [y|e'] eqn:E.
  - cbn. destruct (mapM f l) as [k|e'] eqn:M; [discriminate|].
    cbn. intros H. inversion H; subst. destruct (IH eq_refl) as (x' & Hx & Hf).
    exists x'. cbn; auto.
  - cbn. intros H. inversion H; subst. exists x. cbn; auto.
Qed.

Lemma reconcileItem_Throw body element e :
  reconcileItem body element = Throw e -> wellFormedItem element = false.
Proof.
  intros H. destruct (wellFormedItem element) eqn:W; [|reflexivity].
  unfold wellFormedItem in W. apply andb_true_iff in W as [Hr Hid].
  destruct (reconcileItem_returns body element Hr) as [matched Hm].
  - intros v <- Ht. destruct (prop element "standardId"); try (rewrite Ht in Hid; discriminate Hid).
    eauto.
  - rewrite Hm in H. discriminate H.
Qed.

Lemma bind_Throw {A B} (r : result A) (k : A -> result B) e :
  (r ≫= k) = Throw e -> r = Throw e \/ exists a, r = Ok a /\ k a = Throw e.
Proof.
  destruct r as [a|e']; cbn; intros H; [eauto|]. left. inversion H. reflexivity.
Qed.

(** X26: why the analysis of a body fails.  It fails only when the key is
    not in the catalog (the AI is then not asked), when the AI call or the
    parsing of its answer fails (the reason is passed on as it is), when
    the answer is null or has no results array, or when an element of the
    results is null or has a standardId that is neither a string nor
    falsy. *)
Theorem X26_analysis_failures ai bodyKey e :
  analyzeBody ai bodyKey = Throw e ->
  (List.find (fun b => String.eqb (AccreditationBody.key b) bodyKey) ACCREDITATION_BODIES = None /\
   e = ErrorObject KError ("Invalid accreditation body key: " +:+ bodyKey)) \/
  (exists body,
      List.find (fun b => String.eqb (AccreditationBody.key b) bodyKey) ACCREDITATION_BODIES
      = Some body /\
      (ai (AccreditationBody.key body) = Throw e \/
       exists parsedData,
         ai (AccreditationBody.key body) = Ok parsedData /\
         ((readable parsedData = false /\ getProp parsedData "results" = Throw e) \/
          (readable parsedData = true /\
           (forall elements, prop parsedData "results" <> VArr elements) /\
           e = invalidStructure body) \/
          (exists elements element,
              prop parsedData "results" = VArr elements /\
              In element elements /\
              wellFormedItem element = false /\
              reconcileItem body element = Throw e)))).
Proof.
  unfold analyzeBody. intros H.
  destruct (List.find _ ACCREDITATION_BODIES) as [body|] eqn:Hf.
  - right. exists body. split; [reflexivity|].
    apply bind_Throw in H as [H|(parsedData & Hai & H)]; [left; exact H|].
    right. exists parsedData. split; [exact Hai|].
    apply bind_Throw in H as [H|(results & Hg & H)].
    + left. split; [|exact H]. destruct parsedData; try discriminate H; reflexivity.
    + apply getProp_Ok in Hg as [Hr ->].
      destruct (prop parsedData "results") as [| | | | |elements|] eqn:Hp;
        try (right; left; split; [exact Hr|]; split; [discriminate|];
             inversion H; reflexivity).
      right. right.
      apply bind_Throw in H as [H|(items & _ & H)]; [|discriminate H].
      unfold reconcileResults in H.
      apply bind_Throw in H as [H|(mapped & _ & H)]; [|discriminate H].
      apply mapM_Throw in H as (element & Hin & Hthrow).
      exists elements, element. repeat split; try assumption.
      exact (reconcileItem_Throw _ _ _ Hthrow).
  - left. split; [reflexivity|]. inversion H. reflexivity.
Qed.

Lemma X26_witness :
  (List.find (fun b => String.eqb (AccreditationBody.key b) "GDC") ACCREDITATION_BODIES = None /\
   ErrorObject KTypeError "Failed to fetch"
   = ErrorObject KError ("Invalid accreditation body key: " +:+ "GDC")) \/
  (exists body,
      List.find (fun b => String.eqb (AccreditationBody.key b) "GDC") ACCREDITATION_BODIES
      = Some body /\
      (adaOnly (AccreditationBody.key body) = Throw (ErrorObject KTypeError "Failed to fetch") \/
       exists parsedData,
         adaOnly (AccreditationBody.key body) = Ok parsedData /\
         ((readable parsedData = false /\
           getProp parsedData "results" = Throw (ErrorObject KTypeError "Failed to fetch")) \/
          (readable parsedData = true /\
           (forall elements, prop parsedData "results" <> VArr elements) /\
           ErrorObject KTypeError "Failed to fetch" = invalidStructure body) \/
          (exists elements element,
              prop parsedData "results" = VArr elements /\
              In element elements /\
              wellFormedItem element = false /\
              reconcileItem body element = Throw (ErrorObject KTypeError "Failed to fetch"))))).
Proof.
  apply (X26_analysis_failures adaOnly "GDC" (ErrorObject KTypeError "Failed to fetch")).
  vm_compute. reflexivity.
Defined.

(* ===================================================================== *)
(** ** The portfolio evidence helper                                      *)
(* ===================================================================== *)

Lemma catalog_ids_not_empty :
  Forall (fun body => Forall (fun s => isEmpty (Standard.id s) = false)
                             (AccreditationBody.standards body))
         ACCREDITATION_BODIES.
Proof. repeat constructor. Qed.

(** What holds of the cells of the portfolio helper. *)
Lemma portfolio_invariant c :
  portfolioReachable c ->
  exists body s,
    List.find (fun b => String.eqb (AccreditationBody.key b)
                                   (Portfolio.selectedBodyKeyForPortfolio c))
              ACCREDITATION_BODIES = Some body /\
    Portfolio.availableStandardsForPortfolio c = AccreditationBody.standards body /\
    List.find (fun s => String.eqb (Standard.id s) (Portfolio.selectedStandardIdForPortfolio c))
              (AccreditationBody.standards body) = Some s.
Proof.
  induction 1 as [|bodyKey c _ _ Hin|standardId c _ IH Hin].
  - eexists. eexists. vm_compute. repeat split.
  - cbn in Hin. destruct Hin as [<-|[<-|[<-|[]]]]; eexists; eexists; vm_compute; repeat split.
  - destruct IH as (body & s & Hb & Ha & _). rewrite Ha in Hin.
    apply in_map_iff in Hin as (s' & <- & Hs').
    destruct (find_In_some (fun x => String.eqb (Standard.id x) (Standard.id s')) _ s' Hs'
                (String.eqb_refl _)) as [s'' Hs''].
    exists body, s''. cbn [Portfolio.selectStandard Portfolio.selectedBodyKeyForPortfolio
      Portfolio.availableStandardsForPortfolio Portfolio.selectedStandardIdForPortfolio].
    auto.
Qed.

(** X29: the portfolio helper always has a valid selection.  However the
    two selects are used, on the catalog the selected key is that of a
    catalog body, the standards offered are that body's, and the selected
    id is the id of one of them: the request is made for that body and
    that standard, the error about an invalid selection is never set, and
    the button is enabled whenever no request is under way. *)
Theorem X29_portfolio_selection_is_valid c :
  portfolioReachable c ->
  exists body s,
    Portfolio.handleGetPortfolioExamples ACCREDITATION_BODIES c = inl (body, s) /\
    In body ACCREDITATION_BODIES /\
    AccreditationBody.key body = Portfolio.selectedBodyKeyForPortfolio c /\
    Portfolio.availableStandardsForPortfolio c = AccreditationBody.standards body /\
    In s (AccreditationBody.standards body) /\
    Standard.id s = Portfolio.selectedStandardIdForPortfolio c /\
    Portfolio.buttonDisabled false c = false.
Proof.
  intros H. destruct (portfolio_invariant c H) as (body & s & Hb & Ha & Hs).
  exists body, s. unfold Portfolio.handleGetPortfolioExamples. rewrite Hb, Hs.
  pose proof (find_some _ _ Hb) as [Hbin Hbk]. pose proof (find_some _ _ Hs) as [Hsin Hsk].
  apply String.eqb_eq in Hbk, Hsk.
  repeat split; try assumption.
  unfold Portfolio.buttonDisabled. cbn [orb]. rewrite <- Hsk.
  pose proof catalog_ids_not_empty as Hne. rewrite List.Forall_forall in Hne.
  specialize (Hne body Hbin). rewrite List.Forall_forall in Hne. exact (Hne s Hsin).
Qed.

Lemma X29_witness :
  exists body s,
    Portfolio.handleGetPortfolioExamples ACCREDITATION_BODIES
      (Portfolio.selectStandard "GDC-3.0"
         (Portfolio.selectBody ACCREDITATION_BODIES "GDC" (Portfolio.mount ACCREDITATION_BODIES)))
    = inl (body, s) /\
    AccreditationBody.key body = "GDC" /\
    Standard.id s = "GDC-3.0".
Proof.
  destruct (X29_portfolio_selection_is_valid
              (Portfolio.selectStandard "GDC-3.0"
                 (Portfolio.selectBody ACCREDITATION_BODIES "GDC"
                    (Portfolio.mount ACCREDITATION_BODIES))))
    as (body & s & H1 & _ & H2 & _ & _ & H3 & _).
  - apply portfolio_selectStandard; [apply portfolio_selectBody; [apply portfolio_mount|]|].
    + vm_compute. auto.
    + vm_compute. auto.
  - exists body, s. auto.
Defined.
